(** * TAIPOWER portal client: login state machine, captcha pipeline and
    publication of the dashboard

    A shallow embedding of [src/main.py].  Every definition below is the
    translation of the Python function of the same name; the line numbers
    in the comments refer to that file.

    Conventions.
    - A Python [str] is a Rocq [string]; a character is the code point
      (below 256) that its [ascii] denotes, so [len] is [String.length].
    - Python integers are [Z].
    - The interpreter's outside world (the HTTP session, the tesseract
      binary, the console, the wall clock) is an explicit environment
      [Env]; the functions that touch it live in the state-and-exception
      monad [M], which also records every effect in a trace.
    - [print] calls only narrate progress and are left out. *)

From Stdlib Require Import ZArith NArith QArith List String Ascii Bool Lia.
From Stdlib Require Import DecimalString Strings.Byte.
From Stdlib Require DecimalPos DecimalZ.
Import ListNotations.

Set Implicit Arguments.
Set Warnings "-register-all".
Local Open Scope string_scope.
Local Open Scope Z_scope.

(* ================================================================== *)
(** ** Python strings *)

Module PyStr.

Definition code (c : ascii) : N := N_of_ascii c.

Definition in_range (lo hi c : ascii) : bool :=
  (code lo <=? code c)%N && (code c <=? code hi)%N.

(** [len(s)] *)
Definition len (s : string) : Z := Z.of_nat (String.length s).

(** A regular-expression character class [[...]] or [[^...]]. *)
Record char_class := {
  negated : bool;
  ranges : list (ascii * ascii)
}.

Definition class_matches (cls : char_class) (c : ascii) : bool :=
  xorb (negated cls)
       (existsb (fun r => in_range (fst r) (snd r) c) (ranges cls)).

(** [re.sub(cls, repl, text)] for a pattern that is one character
    class: the text is scanned left to right, every character the
    class matches is replaced by [repl], every other one is kept. *)
Fixpoint re_sub_class (cls : char_class) (repl text : string) : string :=
  match text with
  | EmptyString => EmptyString
  | String c rest =>
      if class_matches cls c
      then repl ++ re_sub_class cls repl rest
      else String c (re_sub_class cls repl rest)
  end.

(** [str.isspace] on one character (code points below 256). *)
Definition isspace (c : ascii) : bool :=
  let n := code c in
  ((9 <=? n) && (n <=? 13) || (28 <=? n) && (n <=? 32)
   || (n =? 133) || (n =? 160))%N.

Fixpoint lstrip (s : string) : string :=
  match s with
  | EmptyString => EmptyString
  | String c rest => if isspace c then lstrip rest else s
  end.

Fixpoint rstrip (s : string) : string :=
  match s with
  | EmptyString => EmptyString
  | String c rest =>
      match rstrip rest with
      | EmptyString => if isspace c then EmptyString else String c EmptyString
      | r => String c r
      end
  end.

(** [s.strip()] *)
Definition strip (s : string) : string := rstrip (lstrip s).

(** [s.lower()] on one character (code points below 256). *)
Definition lower_char (c : ascii) : ascii :=
  let n := code c in
  if ((65 <=? n) && (n <=? 90)
      || (192 <=? n) && (n <=? 222) && negb (n =? 215))%N
  then ascii_of_N (n + 32) else c.

Fixpoint lower (s : string) : string :=
  match s with
  | EmptyString => EmptyString
  | String c rest => String (lower_char c) (lower rest)
  end.

(** [s.startswith(p)] *)
Definition startswith (p s : string) : bool := String.prefix p s.

(** [needle in hay] *)
Fixpoint contains (needle hay : string) : bool :=
  String.prefix needle hay
  || match hay with
     | EmptyString => false
     | String _ rest => contains needle rest
     end.

(** [str(n)] for an integer. *)
Definition of_Z (z : Z) : string := NilZero.string_of_int (Z.to_int z).

(** Truth value of a string: [bool(s)]. *)
Definition truthy (s : string) : bool :=
  match s with EmptyString => false | _ => true end.

End PyStr.

(* ================================================================== *)
(** ** Normalisation of recognised text (lines 150-152) *)

(** The pattern [[^0-9A-Za-z]]. *)
Definition non_alnum_class : PyStr.char_class :=
  {| PyStr.negated := true;
     PyStr.ranges := [("0", "9"); ("A", "Z"); ("a", "z")]%char |}.

Definition _clean_text (text : string) : string :=
  let cleaned := PyStr.re_sub_class non_alnum_class "" text in
  cleaned.

(** The test [len(code) == 4] that [ocr_captcha] (line 251) and
    [solve_captcha_2captcha] (line 231) apply to a normalised text. *)
Definition accepted (cleaned : string) : bool := PyStr.len cleaned =? 4.

(** The characters of [[0-9A-Za-z]], by code point. *)
Definition is_alnum (c : ascii) : bool :=
  let n := PyStr.code c in
  ((48 <=? n) && (n <=? 57) || (65 <=? n) && (n <=? 90)
   || (97 <=? n) && (n <=? 122))%N.

Fixpoint filter_string (p : ascii -> bool) (s : string) : string :=
  match s with
  | EmptyString => EmptyString
  | String c rest =>
      if p c then String c (filter_string p rest) else filter_string p rest
  end.

Fixpoint forall_string (p : ascii -> bool) (s : string) : bool :=
  match s with
  | EmptyString => true
  | String c rest => p c && forall_string p rest
  end.

(** [Subseq s t]: [s] is obtained from [t] by deleting characters. *)
Inductive Subseq : string -> string -> Prop :=
| Subseq_nil : Subseq "" ""
| Subseq_keep c s t : Subseq s t -> Subseq (String c s) (String c t)
| Subseq_drop c s t : Subseq s t -> Subseq s (String c t).

(* ================================================================== *)
(** ** Images and the candidate generator (lines 155-180) *)

Inductive image_filter :=
| SHARPEN
| UnsharpMask (radius percent threshold : Z)
| MedianFilter (size : Z)
| MinFilter (size : Z)
| MaxFilter (size : Z).

Inductive resample := BICUBIC.

(** The operations of the imaging library that the program calls.  The
    program never looks inside a bitmap, so the bitmap type and the
    operations are parameters.  A bitmap is a decoded one: the
    operations are total, and the [OSError] that the library raises when
    it decodes a truncated file on first use is not modelled. *)
Record PIL (Image : Type) := {
  width : Image -> Z;
  height : Image -> Z;
  convert : Image -> string -> Image;
  resize : Image -> Z * Z -> resample -> Image;
  autocontrast : Image -> Image;
  filter : Image -> image_filter -> Image;
  (** [ImageEnhance.Contrast(img).enhance(factor)] *)
  enhance_contrast : Image -> Q -> Image;
  (** [img.point(lambda x, t=thresh: 255 if x > t else 0, mode="1")] *)
  point_above : Image -> Z -> Image;
  invert : Image -> Image;
  (** the bytes that [img.save(buffer, format="PNG")] writes *)
  save_png : Image -> list byte
}.

Definition scales : list Z := [2; 3; 4].
Definition thresholds : list Z := [60; 75; 90; 105; 120; 135; 150; 165; 180; 195].
(** The float literals 1.2, 1.5, 1.8. *)
Definition contrasts : list Q := [12 # 10; 15 # 10; 18 # 10]%Q.

Section Variants.
Context {Image : Type} (pil : PIL Image).

(** Lines 175-178: the inner loop over the thresholds. *)
Definition threshold_variants (enhanced : Image) : list Image :=
  flat_map
    (fun thresh =>
       let bw := point_above pil enhanced thresh in
       [bw; invert pil (convert pil bw "L")])
    thresholds.

(** Lines 172-178: the loop over the contrasts. *)
Definition contrast_variants (base : Image) : list Image :=
  flat_map
    (fun contrast =>
       let enhanced := enhance_contrast pil base contrast in
       enhanced :: threshold_variants enhanced)
    contrasts.

(** Lines 163-170: the base image of one scale and its filtered
    siblings. *)
Definition scale_base (gray : Image) (scale : Z) : Image :=
  let resized :=
    resize pil gray (width pil gray * scale, height pil gray * scale) BICUBIC in
  autocontrast pil resized.

Definition scale_variants (gray : Image) (scale : Z) : list Image :=
  let base := scale_base gray scale in
  [ base;
    filter pil base SHARPEN;
    filter pil base (UnsharpMask 1 150 3);
    filter pil base (MedianFilter 3);
    filter pil base (MinFilter 3);
    filter pil base (MaxFilter 3) ]
  ++ contrast_variants base.

Definition _variants (img : Image) : list Image :=
  let gray := convert pil img "L" in
  flat_map (scale_variants gray) scales.

End Variants.

(* ================================================================== *)
(** ** Python values decoded from JSON *)

Inductive nonfinite := NaN | PosInfinity | NegInfinity.

(** What [json.loads] produces.  A finite float is the rational it
    denotes; a [dict] lists its entries in insertion order, keys unique. *)
Inductive json :=
| JNull
| JBool (b : bool)
| JInt (z : Z)
| JFloat (q : Q)
| JNonFinite (f : nonfinite)
| JStr (s : string)
| JList (items : list json)
| JDict (entries : list (string * json)).

Module Py.

(** [bool(v)] *)
Definition truthy (v : json) : bool :=
  match v with
  | JNull => false
  | JBool b => b
  | JInt z => negb (z =? 0)
  | JFloat q => negb (Qeq_bool q 0)
  | JNonFinite _ => true
  | JStr s => PyStr.truthy s
  | JList items => match items with [] => false | _ => true end
  | JDict entries => match entries with [] => false | _ => true end
  end.

(** [v == 1]: holds of the integer 1, of [True] and of the float 1.0. *)
Definition eq_one (v : json) : bool :=
  match v with
  | JBool b => b
  | JInt z => z =? 1
  | JFloat q => Qeq_bool q 1
  | _ => false
  end.

(** [v != s] for a string literal [s]. *)
Definition neq_str (v : json) (s : string) : bool :=
  match v with
  | JStr t => negb (String.eqb t s)
  | _ => true
  end.

Fixpoint lookup {V : Type} (d : list (string * V)) (k : string) : option V :=
  match d with
  | [] => None
  | (k', v) :: rest => if String.eqb k' k then Some v else lookup rest k
  end.

(** [d[k] = v] on a dict: an existing key keeps its position. *)
Fixpoint dict_set {V : Type} (d : list (string * V)) (k : string) (v : V)
  : list (string * V) :=
  match d with
  | [] => [(k, v)]
  | (k', v') :: rest =>
      if String.eqb k' k then (k, v) :: rest else (k', v') :: dict_set rest k v
  end.

(** [d.update(other)] *)
Definition dict_update {V : Type} (d other : list (string * V))
  : list (string * V) :=
  fold_left (fun acc kv => dict_set acc (fst kv) (snd kv)) other d.

(** [d.get(k, default)] on the entries of a dict. *)
Definition get_default (d : list (string * json)) (k : string) (default : json)
  : json :=
  match lookup d k with Some v => v | None => default end.

(** [isinstance(v, dict)] and [isinstance(v, list)] *)
Definition is_dict (v : json) : bool :=
  match v with JDict _ => true | _ => false end.

Definition is_list (v : json) : bool :=
  match v with JList _ => true | _ => false end.

End Py.

(* ================================================================== *)
(** ** Exceptions, requests and responses *)

Inductive exn :=
| LoginError (msg : string)
(** [requests.RequestException] and its subclasses ([HTTPError], ...) *)
| RequestException (info : string)
| ValueError (info : string)
| EOFError
(** any other subclass of [Exception], by class name *)
| PyException (name : string).

Inductive result (A : Type) :=
| Ok (a : A)
| Raise (e : exn).
Arguments Ok {A} a.
Arguments Raise {A} e.

Inductive method := GET | POST.

Record request := {
  req_method : method;
  req_url : string;
  req_params : list (string * json);
  req_data : list (string * json);
  req_json : option json;
  req_headers : list (string * string);
  req_timeout : Z
}.

Record response := {
  status_code : Z;
  (** [resp.headers.get("Content-Type")] *)
  content_type : option string;
  text : string;
  content : list byte;
  (** what [resp.json()] returns; [None] when it raises [ValueError] *)
  json_body : option json
}.

Inductive http_outcome :=
| HttpResponse (resp : response)
| HttpFailure (info : string).

Inductive ocr_outcome :=
| OcrText (raw : string)
| OcrFailure (info : string).

(** The call sites of the program's HTTP requests. *)
Inductive site :=
| SiteLoginPage        (* line 94 *)
| SiteCaptcha          (* line 145 *)
| SiteSolverUpload     (* line 194 *)
| SiteSolverPoll       (* line 216 *)
| SiteLoginPost        (* line 305 *)
| SiteRedirect         (* line 338 *)
| SiteDashboard        (* line 355 *)
| SiteMeterDebug       (* lines 477 and 489 *)
| SiteMeterList        (* line 504 *)
| SiteMeterSwitchPost  (* line 526 *)
| SiteMeterSwitchGet.  (* line 532 *)

Definition site_eqb (a b : site) : bool :=
  match a, b with
  | SiteLoginPage, SiteLoginPage | SiteCaptcha, SiteCaptcha
  | SiteSolverUpload, SiteSolverUpload | SiteSolverPoll, SiteSolverPoll
  | SiteLoginPost, SiteLoginPost | SiteRedirect, SiteRedirect
  | SiteDashboard, SiteDashboard | SiteMeterDebug, SiteMeterDebug
  | SiteMeterList, SiteMeterList
  | SiteMeterSwitchPost, SiteMeterSwitchPost
  | SiteMeterSwitchGet, SiteMeterSwitchGet => true
  | _, _ => false
  end.

(** The [<form id="loginForm">] element as the HTML parser reports it:
    its [action] attribute and the [name] and [value] attributes of its
    [<input>] descendants, in document order. *)
Record form_node := {
  form_action : option string;
  form_inputs : list (option string * option string)
}.

(** The module-level constants read from [config.json] (lines 27-79). *)
Record Config := {
  LOGIN_PAGE_URL : string;
  LOGIN_POST_URL : string;
  CAPTCHA_URL : string;
  DASHBOARD_URL : string;
  UID_METER_URL : string;
  METER_LIST_URL : string;
  USE_2CAPTCHA : bool;
  CAPTCHA_2CAPTCHA_API_KEY : string;
  USERNAME : string;
  PASSWORD : string;
  METER_NO : string;
  MAX_LOGIN_ATTEMPTS : Z;
  CAPTCHA_MANUAL : bool;
  SAVE_LOGIN_HTML : bool;
  SAVE_LOGIN_RESPONSE : bool;
  DASHBOARD_DEBUG : bool;
  METER_DEBUG : bool
}.

Definition TESSERACT_WHITELIST : string :=
  " -c tessedit_char_whitelist=0123456789ABCDEFGHIJKLMNOPQRSTUVWXYZabcdefghijklmnopqrstuvwxyz".
Definition TESSERACT_CONFIG : string := "--psm 8" ++ TESSERACT_WHITELIST.
Definition TESSERACT_ALT_CONFIG : string := "--psm 7" ++ TESSERACT_WHITELIST.

(** The four recognition profiles of [ocr_captcha] (lines 241-246):
    single word, single line, single block, single character. *)
Definition configs : list string :=
  [ TESSERACT_CONFIG;
    TESSERACT_ALT_CONFIG;
    "--psm 6" ++ TESSERACT_WHITELIST;
    "--psm 10" ++ TESSERACT_WHITELIST ].

(* ================================================================== *)
(** ** [base64.b64encode] *)

Definition b64_alphabet : string :=
  "ABCDEFGHIJKLMNOPQRSTUVWXYZabcdefghijklmnopqrstuvwxyz0123456789+/".

Definition b64_char (n : N) : ascii :=
  match String.get (N.to_nat n) b64_alphabet with
  | Some c => c
  | None => "="%char
  end.

Fixpoint b64encode (bs : list byte) : string :=
  match bs with
  | [] => ""
  | [a] =>
      let x := Byte.to_N a in
      String (b64_char (x / 4))
        (String (b64_char ((x mod 4) * 16)) "==")
  | [a; b] =>
      let x := Byte.to_N a in
      let y := Byte.to_N b in
      String (b64_char (x / 4))
        (String (b64_char ((x mod 4) * 16 + y / 16))
           (String (b64_char ((y mod 16) * 4)) "="))
  | a :: b :: c :: rest =>
      let x := Byte.to_N a in
      let y := Byte.to_N b in
      let z := Byte.to_N c in
      String (b64_char (x / 4))
        (String (b64_char ((x mod 4) * 16 + y / 16))
           (String (b64_char ((y mod 16) * 4 + z / 64))
              (String (b64_char (z mod 64)) (b64encode rest))))
  end%N.

(** Reading base64 back (RFC 4648, section 4): four characters give
    three bytes, and a final group padded with [=] gives one or two.
    The program never decodes; the decoder says what text [b64encode]
    produces. *)
Fixpoint index_of (c : ascii) (s : string) : option nat :=
  match s with
  | EmptyString => None
  | String c' rest =>
      if Ascii.eqb c c' then Some O else option_map S (index_of c rest)
  end.

Definition b64_index (c : ascii) : option N :=
  option_map N.of_nat (index_of c b64_alphabet).

Definition bytes_of (ns : list N) : option (list byte) :=
  fold_right
    (fun n acc =>
       match Byte.of_N n, acc with
       | Some b, Some bs => Some (b :: bs)
       | _, _ => None
       end)
    (Some []) ns.

Fixpoint b64decode (s : string) : option (list byte) :=
  match s with
  | EmptyString => Some []
  | String c0 (String c1 (String c2 (String c3 rest))) =>
      match b64_index c0, b64_index c1 with
      | Some i0, Some i1 =>
          let x := (i0 * 4 + i1 / 16)%N in
          match b64_index c2, b64_index c3 with
          | Some i2, Some i3 =>
              let y := ((i1 mod 16) * 16 + i2 / 4)%N in
              let z := ((i2 mod 4) * 64 + i3)%N in
              match bytes_of [x; y; z], b64decode rest with
              | Some bs, Some more => Some (bs ++ more)%list
              | _, _ => None
              end
          | Some i2, None =>
              let y := ((i1 mod 16) * 16 + i2 / 4)%N in
              if Ascii.eqb c3 "=" && String.eqb rest ""
              then bytes_of [x; y] else None
          | None, _ =>
              if Ascii.eqb c2 "=" && Ascii.eqb c3 "=" && String.eqb rest ""
              then bytes_of [x] else None
          end
      | _, _ => None
      end
  | _ => None
  end.

(* ================================================================== *)
(** ** The environment and the monad of effects *)

(** Everything the interpreter asks of the outside world.  [W] is the
    state of that world (server sessions, cookies, the solving service,
    the console); every call may change it. *)
Record Env (Image W : Type) := {
  pil : PIL Image;
  (** one HTTP exchange: the outcome and the time it took *)
  http_send : request -> W -> http_outcome * N * W;
  (** [pytesseract.image_to_string(variant, config=config)] *)
  image_to_string : Image -> string -> W -> ocr_outcome * W;
  (** [Image.open(io.BytesIO(content))]; [None] when it raises *)
  image_open : list byte -> option Image;
  (** [input(prompt)]; [None] when it raises [EOFError] *)
  console_input : string -> W -> option string * W;
  (** [soup.find("form", {"id": "loginForm"})] on the parsed page *)
  find_login_form : string -> option form_node;
  (** [soup.select_one("#captchaImage")]: its [src] attribute *)
  select_captcha_image : string -> option (option string);
  (** [soup.find("input", {"name": "__RequestVerificationToken"})]:
      its [value] attribute *)
  find_token_input : string -> option (option string);
  (** [requests.compat.urljoin], on the URLs it resolves; the
      [ValueError] it raises on a malformed one is not modelled *)
  urljoin : string -> string -> string;
  (** [json.loads(re.sub(r"new Date\(\s*([-\d]+)\s*\)", r"\1", text))];
      [None] when it raises [ValueError] *)
  json_loads_date_fixed : string -> option json;
  (** [repr] of a float, a list or a dict *)
  repr_json : json -> string
}.

Inductive event (Image : Type) :=
| EvHttp (s : site) (rq : request) (out : http_outcome)
| EvOcr (variant : Image) (config : string) (out : ocr_outcome)
| EvSleep (seconds : Z)
| EvInput (prompt : string) (line : option string)
| EvWrite (filename : string) (contents : string).
Arguments EvHttp {Image} s rq out.
Arguments EvOcr {Image} variant config out.
Arguments EvSleep {Image} seconds.
Arguments EvInput {Image} prompt line.
Arguments EvWrite {Image} filename contents.

(** The state threaded through the program: the world, the wall clock
    in seconds, and the effects performed so far, oldest first. *)
Record state (Image W : Type) := {
  world : W;
  clock : Z;
  trace : list (event Image)
}.

Definition M (Image W A : Type) : Type :=
  state Image W -> result A * state Image W.

Definition ret {Image W A : Type} (a : A) : M Image W A :=
  fun st => (Ok a, st).

Definition raise {Image W A : Type} (e : exn) : M Image W A :=
  fun st => (Raise e, st).

Definition bind {Image W A B : Type} (m : M Image W A) (k : A -> M Image W B)
  : M Image W B :=
  fun st =>
    match m st with
    | (Ok a, st') => k a st'
    | (Raise e, st') => (Raise e, st')
    end.

(** [try: m] with the exception, if any, handed to the caller. *)
Definition try_ {Image W A : Type} (m : M Image W A) : M Image W (result A) :=
  fun st => let (r, st') := m st in (Ok r, st').

Definition lift {Image W A : Type} (r : result A) : M Image W A :=
  fun st => (r, st).

Definition when_ {Image W : Type} (b : bool) (m : M Image W unit)
  : M Image W unit :=
  if b then m else ret tt.

Declare Scope py_scope.
Delimit Scope py_scope with py.
Notation "x <- m ;; k" := (bind m (fun x => k))
  (at level 61, m at next level, right associativity) : py_scope.
Notation "' p <- m ;; k" := (bind m (fun x => let p := x in k))
  (at level 61, p pattern, m at next level, right associativity) : py_scope.
Notation "m ;;; k" := (bind m (fun _ => k))
  (at level 61, right associativity) : py_scope.
Local Open Scope py_scope.

(** [range(lo, hi)] *)
Definition range (lo hi : Z) : list Z :=
  map (fun i => lo + Z.of_nat i) (seq 0 (Z.to_nat (hi - lo))).

Definition request_get (url : string) (params : list (string * json))
  (headers : list (string * string)) (timeout : Z) : request :=
  {| req_method := GET; req_url := url; req_params := params;
     req_data := []; req_json := None; req_headers := headers;
     req_timeout := timeout |}.

Definition request_post (url : string) (data : list (string * json))
  (body : option json) (headers : list (string * string)) (timeout : Z)
  : request :=
  {| req_method := POST; req_url := url; req_params := [];
     req_data := data; req_json := body; req_headers := headers;
     req_timeout := timeout |}.

(** [resp.json()] *)
Definition response_json (resp : response) : result json :=
  match json_body resp with
  | Some v => Ok v
  | None => Raise (ValueError "JSONDecodeError")
  end.

(** [v.get(k)]: only a dict has the method. *)
Definition py_get (v : json) (k : string) : result json :=
  match v with
  | JDict d => Ok (Py.get_default d k JNull)
  | _ => Raise (PyException "AttributeError")
  end.

(** [v.get(k, default)] *)
Definition py_get_default (v : json) (k : string) (default : json)
  : result json :=
  match v with
  | JDict d => Ok (Py.get_default d k default)
  | _ => Raise (PyException "AttributeError")
  end.

(** [v[k]] with a string key. *)
Definition py_index (v : json) (k : string) : result json :=
  match v with
  | JDict d =>
      match Py.lookup d k with
      | Some x => Ok x
      | None => Raise (PyException "KeyError")
      end
  | _ => Raise (PyException "TypeError")
  end.

(** [_clean_text(v)]: [re.sub] accepts only a string. *)
Definition clean_value (v : json) : result string :=
  match v with
  | JStr s => Ok (_clean_text s)
  | _ => Raise (PyException "TypeError")
  end.

(* ================================================================== *)
(** ** The program *)

Section Program.
Context {Image W : Type} (E : Env Image W).

Local Abbreviation Eff := (M Image W).

(** *** Primitive effects *)

Definition log (ev : event Image) : Eff unit :=
  fun st =>
    (Ok tt, {| world := world st; clock := clock st;
               trace := trace st ++ [ev] |}).

(** [session.get], [session.post], [requests.get], [requests.post]: a
    failure of the transport raises a [RequestException]. *)
Definition send (s : site) (rq : request) : Eff response :=
  fun st =>
    let '(out, dt, w') := http_send E rq (world st) in
    let st' := {| world := w'; clock := clock st + Z.of_N dt;
                  trace := trace st ++ [EvHttp s rq out] |} in
    match out with
    | HttpResponse resp => (Ok resp, st')
    | HttpFailure info => (Raise (RequestException info), st')
    end.

(** [pytesseract.image_to_string] *)
Definition tesseract (variant : Image) (config : string) : Eff string :=
  fun st =>
    let '(out, w') := image_to_string E variant config (world st) in
    let st' := {| world := w'; clock := clock st;
                  trace := trace st ++ [EvOcr variant config out] |} in
    match out with
    | OcrText raw => (Ok raw, st')
    | OcrFailure info => (Raise (PyException "TesseractError"), st')
    end.

(** [input(prompt)] *)
Definition input (prompt : string) : Eff string :=
  fun st =>
    let '(line, w') := console_input E prompt (world st) in
    let st' := {| world := w'; clock := clock st;
                  trace := trace st ++ [EvInput prompt line] |} in
    match line with
    | Some l => (Ok l, st')
    | None => (Raise EOFError, st')
    end.

(** [time.time()] *)
Definition time_time : Eff Z := fun st => (Ok (clock st), st).

(** [time.sleep(seconds)] *)
Definition time_sleep (seconds : Z) : Eff unit :=
  fun st =>
    (Ok tt, {| world := world st; clock := clock st + seconds;
               trace := trace st ++ [EvSleep seconds] |}).

(** [with open(filename, "w") as fh: fh.write(contents)] *)
Definition write_file (filename contents : string) : Eff unit :=
  log (EvWrite filename contents).

(** [resp.raise_for_status()] *)
Definition raise_for_status (resp : response) : result unit :=
  if (400 <=? status_code resp) && (status_code resp <? 600)
  then Raise (RequestException ("HTTPError " ++ PyStr.of_Z (status_code resp)))
  else Ok tt.

(** [str(v)] *)
Definition py_str (v : json) : string :=
  match v with
  | JNull => "None"
  | JBool true => "True"
  | JBool false => "False"
  | JInt z => PyStr.of_Z z
  | JStr s => s
  | _ => repr_json E v
  end.

(** *** [get_login_page] (lines 86-104) *)

Fixpoint get_login_page_loop (urls : list string) (last_err : option exn)
  : Eff string :=
  match urls with
  | [] =>
      match last_err with
      | Some err => raise err
      | None => raise (LoginError "Unable to load login page")
      end
  | url :: rest =>
      r <- try_ (resp <- send SiteLoginPage (request_get url [] [] 20) ;;
                 lift (raise_for_status resp) ;;;
                 ret resp) ;;
      match r with
      | Ok resp =>
          if PyStr.contains "__RequestVerificationToken" (text resp)
          then ret (text resp)
          else get_login_page_loop rest last_err
      | Raise (RequestException info) =>
          get_login_page_loop rest (Some (RequestException info))
      | Raise e => raise e
      end
  end.

Definition get_login_page (cfg : Config) : Eff string :=
  let urls :=
    [ LOGIN_PAGE_URL cfg;
      "https://service.taipower.com.tw/hvcs/SignOn/Module/Login" ] in
  get_login_page_loop urls None.

(** *** [parse_login_form] (lines 107-133) *)

(** Lines 117-122: the loop that fills [fields]. *)
Fixpoint collect_fields (inputs : list (option string * option string))
  (fields : list (string * string)) : list (string * string) :=
  match inputs with
  | [] => fields
  | (name, value) :: rest =>
      match name with
      | None => collect_fields rest fields
      | Some n =>
          if negb (PyStr.truthy n) then collect_fields rest fields
          else
            let v := match value with Some v => v | None => "" end in
            collect_fields rest (Py.dict_set fields n v)
      end
  end.

Definition parse_login_form (cfg : Config) (html : string)
  : result (string * list (string * string) * string) :=
  match find_login_form E html with
  | None => Raise (LoginError "Login form not found")
  | Some form =>
      let action :=
        PyStr.strip (match form_action form with Some a => a | None => "" end) in
      if negb (PyStr.truthy action)
      then Raise (LoginError "Login form action not found")
      else
        let fields := collect_fields (form_inputs form) [] in
        let captcha_src :=
          match select_captcha_image E html with
          | Some src =>
              PyStr.strip (match src with Some s => s | None => "" end)
          | None => ""
          end in
        let captcha_src :=
          if negb (PyStr.truthy captcha_src)
          then "/hvcs/Other/Module/Chptcha" else captcha_src in
        let action_url := urljoin E (LOGIN_PAGE_URL cfg) action in
        let captcha_url := urljoin E (LOGIN_PAGE_URL cfg) captcha_src in
        Ok (action_url, fields, captcha_url)
  end.

(** *** [extract_token] (lines 136-141) *)

Definition extract_token (html : string) : result string :=
  match find_token_input E html with
  | Some (Some value) =>
      if PyStr.truthy value then Ok value
      else Raise (LoginError "Missing __RequestVerificationToken on login page")
  | _ => Raise (LoginError "Missing __RequestVerificationToken on login page")
  end.

(** *** [fetch_captcha] (lines 144-147) *)

Definition fetch_captcha (cfg : Config) (url : string) : Eff Image :=
  resp <- send SiteCaptcha
            (request_get url [] [("Referer", LOGIN_PAGE_URL cfg)] 20) ;;
  lift (raise_for_status resp) ;;;
  match image_open E (content resp) with
  | Some img => ret img
  | None => raise (PyException "UnidentifiedImageError")
  end.

(** *** [ocr_captcha] (lines 240-253) *)

(** Lines 248-252: the inner loop over the profiles; [Some cleaned] is
    the [return] of line 252. *)
Fixpoint ocr_configs (variant : Image) (cs : list string)
  : Eff (option string) :=
  match cs with
  | [] => ret None
  | config :: rest =>
      raw <- tesseract variant config ;;
      let cleaned := _clean_text raw in
      if accepted cleaned then ret (Some cleaned)
      else ocr_configs variant rest
  end.

(** Lines 247-253: the outer loop over the candidate images. *)
Fixpoint ocr_variants (vs : list Image) : Eff string :=
  match vs with
  | [] => ret ""
  | variant :: rest =>
      r <- ocr_configs variant configs ;;
      match r with
      | Some cleaned => ret cleaned
      | None => ocr_variants rest
      end
  end.

Definition ocr_captcha (img : Image) : Eff string :=
  ocr_variants (_variants (pil E) img).

(** *** [solve_captcha_2captcha] (lines 182-238) *)

Definition poll_request (cfg : Config) (captcha_id : json) : request :=
  request_get "http://2captcha.com/res.php"
    [ ("key", JStr (CAPTCHA_2CAPTCHA_API_KEY cfg));
      ("action", JStr "get");
      ("id", captcha_id);
      ("json", JInt 1) ]
    [] 30.

(** Lines 226-236, what one poll response leads to: [Ok (Some code)] is
    a [return] (lines 232-233), [Ok None] lets the loop go round again,
    [Raise] leaves the function. *)
Definition read_poll (poll : response) : result (option string) :=
  match raise_for_status poll with
  | Raise e => Raise e
  | Ok _ =>
  match response_json poll with
  | Raise e => Raise e
  | Ok data =>
  match py_get data "status" with
  | Raise e => Raise e
  | Ok status =>
      if Py.eq_one status then
        match py_get_default data "request" (JStr "") with
        | Raise e => Raise e
        | Ok request =>
            match clean_value request with
            | Raise e => Raise e
            | Ok code => if accepted code then Ok (Some code) else Ok (Some "")
            end
        end
      else
        match py_get data "request" with
        | Raise e => Raise e
        | Ok request =>
            if Py.neq_str request "CAPCHA_NOT_READY"
            then Raise (LoginError ("2Captcha error: " ++ repr_json E data))
            else Ok None
        end
  end end end.

(** Lines 214-238, the [while] loop.  One unit of [fuel] pays for one
    evaluation of the loop condition; [None] reports that the fuel ran
    out, which never happens from [poll_fuel] on (see [poll_loop_spec]
    and [poll_fuel_covers]). *)
Fixpoint poll_loop (fuel : nat) (cfg : Config) (captcha_id : json)
  (start timeout : Z) : Eff (option string) :=
  match fuel with
  | O => ret None
  | S fuel' =>
      now <- time_time ;;
      if now - start <? timeout then
        time_sleep 5 ;;;
        poll <- send SiteSolverPoll (poll_request cfg captcha_id) ;;
        verdict <- lift (read_poll poll) ;;
        match verdict with
        | Some code => ret (Some code)
        | None => poll_loop fuel' cfg captcha_id start timeout
        end
      else raise (LoginError "2Captcha timeout")
  end.

(** Enough fuel for a loop whose every turn sleeps five seconds. *)
Definition poll_fuel (timeout : Z) : nat := S (Z.to_nat ((timeout + 4) / 5)).

Definition upload_request (cfg : Config) (img : Image) : request :=
  let img_b64 := b64encode (save_png (pil E) img) in
  request_post "http://2captcha.com/in.php"
    [ ("key", JStr (CAPTCHA_2CAPTCHA_API_KEY cfg));
      ("method", JStr "base64");
      ("body", JStr img_b64);
      ("json", JInt 1) ]
    None [] 30.

(** Lines 204-210, what the upload response leads to: the job id
    [captcha_id], or an exception. *)
Definition read_upload (resp : response) : result json :=
  match raise_for_status resp with
  | Raise e => Raise e
  | Ok _ =>
  match response_json resp with
  | Raise e => Raise e
  | Ok result =>
  match py_get result "status" with
  | Raise e => Raise e
  | Ok status =>
      if negb (Py.eq_one status)
      then Raise (LoginError ("2Captcha upload failed: " ++ repr_json E result))
      else py_index result "request"
  end end end.

Definition solve_captcha_2captcha (cfg : Config) (img : Image) (timeout : Z)
  : Eff string :=
  if negb (PyStr.truthy (CAPTCHA_2CAPTCHA_API_KEY cfg))
  then raise (LoginError "2Captcha API key not set")
  else
    resp <- send SiteSolverUpload (upload_request cfg img) ;;
    captcha_id <- lift (read_upload resp) ;;
    start <- time_time ;;
    r <- poll_loop (poll_fuel timeout) cfg captcha_id start timeout ;;
    match r with
    | Some code => ret code
    | None => raise (LoginError "2Captcha timeout")
    end.

(** *** [dump_meter_debug] (lines 472-492) *)

(** One turn of either loop: fetch, and save the body on status 200. *)
Definition dump_page (filename url : string) : Eff unit :=
  resp <- send SiteMeterDebug (request_get url [] [] 20) ;;
  when_ (status_code resp =? 200) (write_file filename (text resp)).

Fixpoint dump_pages (pages : list (string * string)) : Eff unit :=
  match pages with
  | [] => ret tt
  | (filename, url) :: rest => dump_page filename url ;;; dump_pages rest
  end.

Definition dump_meter_debug (cfg : Config) : Eff unit :=
  let pages := [ ("meter_list.html", UID_METER_URL cfg) ] in
  dump_pages pages ;;;
  let endpoints :=
    [ ("role_subgroup.json",
       "/hvcs/Controllers/Manager/getRoleSubGroup/getRoleSubGroup");
      ("meter_subgroup.json",
       "/hvcs/Controllers/Manager/getRoleSubGroup/getMeterRoleSubGroup");
      ("meter_competence.json",
       "/hvcs/Controllers/Manager/getRoleSubGroup/getMeterCompetence") ] in
  dump_pages
    (map (fun fp => (fst fp, urljoin E (LOGIN_PAGE_URL cfg) (snd fp)))
       endpoints).

(** *** [select_meter_no] (lines 495-537) *)

(** Lines 520-523: the loop that collects the account's meters. *)
Fixpoint collect_meters (data : list json) (meter_list : list string)
  : result (list string) :=
  match data with
  | [] => Ok meter_list
  | item :: rest =>
      let grouped :=
        match item with
        | JDict d => Py.get_default d "UserMeter_GroupbyMeter" JNull
        | _ => JNull
        end in
      if Py.truthy grouped then
        match py_get grouped "MeterNo" with
        | Raise e => Raise e
        | Ok no =>
            if Py.truthy no
            then collect_meters rest (meter_list ++ [py_str no])
            else collect_meters rest meter_list
        end
      else collect_meters rest meter_list
  end.

Definition meter_headers (cfg : Config) : list (string * string) :=
  [ ("Referer", UID_METER_URL cfg);
    ("X-Requested-With", "XMLHttpRequest");
    ("Accept", "application/json, text/plain, */*");
    ("Content-Type", "application/json; charset=utf-8") ].

Definition select_meter_no (cfg : Config) (meter_no : string) : Eff unit :=
  if negb (PyStr.truthy meter_no) then ret tt
  else
    resp <- send SiteMeterList
              (request_post (METER_LIST_URL cfg) [] (Some (JDict []))
                 (meter_headers cfg) 20) ;;
    if status_code resp >=? 400
    then raise (LoginError ("Meter list request failed "
                            ++ PyStr.of_Z (status_code resp)))
    else
      payload <-
        match json_body resp with
        | Some v => ret v
        | None =>
            when_ (METER_DEBUG cfg)
              (write_file "meter_list_response.html" (text resp)) ;;;
            match json_loads_date_fixed E (text resp) with
            | Some v => ret v
            | None => raise (LoginError "Meter list response is not JSON")
            end
        end ;;
      d <- lift (py_get payload "data") ;;
      let data := match d with JList items => items | _ => [] end in
      meter_list <- lift (collect_meters data []) ;;
      if negb (existsb (String.eqb meter_no) meter_list)
      then raise (LoginError ("MeterNo " ++ meter_no
                              ++ " not found in account list"))
      else
        send SiteMeterSwitchPost
          (request_post (UID_METER_URL cfg) [("MeterNo", JStr meter_no)] None
             [("Referer", UID_METER_URL cfg)] 20) ;;;
        send SiteMeterSwitchGet
          (request_get (UID_METER_URL cfg) [("MeterNo", JStr meter_no)]
             [("Referer", UID_METER_URL cfg)] 20) ;;;
        ret tt.

(** *** [login_and_get_dashboard] (lines 256-370) *)

(** Lines 272-294, the captcha step of one attempt.  [Some code]: the
    attempt goes on to line 296 with [captcha_code = code]; [None]: one
    of the [continue] statements of lines 288, 290 and 294 was taken. *)
Definition solve_step (cfg : Config) (captcha_img : Image)
  : Eff (option string) :=
  if USE_2CAPTCHA cfg then
    r <- try_ (solve_captcha_2captcha cfg captcha_img 120) ;;
    match r with
    | Ok captcha_code => ret (Some captcha_code)
    | Raise _ =>
        captcha_code <- ocr_captcha captcha_img ;;
        ret (Some captcha_code)
    end
  else
    captcha_code <- ocr_captcha captcha_img ;;
    if CAPTCHA_MANUAL cfg then
      r <- try_ (input "Enter captcha (4 chars): ") ;;
      match r with
      | Ok line =>
          let manual := PyStr.strip line in
          if PyStr.len manual =? 4 then ret (Some manual) else ret None
      | Raise EOFError => ret None
      | Raise e => raise e
      end
    else
      (* lines 292-294: the [continue] is not under the [if] *)
      ret None.

(** Lines 296-319: the credential POST. *)
Definition login_payload (cfg : Config) (fields : list (string * string))
  (token captcha_code : string) : list (string * json) :=
  Py.dict_update
    (map (fun kv => (fst kv, JStr (snd kv))) fields)
    [ ("__RequestVerificationToken", JStr token);
      ("UserName", JStr (USERNAME cfg));
      ("UserPwd", JStr (PASSWORD cfg));
      ("Captcha", JStr captcha_code) ].

Definition submit (cfg : Config) (attempt : Z) (action_url : string)
  (fields : list (string * string)) (token captcha_code : string)
  : Eff response :=
  let payload := login_payload cfg fields token captcha_code in
  resp <- send SiteLoginPost
            (request_post action_url payload None
               [ ("Referer", LOGIN_PAGE_URL cfg);
                 ("RequestVerificationToken", token) ] 20) ;;
  when_ (SAVE_LOGIN_RESPONSE cfg)
    (write_file ("login_response_" ++ PyStr.of_Z attempt ++ ".html")
       (text resp)) ;;;
  ret resp.

(** Lines 320-345: the value of [login_ok] after the response has been
    read. *)
Definition interpret_response (cfg : Config) (resp : response) : Eff bool :=
  let ctype := match content_type resp with Some c => c | None => "" end in
  if PyStr.startswith "application/json" (PyStr.lower ctype) then
    let data := match json_body resp with Some v => v | None => JDict [] end in
    d <- lift (py_get data "data") ;;
    let data_block := match d with JDict b => b | _ => [] end in
    let status := Py.get_default data_block "Status" JNull in
    let redirect_url := Py.get_default data_block "Url" JNull in
    if Py.truthy status && Py.truthy redirect_url then
      match redirect_url with
      | JStr u =>
          send SiteRedirect
            (request_get (urljoin E (LOGIN_PAGE_URL cfg) u) [] [] 20) ;;;
          ret true
      | _ => raise (PyException "TypeError")
      end
    else if Py.truthy status then ret true
    else ret false
  else ret (status_code resp <? 400).

(** Lines 347-353: [true] when the [continue] of line 353 is taken. *)
Definition meter_step (cfg : Config) (login_ok : bool) : Eff bool :=
  if login_ok && PyStr.truthy (METER_NO cfg) then
    r <- try_ (select_meter_no cfg (METER_NO cfg)) ;;
    match r with
    | Ok _ => ret false
    | Raise (LoginError _) => time_sleep 1 ;;; ret true
    | Raise e => raise e
    end
  else ret false.

(** Lines 354-368: [Some html] is the [return] of line 362; [None] is
    the end of the loop body. *)
Definition verify_dashboard (cfg : Config) (attempt : Z)
  : Eff (option string) :=
  dash <- send SiteDashboard (request_get (DASHBOARD_URL cfg) [] [] 20) ;;
  when_ (DASHBOARD_DEBUG cfg)
    (write_file ("dashboard_" ++ PyStr.of_Z attempt ++ ".html") (text dash)) ;;;
  when_ (METER_DEBUG cfg) (dump_meter_debug cfg) ;;;
  if PyStr.contains "card_1" (text dash) then ret (Some (text dash))
  else time_sleep 1 ;;; ret None.

(** Lines 347-368: the attempt once [login_ok] is known. *)
Definition finish_attempt (cfg : Config) (attempt : Z) (login_ok : bool)
  : Eff (option string) :=
  skip <- meter_step cfg login_ok ;;
  if skip then ret None else verify_dashboard cfg attempt.

(** Lines 296-368: what follows a captcha code. *)
Definition submit_and_verify (cfg : Config) (attempt : Z)
  (action_url : string) (fields : list (string * string))
  (token captcha_code : string) : Eff (option string) :=
  resp <- submit cfg attempt action_url fields token captcha_code ;;
  login_ok <- interpret_response cfg resp ;;
  finish_attempt cfg attempt login_ok.

(** Lines 261-368: the body of the attempt loop.  [Some html] is the
    [return] of line 362; [None] sends the loop to its next turn. *)
Definition login_attempt (cfg : Config) (attempt : Z) : Eff (option string) :=
  html <- get_login_page cfg ;;
  when_ (SAVE_LOGIN_HTML cfg)
    (write_file ("login_page_" ++ PyStr.of_Z attempt ++ ".html") html) ;;;
  form <- lift (parse_login_form cfg html) ;;
  let '(action_url, fields, captcha_url) := form in
  token <- lift (extract_token html) ;;
  captcha_img <- fetch_captcha cfg captcha_url ;;
  code <- solve_step cfg captcha_img ;;
  match code with
  | None => ret None
  | Some captcha_code =>
      submit_and_verify cfg attempt action_url fields token captcha_code
  end.

Fixpoint login_loop (cfg : Config) (attempts : list Z) : Eff string :=
  match attempts with
  | [] => raise (LoginError "Login failed after multiple attempts")
  | attempt :: rest =>
      r <- login_attempt cfg attempt ;;
      match r with
      | Some html => ret html
      | None => login_loop cfg rest
      end
  end.

Definition login_and_get_dashboard (cfg : Config) : Eff string :=
  if negb (PyStr.truthy (USERNAME cfg)) || negb (PyStr.truthy (PASSWORD cfg))
  then raise (LoginError "TAIPOWER_USERNAME or TAIPOWER_PASSWORD not set")
  else login_loop cfg (range 1 (MAX_LOGIN_ATTEMPTS cfg + 1)).

End Program.

(* ================================================================== *)
(** ** Reading a trace *)

Section Observations.
Context {Image : Type}.

Definition is_site (s : site) (ev : event Image) : bool :=
  match ev with
  | EvHttp s' _ _ => site_eqb s s'
  | _ => false
  end.

(** How many requests of the trace were sent from call site [s]. *)
Definition count_site (s : site) (evs : list (event Image)) : nat :=
  List.length (List.filter (is_site s) evs).

(** The (candidate, profile) pair of a recognition call. *)
Definition ocr_call (ev : event Image) : option (Image * string) :=
  match ev with
  | EvOcr variant config _ => Some (variant, config)
  | _ => None
  end.

(** The code a recognition call yields: its text, normalised, when that
    has four characters. *)
Definition ocr_code (ev : event Image) : option string :=
  match ev with
  | EvOcr _ _ (OcrText raw) =>
      if accepted (_clean_text raw) then Some (_clean_text raw) else None
  | _ => None
  end.

Definition ocr_failed (ev : event Image) : bool :=
  match ev with
  | EvOcr _ _ (OcrFailure _) => true
  | _ => false
  end.

(** A recognition call that came back with no code. *)
Definition ocr_rejected (ev : event Image) : Prop :=
  ocr_code ev = None /\ ocr_failed ev = false.

(** The effects of the polling loop when its polls come back with
    [outs]: each poll is preceded by a sleep of five seconds. *)
Fixpoint poll_events (rq : request) (outs : list http_outcome)
  : list (event Image) :=
  match outs with
  | [] => []
  | out :: rest =>
      EvSleep 5 :: EvHttp SiteSolverPoll rq out :: poll_events rq rest
  end.

(** A trace whose requests all come from the call sites of [allowed]. *)
Definition site_allowed (allowed : site -> bool) (ev : event Image) : bool :=
  match ev with
  | EvHttp s _ _ => allowed s
  | _ => true
  end.

Definition sites_ok (allowed : site -> bool) (evs : list (event Image)) : Prop :=
  Forall (fun ev => site_allowed allowed ev = true) evs.

End Observations.

(** [emits m P]: from every state, [m] appends to the trace some events
    [evs] such that [P] holds of its result and [evs]. *)
Definition emits {Image W A : Type} (m : M Image W A)
  (P : result A -> list (event Image) -> Prop) : Prop :=
  forall st,
    exists evs,
      trace (snd (m st)) = (trace st ++ evs)%list /\ P (fst (m st)) evs.

(** [only allowed m]: [m] sends requests from the sites of [allowed]
    only. *)
Definition only {Image W A : Type} (allowed : site -> bool) (m : M Image W A)
  : Prop :=
  emits m (fun _ evs => sites_ok allowed evs).

(** [returns m R]: from every state, the result of [m] satisfies [R]. *)
Definition returns {Image W A : Type} (m : M Image W A)
  (R : result A -> Prop) : Prop :=
  forall st, R (fst (m st)).

(** An attempt that returns a page returns one with the marker. *)
Definition marked (r : result (option string)) : Prop :=
  match r with
  | Ok (Some html) => PyStr.contains "card_1" html = true
  | _ => True
  end.

(** The call sites of an attempt before its credential POST, when the
    captcha is solved locally. *)
Definition page_sites (s : site) : bool :=
  match s with
  | SiteLoginPage | SiteCaptcha => true
  | _ => false
  end.

(** All call sites but [s]. *)
Definition all_but (s : site) (s' : site) : bool := negb (site_eqb s s').

(** [counts s n m]: [m] sends at most [n] requests from site [s]. *)
Definition counts {Image W A : Type} (s : site) (n : nat) (m : M Image W A)
  : Prop :=
  emits m (fun _ evs => (count_site s evs <= n)%nat).

(** A poll that came back "not ready". *)
Definition poll_not_ready {Image W : Type} (E : Env Image W)
  (out : http_outcome) : bool :=
  match out with
  | HttpResponse poll =>
      match read_poll E poll with Ok None => true | _ => false end
  | HttpFailure _ => false
  end.

(** The last poll of a run that ended in exception [e]: the transport
    failed, or the response was one that [read_poll] raises on. *)
Definition poll_raises {Image W : Type} (E : Env Image W)
  (final : http_outcome) (e : exn) : Prop :=
  match final with
  | HttpFailure info => e = RequestException info
  | HttpResponse poll => read_poll E poll = Raise e
  end.

(** How a run of the polling loop whose polls came back with [outs]
    ends, [elapsed] seconds after it started: on the first poll that is
    not "not ready", or on the timeout. *)
Definition polling_ends {Image W : Type} (E : Env Image W)
  (outs : list http_outcome) (timeout elapsed : Z) (r : result string) : Prop :=
  match r with
  | Ok code =>
      exists before poll,
        outs = before ++ [HttpResponse poll]
        /\ Forall (fun o => poll_not_ready E o = true) before
        /\ read_poll E poll = Ok (Some code)
  | Raise e =>
      (exists before final,
          outs = before ++ [final]
          /\ Forall (fun o => poll_not_ready E o = true) before
          /\ poll_raises E final e)
      \/ (e = LoginError "2Captcha timeout"
          /\ Forall (fun o => poll_not_ready E o = true) outs
          /\ timeout <= elapsed)
  end%list.

(** An entry of the meter list that follows the documented structure:
    anything but a dict is skipped, and in a dict the value under
    [UserMeter_GroupbyMeter] is a dict or is false. *)
Definition entry_well_formed (item : json) : bool :=
  match item with
  | JDict d =>
      match Py.get_default d "UserMeter_GroupbyMeter" JNull with
      | JDict _ => true
      | grouped => negb (Py.truthy grouped)
      end
  | _ => true
  end.

(** The meter number an entry carries, as a string. *)
Definition entry_meter {Image W : Type} (E : Env Image W) (item : json)
  : option string :=
  match item with
  | JDict d =>
      match Py.get_default d "UserMeter_GroupbyMeter" JNull with
      | JDict g =>
          match g with
          | [] => None
          | _ =>
              let no := Py.get_default g "MeterNo" JNull in
              if Py.truthy no then Some (py_str E no) else None
          end
      | _ => None
      end
  | _ => None
  end.

Definition has_meter {Image W : Type} (E : Env Image W) (meter_no : string)
  (item : json) : bool :=
  match entry_meter E item with
  | Some no => String.eqb meter_no no
  | None => false
  end.

(** The three requests of [select_meter_no]. *)
Definition meter_list_request (cfg : Config) : request :=
  request_post (METER_LIST_URL cfg) [] (Some (JDict [])) (meter_headers cfg) 20.

Definition meter_switch_post (cfg : Config) (meter_no : string) : request :=
  request_post (UID_METER_URL cfg) [("MeterNo", JStr meter_no)] None
    [("Referer", UID_METER_URL cfg)] 20.

Definition meter_switch_get (cfg : Config) (meter_no : string) : request :=
  request_get (UID_METER_URL cfg) [("MeterNo", JStr meter_no)]
    [("Referer", UID_METER_URL cfg)] 20.

Definition dashboard_request (cfg : Config) : request :=
  request_get (DASHBOARD_URL cfg) [] [] 20.

Definition login_page_request (cfg : Config) : request :=
  request_get (LOGIN_PAGE_URL cfg) [] [] 20.

Definition captcha_request (cfg : Config) (url : string) : request :=
  request_get url [] [("Referer", LOGIN_PAGE_URL cfg)] 20.

Definition exhausted : exn := LoginError "Login failed after multiple attempts".

(** A portal whose login page always arrives on the first request, with
    the anti-forgery marker, a form and a token. *)
Definition page_always_loads {Image W : Type} (E : Env Image W)
  (cfg : Config) : Prop :=
  forall w,
    exists resp dt w',
      http_send E (login_page_request cfg) w = (HttpResponse resp, dt, w')
      /\ raise_for_status resp = Ok tt
      /\ PyStr.contains "__RequestVerificationToken" (text resp) = true
      /\ (exists form, parse_login_form E cfg (text resp) = Ok form)
      /\ (exists token, extract_token E (text resp) = Ok token).

(** A portal whose captcha image always arrives and decodes. *)
Definition captcha_always_loads {Image W : Type} (E : Env Image W)
  (cfg : Config) : Prop :=
  forall url w,
    exists resp dt w' img,
      http_send E (captcha_request cfg url) w = (HttpResponse resp, dt, w')
      /\ raise_for_status resp = Ok tt
      /\ image_open E (content resp) = Some img.

(** A recognizer that never reads a four-character code (for instance
    one that always returns the empty text). *)
Definition recognizer_never_reads {Image W : Type} (E : Env Image W) : Prop :=
  forall variant config w,
    exists raw w',
      image_to_string E variant config w = (OcrText raw, w')
      /\ accepted (_clean_text raw) = false.

(* ================================================================== *)
(** ** A scripted portal

    A concrete environment on which the program can be run: bitmaps are
    the list of operations that produced them, the world counts the
    polls the solving service has answered, and the servers answer by
    URL according to a [scenario]. *)

Module Stub.

Definition Image := list string.

Definition stub_pil : PIL Image :=
  {| width := fun _ => 120;
     height := fun _ => 40;
     convert := fun img mode => ("convert " ++ mode) :: img;
     resize := fun img size _ =>
       ("resize " ++ PyStr.of_Z (fst size) ++ "x" ++ PyStr.of_Z (snd size))
       :: img;
     autocontrast := fun img => "autocontrast" :: img;
     filter := fun img f =>
       match f with
       | SHARPEN => "sharpen"
       | UnsharpMask _ _ _ => "unsharp"
       | MedianFilter _ => "median"
       | MinFilter _ => "min"
       | MaxFilter _ => "max"
       end :: img;
     enhance_contrast := fun img q =>
       ("contrast " ++ PyStr.of_Z (Qnum q) ++ "/10") :: img;
     point_above := fun img t => ("point>" ++ PyStr.of_Z t) :: img;
     invert := fun img => "invert" :: img;
     save_png := fun _ => [x89; x50; x4e; x47]%byte |}.

Record scenario := {
  (** what tesseract reads on every candidate *)
  sc_ocr : string;
  (** what the solving service answers, after [sc_not_ready] polls *)
  sc_remote : string;
  sc_not_ready : nat;
  (** the typed line, if any *)
  sc_console : option string;
  (** the [data] entries of the meter list *)
  sc_meters : list json;
  (** the dashboard markup *)
  sc_dashboard : string
}.

Definition page_html : string :=
  "<form id='loginForm' action='/hvcs/SignOn/Login'><input name='__RequestVerificationToken' value='tok'/></form>".

Definition html_reply (body : string) : response :=
  {| status_code := 200; content_type := Some "text/html; charset=utf-8";
     text := body; content := []; json_body := None |}.

Definition json_reply (v : json) : response :=
  {| status_code := 200; content_type := Some "application/json; charset=utf-8";
     text := ""; content := []; json_body := Some v |}.

Definition url_login : string := "https://portal.test/hvcs/".
Definition url_post : string := "https://portal.test/hvcs/SignOn/Login".
Definition url_captcha : string := "https://portal.test/hvcs/Other/Module/Chptcha".
Definition url_dashboard : string := "https://portal.test/hvcs/DashBoard".
Definition url_uid_meter : string := "https://portal.test/hvcs/UIDMeterNoList".
Definition url_meter_list : string := "https://portal.test/hvcs/MeterNoList".

Definition stub_http (sc : scenario) (rq : request) (polls : nat)
  : http_outcome * N * nat :=
  let url := req_url rq in
  if String.eqb url url_login then
    (HttpResponse (html_reply page_html), 0%N, polls)
  else if String.eqb url url_captcha then
    (HttpResponse
       {| status_code := 200; content_type := Some "image/png";
          text := ""; content := [x89; x50; x4e; x47]%byte;
          json_body := None |}, 0%N, polls)
  else if String.eqb url url_post then
    (HttpResponse
       (json_reply (JDict [("data", JDict [("Status", JBool true)])])),
     0%N, polls)
  else if String.eqb url url_dashboard then
    (HttpResponse (html_reply (sc_dashboard sc)), 0%N, polls)
  else if String.eqb url url_meter_list then
    (HttpResponse (json_reply (JDict [("data", JList (sc_meters sc))])),
     0%N, polls)
  else if String.eqb url "http://2captcha.com/in.php" then
    (HttpResponse
       (json_reply (JDict [("status", JInt 1); ("request", JStr "7301")])),
     1%N, polls)
  else if String.eqb url "http://2captcha.com/res.php" then
    if (polls <? sc_not_ready sc)%nat then
      (HttpResponse
         (json_reply
            (JDict [("status", JInt 0); ("request", JStr "CAPCHA_NOT_READY")])),
       1%N, S polls)
    else
      (HttpResponse
         (json_reply
            (JDict [("status", JInt 1); ("request", JStr (sc_remote sc))])),
       1%N, S polls)
  else (HttpResponse (html_reply ""), 0%N, polls).

Definition stub_env (sc : scenario) : Env Image nat :=
  {| pil := stub_pil;
     http_send := stub_http sc;
     image_to_string := fun _ _ w => (OcrText (sc_ocr sc), w);
     image_open := fun bytes => Some ["raw"];
     console_input := fun _ w => (sc_console sc, w);
     find_login_form := fun html =>
       if PyStr.contains "loginForm" html
       then Some {| form_action := Some "/hvcs/SignOn/Login";
                    form_inputs :=
                      [(Some "__RequestVerificationToken", Some "tok")] |}
       else None;
     select_captcha_image := fun _ => None;
     find_token_input := fun html =>
       if PyStr.contains "__RequestVerificationToken" html
       then Some (Some "tok") else None;
     urljoin := fun base rel =>
       if String.prefix "/" rel then "https://portal.test" ++ rel else rel;
     json_loads_date_fixed := fun _ => None;
     repr_json := fun _ => "<repr>" |}.

Definition stub_config (use_2captcha manual : bool) (attempts : Z)
  (meter : string) : Config :=
  {| LOGIN_PAGE_URL := url_login;
     LOGIN_POST_URL := url_post;
     CAPTCHA_URL := url_captcha;
     DASHBOARD_URL := url_dashboard;
     UID_METER_URL := url_uid_meter;
     METER_LIST_URL := url_meter_list;
     USE_2CAPTCHA := use_2captcha;
     CAPTCHA_2CAPTCHA_API_KEY := "k3y";
     USERNAME := "user";
     PASSWORD := "secret";
     METER_NO := meter;
     MAX_LOGIN_ATTEMPTS := attempts;
     CAPTCHA_MANUAL := manual;
     SAVE_LOGIN_HTML := false;
     SAVE_LOGIN_RESPONSE := false;
     DASHBOARD_DEBUG := false;
     METER_DEBUG := false |}.

Definition start : state Image nat :=
  {| world := O; clock := 0; trace := [] |}.

Definition meter_entry (no : json) : json :=
  JDict [("UserMeter_GroupbyMeter", JDict [("MeterNo", no)])].

(** The portal of the end-to-end scenario: every recognition reads
    [Ab12], the credentials are accepted, the dashboard carries the
    marker. *)
Definition happy : scenario :=
  {| sc_ocr := "Ab12"; sc_remote := "Ab12"; sc_not_ready := 2;
     sc_console := None;
     sc_meters := [meter_entry (JStr "00123"); meter_entry (JInt 4567)];
     sc_dashboard := "<div id='card_1'>kW</div>" |}.

(** The same portal with a recognizer that reads nothing. *)
Definition blind : scenario :=
  {| sc_ocr := ""; sc_remote := "abc"; sc_not_ready := 0;
     sc_console := None;
     sc_meters := [];
     sc_dashboard := "<div id='card_1'>kW</div>" |}.

(** The credential POSTs of a trace, as the captcha code they carry. *)
Definition posted_codes (evs : list (event Image)) : list (option json) :=
  flat_map
    (fun ev =>
       match ev with
       | EvHttp SiteLoginPost rq _ => [Py.lookup (req_data rq) "Captcha"]
       | _ => []
       end)
    evs.

End Stub.


(* ================================================================== *)
(** ** Further notions for reading results *)

(** What one URL of [get_login_page] delivers (lines 94-97): the text
    of the page, when the exchange succeeded, the status is no error
    and the anti-forgery marker is in the text. *)
Definition page_delivered (out : http_outcome) : option string :=
  match out with
  | HttpResponse resp =>
      if (400 <=? status_code resp) && (status_code resp <? 600) then None
      else if PyStr.contains "__RequestVerificationToken" (text resp)
           then Some (text resp) else None
  | HttpFailure _ => None
  end.

(** The [RequestException] that one URL of [get_login_page] raises
    (lines 94-95), if any. *)
Definition page_error (out : http_outcome) : option exn :=
  match out with
  | HttpResponse resp =>
      if (400 <=? status_code resp) && (status_code resp <? 600)
      then Some (RequestException
                   ("HTTPError " ++ PyStr.of_Z (status_code resp)))
      else None
  | HttpFailure info => Some (RequestException info)
  end.

Definition SECONDARY_LOGIN_URL : string :=
  "https://service.taipower.com.tw/hvcs/SignOn/Module/Login".

(** The value a form gives to the field [name]: that of its last
    [<input>] with this name, a missing [value] attribute counting as
    the empty string. *)
Fixpoint last_input_value (inputs : list (option string * option string))
  (name : string) (found : option string) : option string :=
  match inputs with
  | [] => found
  | (n, v) :: rest =>
      last_input_value rest name
        (match n with
         | Some n' =>
             if String.eqb n' name
             then Some (match v with Some v' => v' | None => "" end)
             else found
         | None => found
         end)
  end.

(** The login-page call site alone. *)
Definition page_site (s : site) : bool := site_eqb s SiteLoginPage.

(** A run that ended with exception [e] on its first attempt, having
    sent nothing but requests for the login page, two at most. *)
Definition ended_at_page {Image W : Type}
  (before : state Image W) (out : result string * state Image W) (e : exn)
  : Prop :=
  fst out = Raise e
  /\ exists evs,
      trace (snd out) = (trace before ++ evs)%list
      /\ sites_ok page_site evs
      /\ (count_site SiteLoginPage evs <= 2)%nat.

(** The scripted portal after a change of its markup: the page no
    longer has the login form. *)
Definition changed_portal : Env Stub.Image nat :=
  let portal := Stub.stub_env Stub.happy in
  {| pil := pil portal;
     http_send := http_send portal;
     image_to_string := image_to_string portal;
     image_open := image_open portal;
     console_input := console_input portal;
     find_login_form := fun _ => None;
     select_captcha_image := select_captcha_image portal;
     find_token_input := find_token_input portal;
     urljoin := urljoin portal;
     json_loads_date_fixed := json_loads_date_fixed portal;
     repr_json := repr_json portal |}.

(** What a credential POST of configuration [cfg] carries. *)
Definition credential_post_ok {Image : Type} (cfg : Config)
  (ev : event Image) : Prop :=
  match ev with
  | EvHttp SiteLoginPost rq _ =>
      req_method rq = POST
      /\ NoDup (map fst (req_data rq))
      /\ Py.lookup (req_data rq) "UserName" = Some (JStr (USERNAME cfg))
      /\ Py.lookup (req_data rq) "UserPwd" = Some (JStr (PASSWORD cfg))
      /\ (exists code, Py.lookup (req_data rq) "Captcha" = Some (JStr code))
      /\ exists token,
          token <> ""
          /\ Py.lookup (req_data rq) "__RequestVerificationToken"
             = Some (JStr token)
          /\ Py.lookup (req_headers rq) "RequestVerificationToken"
             = Some token
  | _ => True
  end.

(** [every Q m]: every effect of [m] satisfies [Q]. *)
Definition every {Image W A : Type} (Q : event Image -> Prop)
  (m : M Image W A) : Prop :=
  emits m (fun _ evs => Forall Q evs).

(** The kinds of effect. *)
Inductive kind :=
| KHttp (s : site)
| KOcr
| KSleep
| KInput
| KWrite.

Definition event_kind {Image : Type} (ev : event Image) : kind :=
  match ev with
  | EvHttp s _ _ => KHttp s
  | EvOcr _ _ _ => KOcr
  | EvSleep _ => KSleep
  | EvInput _ _ => KInput
  | EvWrite _ _ => KWrite
  end.

(** [uses allowed m]: the effects of [m] are of the kinds of [allowed]. *)
Definition uses {Image W A : Type} (allowed : kind -> bool)
  (m : M Image W A) : Prop :=
  every (fun ev => allowed (event_kind ev) = true) m.

(** The kinds of effect that the configuration switches on: the solving
    service is contacted only when it is enabled and has a key, the
    console is read only in manual mode of the local strategy, files are
    written only under a debug flag, the meter endpoints are used only
    when a meter is configured. *)
Definition gate (cfg : Config) (k : kind) : bool :=
  match k with
  | KHttp SiteSolverUpload | KHttp SiteSolverPoll =>
      USE_2CAPTCHA cfg && PyStr.truthy (CAPTCHA_2CAPTCHA_API_KEY cfg)
  | KHttp SiteMeterList | KHttp SiteMeterSwitchPost
  | KHttp SiteMeterSwitchGet =>
      PyStr.truthy (METER_NO cfg)
  | KHttp SiteMeterDebug => METER_DEBUG cfg
  | KHttp _ => true
  | KOcr => true
  | KSleep => true
  | KInput => negb (USE_2CAPTCHA cfg) && CAPTCHA_MANUAL cfg
  | KWrite =>
      SAVE_LOGIN_HTML cfg || SAVE_LOGIN_RESPONSE cfg || DASHBOARD_DEBUG cfg
      || METER_DEBUG cfg
  end.

(** Whether a response is read as JSON (line 321). *)
Definition is_json_response (resp : response) : bool :=
  PyStr.startswith "application/json"
    (PyStr.lower (match content_type resp with Some c => c | None => "" end)).


(** [follows s1 s2 n m]: [m] sends at most [n] requests from site [s2]
    for each request it sends from site [s1]. *)
Definition follows {Image W A : Type} (s1 s2 : site) (n : nat)
  (m : M Image W A) : Prop :=
  emits m (fun _ evs => (count_site s2 evs <= n * count_site s1 evs)%nat).

(** [sends s m]: [m] sends at least one request from site [s]. *)
Definition sends {Image W A : Type} (s : site) (m : M Image W A) : Prop :=
  emits m (fun _ evs => (1 <= count_site s evs)%nat).

(** The order in which the requests of a run depend on each other, as
    numbers of requests: each kind of request is sent at most once (the
    polls 24 times, the meter debug pages 4 times) per request of the
    kind that has to come before it. *)
Definition in_order {Image : Type} (evs : list (event Image)) : Prop :=
  let c := fun s => count_site s evs in
  (c SiteCaptcha <= c SiteLoginPage
   /\ c SiteLoginPost <= c SiteCaptcha
   /\ c SiteSolverUpload <= c SiteCaptcha
   /\ c SiteSolverPoll <= 24 * c SiteSolverUpload
   /\ c SiteRedirect <= c SiteLoginPost
   /\ c SiteMeterList <= c SiteLoginPost
   /\ c SiteMeterSwitchPost <= c SiteMeterList
   /\ c SiteMeterSwitchGet <= c SiteMeterSwitchPost
   /\ c SiteDashboard <= c SiteLoginPost
   /\ c SiteMeterDebug <= 4 * c SiteDashboard)%nat.


(* ================================================================== *)
(** ** From the dashboard to the broker (lines 392-395 and 426-573)

    The texts of this part are only compared with the empty string and
    concatenated.  The two default labels are Chinese; they are held as
    the bytes of their UTF-8 encoding, under which concatenation, the
    empty string and the ASCII separators [":"] and ["@"] are kept. *)

(** [sep.join(parts)] *)
Fixpoint str_join (sep : string) (parts : list string) : string :=
  match parts with
  | [] => ""
  | [p] => p
  | p :: rest => p ++ sep ++ str_join sep rest
  end.

(** [format_mqtt_message] (lines 540-541) *)
Definition format_mqtt_message (pairs : list (string * string)) : string :=
  str_join "@" (map (fun '(name, value) => name ++ ":" ++ value) pairs).

(** What [parse_dashboard] asks of the page and of the clock. *)
Record Page := {
  (** [soup.select_one(selector)] on the parsed page and, for the node
      found, [node.get_text(strip=True)] *)
  select_text : string -> string -> option string;
  (** [time.strftime(format)] when the clock shows the given time *)
  strftime : string -> Z -> string
}.

(** The module-level constants of the broker (lines 62-66). *)
Record MqttConfig := {
  MQTT_HOST : string;
  MQTT_PORT : Z;
  MQTT_TOPIC : string;
  MQTT_USERNAME : string;
  MQTT_PASSWORD : string
}.

(** The calls into [paho.mqtt.client]. *)
Inductive mqtt_call :=
| MqttClient
| MqttUsernamePwSet (username password : string)
| MqttConnect (host : string) (port keepalive : Z)
| MqttPublish (topic payload : string) (retain : bool)
| MqttDisconnect.

(** The MQTT library and the broker behind it: what a call does to the
    world, and the exception it raises, if any. *)
Record Broker (W : Type) := {
  mqtt_do : mqtt_call -> W -> option exn * W
}.

(** Code that calls the MQTT library: the world and the calls made so
    far, oldest first, are threaded through. *)
Definition Mq (W A : Type) : Type :=
  W * list mqtt_call -> result A * (W * list mqtt_call).

Definition mq_ret {W A : Type} (a : A) : Mq W A := fun s => (Ok a, s).

Definition mq_bind {W A B : Type} (m : Mq W A) (k : A -> Mq W B) : Mq W B :=
  fun s =>
    match m s with
    | (Ok a, s') => k a s'
    | (Raise e, s') => (Raise e, s')
    end.

Definition mq_call {W : Type} (B : Broker W) (c : mqtt_call) : Mq W unit :=
  fun s =>
    let '(r, w') := mqtt_do B c (fst s) in
    (match r with None => Ok tt | Some e => Raise e end,
     (w', (snd s ++ [c])%list)).

Definition DAILY_LABEL : string := "當日最高需量時間".
Definition MONTHLY_LABEL : string := "當月最高需量時間".

Section Publication.
Context {Image W : Type} (E : Env Image W) (P : Page) (B : Broker W).

(** [_format_value] (lines 392-395) *)
Definition _format_value (value : json) : string :=
  match value with
  | JList items => str_join "," (map (py_str E) items)
  | _ => py_str E value
  end.

(** *** [parse_dashboard] (lines 426-469) *)

(** [read_text] (lines 429-431) *)
Definition read_text (html selector : string) : string :=
  match select_text P html selector with
  | Some node_text => node_text
  | None => ""
  end.

(** [add_field] (lines 436-440), on the two accumulators [data] and
    [pairs]; [label = None] is the default argument. *)
Definition add_field (acc : list (string * json) * list (string * string))
  (key : string) (value : json) (label : option string)
  : list (string * json) * list (string * string) :=
  match value with
  | JNull => acc
  | JStr EmptyString => acc
  | _ =>
      let '(data, pairs) := acc in
      let name :=
        match label with
        | Some l => if PyStr.truthy l then l else key
        | None => key
        end in
      (Py.dict_set data key value,
       (pairs ++ [(name, _format_value value)])%list)
  end.

Definition parse_dashboard (html : string) (now : Z)
  : list (string * json) * list (string * string) :=
  let acc := ([], []) in
  let daily_title := read_text html ".cardDH .DH_Title" in
  let monthly_title := read_text html ".cardMH .DH_Title" in
  let daily_time := read_text html ".cardDH .DH_Time" in
  let daily_kw := read_text html ".cardDH .DH_kW" in
  let monthly_time := read_text html ".cardMH .DH_Time" in
  let monthly_kw := read_text html ".cardMH .DH_kW" in
  let acc := add_field acc "daily_max_title" (JStr daily_title) None in
  let acc :=
    add_field acc "daily_max_time" (JStr daily_time)
      (Some (if PyStr.truthy daily_title then daily_title else DAILY_LABEL)) in
  let acc :=
    add_field acc "daily_max_kw" (JStr daily_kw)
      (Some (if PyStr.truthy daily_title then daily_title ++ "_kw"
             else DAILY_LABEL ++ "_kw")) in
  let acc := add_field acc "monthly_max_title" (JStr monthly_title) None in
  let acc :=
    add_field acc "monthly_max_time" (JStr monthly_time)
      (Some (if PyStr.truthy monthly_title then monthly_title
             else MONTHLY_LABEL)) in
  let acc :=
    add_field acc "monthly_max_kw" (JStr monthly_kw)
      (Some (if PyStr.truthy monthly_title then monthly_title ++ "_kw"
             else MONTHLY_LABEL ++ "_kw")) in
  add_field acc "fetched_at" (JStr (strftime P "%Y-%m-%d %H:%M:%S" now)) None.

(** *** [publish_mqtt] (lines 544-551) *)

Definition publish_mqtt (mcfg : MqttConfig) (message : string) : Mq W unit :=
  mq_bind (mq_call B MqttClient) (fun _ =>
  mq_bind (if PyStr.truthy (MQTT_USERNAME mcfg)
           then mq_call B (MqttUsernamePwSet (MQTT_USERNAME mcfg)
                             (MQTT_PASSWORD mcfg))
           else mq_ret tt) (fun _ =>
  mq_bind (mq_call B (MqttConnect (MQTT_HOST mcfg) (MQTT_PORT mcfg) 60))
    (fun _ =>
  mq_bind (mq_call B (MqttPublish (MQTT_TOPIC mcfg) message true)) (fun _ =>
  mq_call B MqttDisconnect)))).

(** *** [main] (lines 554-573)

    The result, the state the login left (with the world after the
    calls to the broker), and the calls made to the MQTT library. *)
Definition main (cfg : Config) (mcfg : MqttConfig) (st : state Image W)
  : result unit * state Image W * list mqtt_call :=
  match login_and_get_dashboard E cfg st with
  | (Raise e, st1) => (Raise e, st1, [])
  | (Ok dashboard_html, st1) =>
      let '(payload, pairs) := parse_dashboard dashboard_html (clock st1) in
      let message := format_mqtt_message pairs in
      let '(r, (w', calls)) := publish_mqtt mcfg message (world st1, []) in
      (r, {| world := w'; clock := clock st1; trace := trace st1 |}, calls)
  end.

End Publication.

(** How a subscriber reads a message back: it splits the message at
    every ["@"] and each part at its first [":"]. *)
Fixpoint split_at (sep : ascii) (s : string) : list string :=
  match s with
  | EmptyString => [""]
  | String c rest =>
      if Ascii.eqb c sep then "" :: split_at sep rest
      else
        match split_at sep rest with
        | [] => [String c ""]
        | p :: ps => String c p :: ps
        end
  end.

Fixpoint partition_at (sep : ascii) (s : string) : string * string :=
  match s with
  | EmptyString => ("", "")
  | String c rest =>
      if Ascii.eqb c sep then ("", rest)
      else let '(before, after) := partition_at sep rest in
           (String c before, after)
  end.

Definition read_message (message : string) : list (string * string) :=
  if PyStr.truthy message
  then map (partition_at ":") (split_at "@" message)
  else [].

(** [free_of c s]: the character [c] does not occur in [s]. *)
Definition free_of (c : ascii) (s : string) : bool :=
  forall_string (fun c' => negb (Ascii.eqb c' c)) s.

(** The candidates of [parse_dashboard], in the order of its calls of
    [add_field]: the name under which a value is published and the
    text read for it. *)
Definition dashboard_candidates (P : Page) (html : string) (now : Z)
  : list (string * string * string) :=
  let daily_title := read_text P html ".cardDH .DH_Title" in
  let monthly_title := read_text P html ".cardMH .DH_Title" in
  let daily :=
    if PyStr.truthy daily_title then daily_title else DAILY_LABEL in
  let monthly :=
    if PyStr.truthy monthly_title then monthly_title else MONTHLY_LABEL in
  [ ("daily_max_title", "daily_max_title", daily_title);
    ("daily_max_time", daily, read_text P html ".cardDH .DH_Time");
    ("daily_max_kw", daily ++ "_kw", read_text P html ".cardDH .DH_kW");
    ("monthly_max_title", "monthly_max_title", monthly_title);
    ("monthly_max_time", monthly, read_text P html ".cardMH .DH_Time");
    ("monthly_max_kw", monthly ++ "_kw", read_text P html ".cardMH .DH_kW");
    ("fetched_at", "fetched_at", strftime P "%Y-%m-%d %H:%M:%S" now) ].

(** The calls of a complete [publish_mqtt]. *)
Definition publication (mcfg : MqttConfig) (message : string)
  : list mqtt_call :=
  (MqttClient
   :: (if PyStr.truthy (MQTT_USERNAME mcfg)
       then [MqttUsernamePwSet (MQTT_USERNAME mcfg) (MQTT_PASSWORD mcfg)]
       else [])
   ++ [ MqttConnect (MQTT_HOST mcfg) (MQTT_PORT mcfg) 60;
        MqttPublish (MQTT_TOPIC mcfg) message true;
        MqttDisconnect ])%list.


(** ** Further notions: the meter list, the debug pages, the solver's
    time *)

(** The payload that [select_meter_no] reads from the meter-list
    response (lines 507-517): the JSON body, or else the text with its
    [new Date(...)] values replaced, if that parses. *)
Definition meter_payload {Image W : Type} (E : Env Image W) (resp : response)
  : option json :=
  match json_body resp with
  | Some v => Some v
  | None => json_loads_date_fixed E (text resp)
  end.

(** The file that [select_meter_no] writes when the body of the
    response [resp] is not JSON (lines 510-512). *)
Definition meter_list_saved {Image : Type} (cfg : Config) (resp : response)
  : list (event Image) :=
  match json_body resp with
  | Some _ => []
  | None =>
      if METER_DEBUG cfg
      then [EvWrite "meter_list_response.html" (text resp)]
      else []
  end.

(** The pages of [dump_meter_debug], in the order in which it asks for
    them, with the files they are saved to. *)
Definition debug_targets {Image W : Type} (E : Env Image W) (cfg : Config)
  : list (string * string) :=
  [ ("meter_list.html", UID_METER_URL cfg);
    ("role_subgroup.json",
     urljoin E (LOGIN_PAGE_URL cfg)
       "/hvcs/Controllers/Manager/getRoleSubGroup/getRoleSubGroup");
    ("meter_subgroup.json",
     urljoin E (LOGIN_PAGE_URL cfg)
       "/hvcs/Controllers/Manager/getRoleSubGroup/getMeterRoleSubGroup");
    ("meter_competence.json",
     urljoin E (LOGIN_PAGE_URL cfg)
       "/hvcs/Controllers/Manager/getRoleSubGroup/getMeterCompetence") ].

(** The effects of asking for the pages [targets] when the requests
    come back with [outs]: a page is saved when its status is 200. *)
Fixpoint dump_events {Image : Type} (targets : list (string * string))
  (outs : list http_outcome) : list (event Image) :=
  match targets, outs with
  | (filename, url) :: targets', out :: outs' =>
      (EvHttp SiteMeterDebug (request_get url [] [] 20) out
       :: match out with
          | HttpResponse resp =>
              if status_code resp =? 200
              then [EvWrite filename (text resp)] else []
          | HttpFailure _ => []
          end
       ++ dump_events targets' outs')%list
  | _, _ => []
  end.

Definition is_response (out : http_outcome) : bool :=
  match out with HttpResponse _ => true | HttpFailure _ => false end.

(** A solving service that is never ready. *)
Definition never_ready : Stub.scenario :=
  {| Stub.sc_ocr := ""; Stub.sc_remote := "Ab12"; Stub.sc_not_ready := 1000;
     Stub.sc_console := None; Stub.sc_meters := [];
     Stub.sc_dashboard := "" |}.


(** The configuration [cfg] with other values for the two URLs read
    from [TAIPOWER_LOGIN_POST_URL] and [TAIPOWER_CAPTCHA_URL]. *)
Definition with_urls (cfg : Config) (login_post_url captcha_url : string)
  : Config :=
  {| LOGIN_PAGE_URL := LOGIN_PAGE_URL cfg;
     LOGIN_POST_URL := login_post_url;
     CAPTCHA_URL := captcha_url;
     DASHBOARD_URL := DASHBOARD_URL cfg;
     UID_METER_URL := UID_METER_URL cfg;
     METER_LIST_URL := METER_LIST_URL cfg;
     USE_2CAPTCHA := USE_2CAPTCHA cfg;
     CAPTCHA_2CAPTCHA_API_KEY := CAPTCHA_2CAPTCHA_API_KEY cfg;
     USERNAME := USERNAME cfg;
     PASSWORD := PASSWORD cfg;
     METER_NO := METER_NO cfg;
     MAX_LOGIN_ATTEMPTS := MAX_LOGIN_ATTEMPTS cfg;
     CAPTCHA_MANUAL := CAPTCHA_MANUAL cfg;
     SAVE_LOGIN_HTML := SAVE_LOGIN_HTML cfg;
     SAVE_LOGIN_RESPONSE := SAVE_LOGIN_RESPONSE cfg;
     DASHBOARD_DEBUG := DASHBOARD_DEBUG cfg;
     METER_DEBUG := METER_DEBUG cfg |}.


(** ** The vocabulary of a run's effects *)

(** The HTTP method and the timeout, in seconds, of the requests sent
    from each call site. *)
Definition site_method (s : site) : method :=
  match s with
  | SiteSolverUpload | SiteLoginPost | SiteMeterList | SiteMeterSwitchPost =>
      POST
  | _ => GET
  end.

Definition site_timeout (s : site) : Z :=
  match s with
  | SiteSolverUpload | SiteSolverPoll => 30
  | _ => 20
  end.

(** The call sites whose URL does not depend on what the portal
    answered, with that URL. *)
Definition site_url (cfg : Config) (s : site) : option string :=
  match s with
  | SiteSolverUpload => Some "http://2captcha.com/in.php"
  | SiteSolverPoll => Some "http://2captcha.com/res.php"
  | SiteDashboard => Some (DASHBOARD_URL cfg)
  | SiteMeterList => Some (METER_LIST_URL cfg)
  | SiteMeterSwitchPost | SiteMeterSwitchGet => Some (UID_METER_URL cfg)
  | _ => None
  end.

(** The files of attempt number [attempt], and the debug files of the
    meter pages. *)
Definition attempt_files (attempt : Z) : list string :=
  [ "login_page_" ++ PyStr.of_Z attempt ++ ".html";
    "login_response_" ++ PyStr.of_Z attempt ++ ".html";
    "dashboard_" ++ PyStr.of_Z attempt ++ ".html" ].

Definition debug_files : list string :=
  [ "meter_list.html"; "role_subgroup.json"; "meter_subgroup.json";
    "meter_competence.json"; "meter_list_response.html" ].

(** An effect that attempt number [attempt] may perform. *)
Definition known_in {Image : Type} (cfg : Config) (attempt : Z)
  (ev : event Image) : Prop :=
  match ev with
  | EvHttp s rq _ =>
      req_method rq = site_method s
      /\ req_timeout rq = site_timeout s
      /\ match site_url cfg s with
         | Some url => req_url rq = url
         | None => True
         end
  | EvOcr _ config _ => In config configs
  | EvSleep seconds => seconds = 1 \/ seconds = 5
  | EvInput prompt _ => prompt = "Enter captcha (4 chars): "
  | EvWrite filename _ =>
      In filename (attempt_files attempt) \/ In filename debug_files
  end.

(** An effect that a run may perform. *)
Definition known_effect {Image : Type} (cfg : Config) (ev : event Image)
  : Prop :=
  exists attempt, 1 <= attempt <= MAX_LOGIN_ATTEMPTS cfg /\ known_in cfg attempt ev.


(* ================================================================== *)
(** ** Numbers in JavaScript text (lines 373-389) *)

(** The class [\d], on code points below 256. *)
Definition is_digit (c : ascii) : bool := PyStr.in_range "0" "9" c.

Fixpoint take_while (p : ascii -> bool) (s : string) : string :=
  match s with
  | EmptyString => EmptyString
  | String c rest => if p c then String c (take_while p rest) else EmptyString
  end.

Fixpoint drop_while (p : ascii -> bool) (s : string) : string :=
  match s with
  | EmptyString => EmptyString
  | String c rest => if p c then drop_while p rest else s
  end.

(** The match of the pattern [-?\d+(?:\.\d+)?] at the start of [s], if
    there is one.  Every quantifier is greedy: the sign is taken when
    it is there, then all the digits that follow, then a point and all
    the digits after it when there is at least one; a sign without a
    digit after it gives no match, nor does the pattern without the
    sign then, since it would have to start with a digit. *)
Definition match_number (s : string) : option string :=
  let '(sign, s1) :=
    match s with
    | String c rest => if Ascii.eqb c "-" then ("-", rest) else ("", s)
    | EmptyString => ("", s)
    end in
  match take_while is_digit s1 with
  | EmptyString => None
  | digits =>
      match drop_while is_digit s1 with
      | String c s3 =>
          if Ascii.eqb c "." then
            match take_while is_digit s3 with
            | EmptyString => Some (sign ++ digits)
            | frac => Some (sign ++ digits ++ "." ++ frac)
            end
          else Some (sign ++ digits)
      | EmptyString => Some (sign ++ digits)
      end
  end.

(** [re.findall(r"-?\d+(?:\.\d+)?", text)]: the text is scanned from
    left to right; at a position that is not inside the last match the
    pattern is tried, and a match (never empty) is kept, the scan going
    on after it.  [skip] counts the characters of the last match that
    are still to be passed. *)
Fixpoint findall_numbers (skip : nat) (text : string) : list string :=
  match text with
  | EmptyString => []
  | String _ rest =>
      match skip with
      | S skip' => findall_numbers skip' rest
      | O =>
          match match_number text with
          | Some token =>
              token :: findall_numbers (String.length token - 1) rest
          | None => findall_numbers 0 rest
          end
      end
  end.

(** [[f(x) for x in xs]], where [f] may raise. *)
Fixpoint map_result {A B : Type} (f : A -> result B) (xs : list A)
  : result (list B) :=
  match xs with
  | [] => Ok []
  | x :: rest =>
      match f x with
      | Raise e => Raise e
      | Ok y =>
          match map_result f rest with
          | Raise e => Raise e
          | Ok ys => Ok (y :: ys)
          end
      end
  end.

Section Numbers.
(** [float(value)] *)
Variable py_float : string -> result json.
(** [sys.get_int_max_str_digits()]: the longest digit string that
    [int] converts, [None] where there is no limit (before Python 3.11,
    or with the limit set to 0). *)
Variable max_str_digits : option nat.

(** [re.fullmatch(r"-?\d+", value)]: the digits of the match. *)
Definition int_literal (value : string) : option string :=
  let digits :=
    match value with
    | String c rest => if Ascii.eqb c "-" then rest else value
    | EmptyString => value
    end in
  if PyStr.truthy digits && forall_string is_digit digits
  then Some digits else None.

(** [int(value)] for a [value] that matches [-?\d+]. *)
Definition py_int (value digits : string) : result json :=
  let too_long :=
    match max_str_digits with
    | Some limit => (limit <? String.length digits)%nat
    | None => false
    end in
  if too_long
  then Raise (ValueError "Exceeds the limit for integer string conversion")
  else
    match NilZero.int_of_string value with
    | Some d => Ok (JInt (Z.of_int d))
    | None => Raise (ValueError "invalid literal for int()")
    end.

(** [_parse_number] (lines 373-376) *)
Definition _parse_number (value : string) : result json :=
  match int_literal value with
  | Some digits => py_int value digits
  | None => py_float value
  end.

(** [_parse_js_array] (lines 387-389) *)
Definition _parse_js_array (text : string) : result (list json) :=
  let values := findall_numbers 0 text in
  map_result _parse_number values.

End Numbers.


(** ** A portal that cooperates *)

(** The credential POST of an attempt (lines 296-313). *)
Definition credential_request (cfg : Config) (action_url : string)
  (fields : list (string * string)) (token captcha_code : string) : request :=
  request_post action_url (login_payload cfg fields token captcha_code) None
    [ ("Referer", LOGIN_PAGE_URL cfg); ("RequestVerificationToken", token) ]
    20.

(** A reply that [interpret_response] reads as an accepted login
    without redirect. *)
Definition accepts (resp : response) : Prop :=
  is_json_response resp = true
  /\ exists d block,
      json_body resp = Some (JDict d)
      /\ Py.get_default d "data" JNull = JDict block
      /\ Py.truthy (Py.get_default block "Status" JNull) = true
      /\ Py.truthy (Py.get_default block "Url" JNull) = false.

(** A portal whose login page always arrives on the first request and
    carries the form [(action_url, fields, captcha_url)] and the token
    [token], whose captcha image always arrives and decodes, which
    accepts the credentials whatever the code, and whose dashboard
    always carries the marker; and a recognizer that never fails. *)
Record cooperative {Image W : Type} (E : Env Image W) (cfg : Config)
  (action_url : string) (fields : list (string * string))
  (captcha_url token : string) : Prop := {
  coop_page :
    forall w,
      exists resp dt w',
        http_send E (login_page_request cfg) w = (HttpResponse resp, dt, w')
        /\ raise_for_status resp = Ok tt
        /\ PyStr.contains "__RequestVerificationToken" (text resp) = true
        /\ parse_login_form E cfg (text resp)
           = Ok (action_url, fields, captcha_url)
        /\ extract_token E (text resp) = Ok token;
  coop_captcha :
    forall w,
      exists resp dt w' img,
        http_send E (captcha_request cfg captcha_url) w
        = (HttpResponse resp, dt, w')
        /\ raise_for_status resp = Ok tt
        /\ image_open E (content resp) = Some img;
  coop_recognizer :
    forall variant config w,
      exists raw w', image_to_string E variant config w = (OcrText raw, w');
  coop_post :
    forall captcha_code w,
      exists resp dt w',
        http_send E
          (credential_request cfg action_url fields token captcha_code) w
        = (HttpResponse resp, dt, w')
        /\ accepts resp;
  coop_dashboard :
    forall w,
      exists resp dt w',
        http_send E (dashboard_request cfg) w = (HttpResponse resp, dt, w')
        /\ PyStr.contains "card_1" (text resp) = true
}.

(** The numbers of page loads, captcha fetches, credential POSTs and
    dashboard fetches of a trace. *)
Definition tally {Image : Type} (evs : list (event Image))
  (pages captchas posts dashboards : nat) : Prop :=
  count_site SiteLoginPage evs = pages
  /\ count_site SiteCaptcha evs = captchas
  /\ count_site SiteLoginPost evs = posts
  /\ count_site SiteDashboard evs = dashboards.

(** The call sites of the captcha step. *)
Definition solver_sites (s : site) : bool :=
  match s with
  | SiteSolverUpload | SiteSolverPoll => true
  | _ => false
  end.

Definition no_site (s : site) : bool := false.


(** ** Which page a request belongs to *)

(** A captcha code as the captcha step hands it on: with the solving
    service it is empty or has four alphanumeric characters, otherwise
    it was typed and has four characters. *)
Definition code_ok (cfg : Config) (code : string) : Prop :=
  if USE_2CAPTCHA cfg then
    code = ""
    \/ (String.length code = 4%nat /\ forall_string is_alnum code = true)
  else CAPTCHA_MANUAL cfg = true /\ String.length code = 4%nat.

(** [rq] fetches the captcha image that the page [html] names. *)
Definition captcha_of_page {Image W : Type} (E : Env Image W) (cfg : Config)
  (html : string) (rq : request) : Prop :=
  exists action_url fields captcha_url,
    parse_login_form E cfg html = Ok (action_url, fields, captcha_url)
    /\ rq = captcha_request cfg captcha_url.

(** [rq] is the credential POST for the page [html]: it goes to the
    action of the page's form, with the fields of that form and the
    token of that page. *)
Definition post_of_page {Image W : Type} (E : Env Image W) (cfg : Config)
  (html : string) (rq : request) : Prop :=
  exists action_url fields captcha_url token code,
    parse_login_form E cfg html = Ok (action_url, fields, captcha_url)
    /\ extract_token E html = Ok token
    /\ rq = credential_request cfg action_url fields token code
    /\ code_ok cfg code.

(** [posts_fresh E cfg page evs]: in the trace [evs], read from left to
    right with [page] the login page at hand (the one the last
    login-page request delivered, if it delivered one, and no
    credential POST has been sent since), every captcha fetch and every
    credential POST belongs to the page at hand. *)
Fixpoint posts_fresh {Image W : Type} (E : Env Image W) (cfg : Config)
  (page : option string) (evs : list (event Image)) : Prop :=
  match evs with
  | [] => True
  | EvHttp SiteLoginPage _ out :: rest =>
      posts_fresh E cfg (page_delivered out) rest
  | EvHttp SiteCaptcha rq _ :: rest =>
      match page with
      | Some html => captcha_of_page E cfg html rq
      | None => False
      end
      /\ posts_fresh E cfg page rest
  | EvHttp SiteLoginPost rq _ :: rest =>
      match page with
      | Some html => post_of_page E cfg html rq
      | None => False
      end
      /\ posts_fresh E cfg None rest
  | _ :: rest => posts_fresh E cfg page rest
  end.

(** The page at hand after the trace [evs]. *)
Fixpoint page_after {Image : Type} (page : option string)
  (evs : list (event Image)) : option string :=
  match evs with
  | [] => page
  | EvHttp SiteLoginPage _ out :: rest => page_after (page_delivered out) rest
  | EvHttp SiteLoginPost _ _ :: rest => page_after None rest
  | _ :: rest => page_after page rest
  end.

(** The call sites that neither load a page nor use one. *)
Definition other_sites (s : site) : bool :=
  match s with
  | SiteLoginPage | SiteCaptcha | SiteLoginPost => false
  | _ => true
  end.

(** ** What an attempt ends in *)










(** ** A meter the account does not have *)

(** A portal whose meter list always arrives as a JSON object whose
    [data] entries follow the documented structure, none of them
    carrying [meter_no]. *)
Definition meter_absent {Image W : Type} (E : Env Image W) (cfg : Config)
  (meter_no : string) : Prop :=
  forall w,
    exists resp dt w' d items,
      http_send E (meter_list_request cfg) w = (HttpResponse resp, dt, w')
      /\ status_code resp < 400
      /\ json_body resp = Some (JDict d)
      /\ Py.get_default d "data" JNull = JList items
      /\ forallb entry_well_formed items = true
      /\ existsb (has_meter E meter_no) items = false.

(** The call sites of an attempt before its meter selection. *)
Definition pre_meter_sites (s : site) : bool :=
  match s with
  | SiteLoginPage | SiteCaptcha | SiteSolverUpload | SiteSolverPoll
  | SiteLoginPost | SiteRedirect => true
  | _ => false
  end.

(** An attempt with result [r] and effects [evs] either never asked for
    the meter list, or ended right after the answer to that request, a
    sleep of one second later, to be tried again. *)
Definition retried {Image : Type} (cfg : Config) (r : result (option string))
  (evs : list (event Image)) : Prop :=
  count_site SiteMeterList evs = 0%nat
  \/ (r = Ok None
      /\ exists before reply,
          evs = (before
                 ++ [EvHttp SiteMeterList (meter_list_request cfg)
                       (HttpResponse reply);
                     EvSleep 1])%list
          /\ sites_ok pre_meter_sites before).

(** ** Where the requests of a page go *)

(** The path of the captcha image that the page [html] names, or the
    default path (lines 124-130). *)
Definition captcha_src {Image W : Type} (E : Env Image W) (html : string)
  : string :=
  let src :=
    match select_captcha_image E html with
    | Some src => PyStr.strip (match src with Some s => s | None => "" end)
    | None => ""
    end in
  if negb (PyStr.truthy src) then "/hvcs/Other/Module/Chptcha" else src.

(** The [action] of the login form of the page [html], stripped (lines
    109-113). *)
Definition form_target {Image W : Type} (E : Env Image W) (html : string)
  : option string :=
  match find_login_form E html with
  | Some form =>
      Some (PyStr.strip (match form_action form with Some a => a | None => "" end))
  | None => None
  end.

(** [routed E cfg page evs]: in the trace [evs], read from left to right
    with [page] the login page at hand (see [posts_fresh]), every
    captcha fetch goes to the captcha path of the page at hand and every
    credential POST to the action of its form, both resolved against
    the login page URL. *)
Fixpoint routed {Image W : Type} (E : Env Image W) (cfg : Config)
  (page : option string) (evs : list (event Image)) : Prop :=
  match evs with
  | [] => True
  | EvHttp SiteLoginPage _ out :: rest =>
      routed E cfg (page_delivered out) rest
  | EvHttp SiteCaptcha rq _ :: rest =>
      (exists html,
          page = Some html
          /\ req_url rq = urljoin E (LOGIN_PAGE_URL cfg) (captcha_src E html))
      /\ routed E cfg page rest
  | EvHttp SiteLoginPost rq _ :: rest =>
      (exists html action,
          page = Some html
          /\ form_target E html = Some action
          /\ req_url rq = urljoin E (LOGIN_PAGE_URL cfg) action)
      /\ routed E cfg None rest
  | _ :: rest => routed E cfg page rest
  end.

(* ================================================================== *)
(** * Properties *)

(** ** The Python primitives, on known values *)

Lemma b64encode_rfc4648 :
  b64encode [] = ""
  /\ b64encode ["f"]%byte = "Zg=="
  /\ b64encode ["f"; "o"]%byte = "Zm8="
  /\ b64encode ["f"; "o"; "o"]%byte = "Zm9v"
  /\ b64encode ["f"; "o"; "o"; "b"]%byte = "Zm9vYg=="
  /\ b64encode ["f"; "o"; "o"; "b"; "a"]%byte = "Zm9vYmE="
  /\ b64encode ["f"; "o"; "o"; "b"; "a"; "r"]%byte = "Zm9vYmFy"
  /\ b64encode [xff; xfe; xfd]%byte = "//79".
Proof. repeat split; reflexivity. Qed.

Lemma pystr_examples :
  PyStr.strip "  Ab12 " = "Ab12"
  /\ PyStr.strip "" = ""
  /\ PyStr.lower "Application/JSON; Charset=UTF-8"
     = "application/json; charset=utf-8"
  /\ PyStr.startswith "application/json" "application/json; charset=utf-8"
     = true
  /\ PyStr.contains "card_1" "<div id='card_1'>" = true
  /\ PyStr.contains "card_1" "<div id='card_2'>" = false
  /\ PyStr.of_Z 3 = "3"
  /\ range 1 (3 + 1) = [1; 2; 3]
  /\ range 1 (-2 + 1) = [].
Proof. repeat split; reflexivity. Qed.

Lemma dict_examples :
  Py.dict_update [("a", 1); ("b", 2)] [("b", 3); ("c", 4)]
  = [("a", 1); ("b", 3); ("c", 4)]
  /\ Py.eq_one (JBool true) = true
  /\ Py.eq_one (JFloat 1) = true
  /\ Py.eq_one (JStr "1") = false
  /\ Py.truthy (JStr "") = false
  /\ Py.truthy (JInt 0) = false
  /\ Py.truthy (JDict []) = false.
Proof. repeat split; reflexivity. Qed.

(** ** Normalisation *)

Lemma non_alnum_class_spec (c : ascii) :
  PyStr.class_matches non_alnum_class c = negb (is_alnum c).
Proof.
  unfold PyStr.class_matches, non_alnum_class, is_alnum, PyStr.in_range.
  cbn [PyStr.negated PyStr.ranges existsb fst snd].
  change (PyStr.code "0") with 48%N; change (PyStr.code "9") with 57%N.
  change (PyStr.code "A") with 65%N; change (PyStr.code "Z") with 90%N.
  change (PyStr.code "a") with 97%N; change (PyStr.code "z") with 122%N.
  generalize (PyStr.code c); intro n.
  destruct (48 <=? n)%N, (n <=? 57)%N, (65 <=? n)%N, (n <=? 90)%N,
    (97 <=? n)%N, (n <=? 122)%N; reflexivity.
Qed.

Lemma clean_text_filter (text : string) :
  _clean_text text = filter_string is_alnum text.
Proof.
  unfold _clean_text.
  induction text as [|c rest IH]; cbn [PyStr.re_sub_class filter_string].
  - reflexivity.
  - rewrite non_alnum_class_spec, IH.
    destruct (is_alnum c); reflexivity.
Qed.

Lemma filter_string_subseq (p : ascii -> bool) (s : string) :
  Subseq (filter_string p s) s.
Proof.
  induction s as [|c rest IH]; cbn [filter_string].
  - constructor.
  - destruct (p c); constructor; exact IH.
Qed.

Lemma filter_string_forall (p : ascii -> bool) (s : string) :
  forall_string p (filter_string p s) = true.
Proof.
  induction s as [|c rest IH]; cbn [filter_string]; [reflexivity|].
  destruct (p c) eqn:Hc; [cbn [forall_string]; rewrite Hc|]; exact IH.
Qed.

Lemma filter_string_app (p : ascii -> bool) (s t : string) :
  filter_string p (s ++ t) = filter_string p s ++ filter_string p t.
Proof.
  induction s as [|c rest IH]; cbn [filter_string String.append]; [reflexivity|].
  rewrite IH. destruct (p c); reflexivity.
Qed.

Lemma forall_string_app (p : ascii -> bool) (s t : string) :
  forall_string p (s ++ t) = forall_string p s && forall_string p t.
Proof.
  induction s as [|c rest IH]; cbn [forall_string String.append]; [reflexivity|].
  rewrite IH, andb_assoc. reflexivity.
Qed.

Lemma filter_string_noise (p : ascii -> bool) (s : string) :
  forall_string (fun c => negb (p c)) s = true -> filter_string p s = "".
Proof.
  induction s as [|c rest IH]; cbn [forall_string filter_string]; [reflexivity|].
  intros H. apply andb_true_iff in H. destruct H as [Hc Hrest].
  apply negb_true_iff in Hc. rewrite Hc. auto.
Qed.

Lemma accepted_length (s : string) :
  accepted s = true <-> String.length s = 4%nat.
Proof.
  unfold accepted, PyStr.len. rewrite Z.eqb_eq. lia.
Qed.

(** A character outside ASCII is never kept.  (So the result is the same
    when a character beyond code point 255 is presented as the bytes of
    its UTF-8 encoding, all of which are 128 or more.) *)
Lemma clean_text_non_ascii (text : string) :
  forall_string (fun c => (128 <=? PyStr.code c)%N) text = true ->
  _clean_text text = "".
Proof.
  intros H. rewrite clean_text_filter. apply filter_string_noise.
  induction text as [|c rest IH]; [reflexivity|].
  cbn [forall_string] in *. apply andb_true_iff in H. destruct H as [Hc Hrest].
  rewrite (IH Hrest), andb_true_r.
  unfold is_alnum. apply N.leb_le in Hc.
  replace (PyStr.code c <=? 57)%N with false by (symmetry; apply N.leb_gt; lia).
  replace (PyStr.code c <=? 90)%N with false by (symmetry; apply N.leb_gt; lia).
  replace (PyStr.code c <=? 122)%N with false by (symmetry; apply N.leb_gt; lia).
  rewrite !andb_false_r. reflexivity.
Qed.

(** C6.  [_clean_text] keeps exactly the characters of [[0-9A-Za-z]], in
    their order: its result is the input filtered by [is_alnum], hence a
    subsequence of the input made of alphanumeric characters only.  A
    text with four alphanumeric characters among noise normalises to
    those four characters, which are accepted; and a normalised text is
    accepted exactly when its length is 4. *)
Theorem clean_text_normalizes (text : string) :
  _clean_text text = filter_string is_alnum text
  /\ Subseq (_clean_text text) text
  /\ forall_string is_alnum (_clean_text text) = true
  /\ (forall n0 n1 n2 n3 n4 c1 c2 c3 c4,
        forall_string (fun c => negb (is_alnum c)) (n0 ++ n1 ++ n2 ++ n3 ++ n4)
        = true ->
        is_alnum c1 && is_alnum c2 && is_alnum c3 && is_alnum c4 = true ->
        text = n0 ++ String c1 (n1 ++ String c2 (n2 ++ String c3
                                   (n3 ++ String c4 n4))) ->
        _clean_text text = String c1 (String c2 (String c3 (String c4 "")))
        /\ accepted (_clean_text text) = true)
  /\ (accepted (_clean_text text) = true
      <-> String.length (filter_string is_alnum text) = 4%nat)
  /\ (forall cleaned, accepted cleaned = true <-> String.length cleaned = 4%nat).
Proof.
  rewrite clean_text_filter.
  split; [reflexivity|].
  split; [apply filter_string_subseq|].
  split; [apply filter_string_forall|].
  split; [|split; [apply accepted_length | apply accepted_length]].
  intros n0 n1 n2 n3 n4 c1 c2 c3 c4 Hnoise Hcs ->.
  repeat rewrite forall_string_app in Hnoise.
  repeat (apply andb_true_iff in Hnoise; destruct Hnoise as [? Hnoise]).
  repeat (apply andb_true_iff in Hcs; destruct Hcs as [Hcs ?]).
  assert (E : filter_string is_alnum
                (n0 ++ String c1 (n1 ++ String c2 (n2 ++ String c3
                                   (n3 ++ String c4 n4))))
              = String c1 (String c2 (String c3 (String c4 "")))).
  { repeat (rewrite filter_string_app; cbn [filter_string]).
    repeat match goal with
           | H : is_alnum _ = true |- _ => rewrite H; clear H
           end.
    repeat match goal with
           | H : forall_string _ _ = true |- _ =>
               rewrite (filter_string_noise _ _ H); clear H
           end.
    reflexivity. }
  rewrite E. split; reflexivity.
Qed.

Lemma clean_text_normalizes_witness :
  _clean_text " A-b 1_2!" = "Ab12" /\ accepted (_clean_text " A-b 1_2!") = true.
Proof.
  destruct (clean_text_normalizes " A-b 1_2!") as (_ & _ & _ & H & _).
  apply (H " " "-" " " "_" "!" "A"%char "b"%char "1"%char "2"%char);
    vm_compute; reflexivity.
Defined.

(** ** The candidate generator *)

Local Open Scope list_scope.

Section VariantsFacts.
Context {Image : Type} (pil : PIL Image).

Lemma threshold_variants_length (enhanced : Image) :
  List.length (threshold_variants pil enhanced) = 20%nat.
Proof. reflexivity. Qed.

Lemma contrast_variants_length (base : Image) :
  List.length (contrast_variants pil base) = 63%nat.
Proof. reflexivity. Qed.

Lemma scale_variants_length (gray : Image) (scale : Z) :
  List.length (scale_variants pil gray scale) = 69%nat.
Proof. reflexivity. Qed.

Lemma variants_length (img : Image) :
  List.length (_variants pil img) = 207%nat.
Proof. reflexivity. Qed.

(** C5.  [_variants] is a function of the bitmap alone (it takes no
    state and returns none), and for every bitmap it lists 207
    candidates in one fixed order: three blocks of 69, for the scales 2,
    3, 4 in this order; in each block the base image, its five filtered
    siblings (sharpen, unsharp mask, median, min, max), then for each of
    the contrasts 1.2, 1.5, 1.8 in this order the enhanced image
    followed, for the thresholds 60, 75, ..., 195 in this order, by the
    binarised image and its inverse. *)
Theorem variants_enumeration (img : Image) :
  List.length (_variants pil img) = 207%nat
  /\ scales = [2; 3; 4]
  /\ thresholds = map (fun k => 60 + 15 * Z.of_nat k) (seq 0 10)
  /\ forall i j k : nat,
      (i < 3)%nat -> (j < 3)%nat -> (k < 10)%nat ->
      let gray := convert pil img "L" in
      let base := scale_base pil gray (2 + Z.of_nat i) in
      let enhanced := enhance_contrast pil base (nth j contrasts 0%Q) in
      let bw := point_above pil enhanced (60 + 15 * Z.of_nat k) in
      let at_ := nth_error (_variants pil img) in
      at_ (69 * i)%nat = Some base
      /\ at_ (69 * i + 1)%nat = Some (filter pil base SHARPEN)
      /\ at_ (69 * i + 2)%nat = Some (filter pil base (UnsharpMask 1 150 3))
      /\ at_ (69 * i + 3)%nat = Some (filter pil base (MedianFilter 3))
      /\ at_ (69 * i + 4)%nat = Some (filter pil base (MinFilter 3))
      /\ at_ (69 * i + 5)%nat = Some (filter pil base (MaxFilter 3))
      /\ at_ (69 * i + 6 + 21 * j)%nat = Some enhanced
      /\ at_ (69 * i + 6 + 21 * j + 1 + 2 * k)%nat = Some bw
      /\ at_ (69 * i + 6 + 21 * j + 2 + 2 * k)%nat
         = Some (invert pil (convert pil bw "L")).
Proof.
  split; [reflexivity|]. split; [reflexivity|]. split; [reflexivity|].
  intros i j k Hi Hj Hk.
  destruct i as [|[|[|i]]]; [| | |lia];
    (destruct j as [|[|[|j]]]; [| | |lia]);
    (destruct k as [|[|[|[|[|[|[|[|[|[|k]]]]]]]]]]; [| | | | | | | | | |lia]);
    cbv zeta; repeat split; reflexivity.
Qed.

End VariantsFacts.

Lemma variants_enumeration_witness :
  nth_error (_variants Stub.stub_pil ["raw"]) 124
  = Some ["point>105"; "contrast 18/10"; "autocontrast"; "resize 360x120";
          "convert L"; "raw"].
Proof.
  destruct (variants_enumeration Stub.stub_pil ["raw"]) as (_ & _ & _ & H).
  destruct (H 1 2 3)%nat as (_ & _ & _ & _ & _ & _ & _ & Hbw & _);
    [lia | lia | lia |].
  exact Hbw.
Defined.

(** ** The local solver *)

Section OcrFacts.
Context {Image W : Type} (E : Env Image W).

Lemma bind_run {A B : Type} (m : M Image W A) (k : A -> M Image W B)
  (st : state Image W) :
  bind m k st
  = match fst (m st) with
    | Ok a => k a (snd (m st))
    | Raise e => (Raise e, snd (m st))
    end.
Proof. unfold bind. destruct (m st) as [[a|e] st']; reflexivity. Qed.

Lemma tesseract_run (variant : Image) (config : string) (st : state Image W) :
  exists out,
    trace (snd (tesseract E variant config st))
    = trace st ++ [EvOcr variant config out]
    /\ fst (tesseract E variant config st)
       = match out with
         | OcrText raw => Ok raw
         | OcrFailure _ => Raise (PyException "TesseractError")
         end.
Proof.
  unfold tesseract.
  destruct (image_to_string E variant config (world st)) as [out w'].
  exists out. destruct out; split; reflexivity.
Qed.

Lemma ocr_code_accepted (ev : event Image) (code : string) :
  ocr_code ev = Some code ->
  String.length code = 4%nat /\ forall_string is_alnum code = true.
Proof.
  destruct ev as [| v c [raw|info] | | |]; cbn [ocr_code]; try discriminate.
  destruct (accepted (_clean_text raw)) eqn:Hacc; [|discriminate].
  intros [= <-]. split.
  - apply accepted_length, Hacc.
  - rewrite clean_text_filter. apply filter_string_forall.
Qed.

(** The inner loop: the profiles of [cs] are tried in order on one
    candidate until one yields a code. *)
Lemma ocr_configs_spec (variant : Image) (cs : list string) :
  forall st,
    let out := ocr_configs E variant cs st in
    exists evs,
      trace (snd out) = trace st ++ evs
      /\ map ocr_call evs
         = map Some (firstn (List.length evs) (map (pair variant) cs))
      /\ match fst out with
         | Ok None =>
             List.length evs = List.length cs /\ Forall ocr_rejected evs
         | Ok (Some code) =>
             exists before last,
               evs = before ++ [last] /\ Forall ocr_rejected before
               /\ ocr_code last = Some code
         | Raise _ =>
             exists before last,
               evs = before ++ [last] /\ Forall ocr_rejected before
               /\ ocr_failed last = true
         end.
Proof.
  induction cs as [|config rest IH]; intros st; cbn [ocr_configs].
  - exists []. cbn. rewrite app_nil_r. auto.
  - rewrite bind_run.
    destruct (tesseract_run variant config st) as (out & Htr & Hres).
    rewrite Hres. destruct out as [raw|info].
    + destruct (accepted (_clean_text raw)) eqn:Hacc.
      * exists [EvOcr variant config (OcrText raw)]. cbn.
        split; [exact Htr|]. split; [reflexivity|].
        exists [], (EvOcr variant config (OcrText raw)).
        cbn. rewrite Hacc. auto.
      * specialize (IH (snd (tesseract E variant config st))).
        cbv zeta in IH. destruct IH as (evs & Htr' & Hcalls & Hout).
        exists (EvOcr variant config (OcrText raw) :: evs).
        split; [rewrite Htr', Htr, <- app_assoc; reflexivity|].
        split; [cbn; rewrite Hcalls; reflexivity|].
        assert (Hrej : ocr_rejected (EvOcr variant config (OcrText raw))).
        { split; cbn; [rewrite Hacc|]; reflexivity. }
        destruct (fst (ocr_configs E variant rest
                         (snd (tesseract E variant config st))))
          as [[code|]|e].
        -- destruct Hout as (before & last & -> & Hb & Hl).
           exists (EvOcr variant config (OcrText raw) :: before), last.
           auto.
        -- destruct Hout as [Hlen Hall]. cbn. auto.
        -- destruct Hout as (before & last & -> & Hb & Hl).
           exists (EvOcr variant config (OcrText raw) :: before), last.
           auto.
    + exists [EvOcr variant config (OcrFailure info)]. cbn.
      split; [exact Htr|]. split; [reflexivity|].
      exists [], (EvOcr variant config (OcrFailure info)). auto.
Qed.

Lemma calls_length (evs : list (event Image)) (pairs : list (Image * string)) :
  map ocr_call evs = map Some (firstn (List.length evs) pairs) ->
  (List.length evs <= List.length pairs)%nat.
Proof.
  intros H. apply (f_equal (@List.length _)) in H.
  rewrite !length_map, length_firstn in H. lia.
Qed.

(** The outer loop: the candidates of [vs] are tried in order until one
    yields a code. *)
Lemma ocr_variants_spec (vs : list Image) :
  forall st,
    let out := ocr_variants E vs st in
    let pairs := list_prod vs configs in
    exists evs,
      trace (snd out) = trace st ++ evs
      /\ map ocr_call evs = map Some (firstn (List.length evs) pairs)
      /\ match fst out with
         | Ok code =>
             (code = "" /\ List.length evs = List.length pairs
              /\ Forall ocr_rejected evs)
             \/ (exists before last,
                    evs = before ++ [last] /\ Forall ocr_rejected before
                    /\ ocr_code last = Some code)
         | Raise _ =>
             exists before last,
               evs = before ++ [last] /\ Forall ocr_rejected before
               /\ ocr_failed last = true
         end.
Proof.
  induction vs as [|variant rest IH]; intros st; cbn [ocr_variants list_prod].
  - exists []. cbn. rewrite app_nil_r.
    split; [reflexivity|]. split; [reflexivity|]. left. auto.
  - rewrite bind_run.
    destruct (ocr_configs_spec variant configs st) as (evs1 & Htr1 & Hc1 & Ho1).
    pose proof (calls_length _ _ Hc1) as Hlen1. rewrite length_map in Hlen1.
    destruct (fst (ocr_configs E variant configs st)) as [[code|]|e].
    + exists evs1. cbn [fst snd]. split; [exact Htr1|]. split.
      * rewrite firstn_app, length_map.
        replace (List.length evs1 - List.length configs)%nat with O by lia.
        rewrite firstn_O, app_nil_r. exact Hc1.
      * right. exact Ho1.
    + destruct Ho1 as [Hlen Hrej].
      specialize (IH (snd (ocr_configs E variant configs st))).
      cbv zeta in IH. destruct IH as (evs2 & Htr2 & Hc2 & Ho2).
      exists (evs1 ++ evs2).
      split; [rewrite Htr2, Htr1, app_assoc; reflexivity|].
      split.
      * rewrite length_app, map_app, Hc1, Hc2, Hlen.
        replace (List.length configs)
          with (List.length (map (pair variant) configs))
          by apply length_map.
        rewrite firstn_app_2, firstn_all, map_app. reflexivity.
      * destruct (fst (ocr_variants E rest
                         (snd (ocr_configs E variant configs st))))
          as [code|e].
        -- destruct Ho2 as [(-> & Hl2 & Hr2)|(before & last & -> & Hb & Hl)].
           ++ left. split; [reflexivity|].
              rewrite !length_app, length_map, Hlen, Hl2.
              split; [reflexivity|]. apply Forall_app; auto.
           ++ right. exists (evs1 ++ before), last.
              rewrite app_assoc. split; [reflexivity|].
              split; [apply Forall_app; auto | exact Hl].
        -- destruct Ho2 as (before & last & -> & Hb & Hl).
           exists (evs1 ++ before), last.
           rewrite app_assoc. split; [reflexivity|].
           split; [apply Forall_app; auto | exact Hl].
    + exists evs1. cbn [fst snd]. split; [exact Htr1|]. split.
      * rewrite firstn_app, length_map.
        replace (List.length evs1 - List.length configs)%nat with O by lia.
        rewrite firstn_O, app_nil_r. exact Hc1.
      * exact Ho1.
Qed.

(** C4.  [ocr_captcha] calls the recognizer on the pairs (candidate,
    profile) in the order of [list_prod (_variants img) configs]:
    candidates in generation order, and for each the profiles single
    word (psm 8), single line (psm 7), single block (psm 6), single
    character (psm 10).  The calls made are a prefix of that list of 828
    pairs.  When it returns a non-empty code, that code is the
    normalised text of the last call made, every earlier call was
    rejected, and the code has four characters, all in [[0-9A-Za-z]];
    otherwise it returns the empty string, after all 828 pairs were
    tried and rejected.  When the recognizer itself fails, the failure
    is the last call made and propagates. *)
Theorem ocr_captcha_first_match (img : Image) (st : state Image W) :
  let out := ocr_captcha E img st in
  let pairs := list_prod (_variants (pil E) img) configs in
  configs = [ "--psm 8" ++ TESSERACT_WHITELIST; "--psm 7" ++ TESSERACT_WHITELIST;
              "--psm 6" ++ TESSERACT_WHITELIST; "--psm 10" ++ TESSERACT_WHITELIST
            ]%string
  /\ List.length pairs = 828%nat
  /\ exists evs,
      trace (snd out) = trace st ++ evs
      /\ map ocr_call evs = map Some (firstn (List.length evs) pairs)
      /\ match fst out with
         | Ok code =>
             (code = "" /\ List.length evs = 828%nat
              /\ Forall ocr_rejected evs)
             \/ (exists before last,
                    evs = before ++ [last] /\ Forall ocr_rejected before
                    /\ ocr_code last = Some code
                    /\ String.length code = 4%nat
                    /\ forall_string is_alnum code = true)
         | Raise _ =>
             exists before last,
               evs = before ++ [last] /\ Forall ocr_rejected before
               /\ ocr_failed last = true
         end.
Proof.
  cbv zeta. split; [reflexivity|].
  assert (Hlen : List.length (list_prod (_variants (pil E) img) configs)
                 = 828%nat).
  { rewrite length_prod, variants_length. reflexivity. }
  split; [exact Hlen|].
  unfold ocr_captcha.
  destruct (ocr_variants_spec (_variants (pil E) img) st)
    as (evs & Htr & Hcalls & Hout).
  exists evs. split; [exact Htr|]. split; [exact Hcalls|].
  destruct (fst (ocr_variants E (_variants (pil E) img) st)) as [code|e].
  - destruct Hout as [(-> & Hl & Hr)|(before & last & -> & Hb & Hl)].
    + left. rewrite <- Hlen. auto.
    + right. exists before, last.
      destruct (ocr_code_accepted _ Hl). auto.
  - exact Hout.
Qed.

End OcrFacts.

(** ** The remote solving adapter *)

(** *** The encoding of the upload *)

Lemma b64_index_char (n : N) :
  (n < 64)%N -> b64_index (b64_char n) = Some n /\ b64_char n <> "="%char.
Proof.
  intros Hn.
  assert (Hall :
    forallb (fun k =>
               match b64_index (b64_char (N.of_nat k)) with
               | Some m => N.eqb m (N.of_nat k)
               | None => false
               end && negb (Ascii.eqb (b64_char (N.of_nat k)) "="))
      (seq 0 64) = true) by (vm_compute; reflexivity).
  rewrite forallb_forall in Hall.
  specialize (Hall (N.to_nat n)). rewrite N2Nat.id in Hall.
  assert (Hin : In (N.to_nat n) (seq 0 64)) by (apply in_seq; lia).
  apply Hall, andb_true_iff in Hin. destruct Hin as [Hidx Hpad].
  split.
  - destruct (b64_index (b64_char n)) as [m|]; [|discriminate].
    apply N.eqb_eq in Hidx. congruence.
  - apply negb_true_iff, Ascii.eqb_neq in Hpad. exact Hpad.
Qed.

Lemma b64_group (x y z : N) :
  (x <= 255 -> y <= 255 -> z <= 255 ->
   x / 4 < 64 /\ (x mod 4) * 16 + y / 16 < 64
   /\ (y mod 16) * 4 + z / 64 < 64 /\ z mod 64 < 64
   /\ x / 4 * 4 + ((x mod 4) * 16 + y / 16) / 16 = x
   /\ (((x mod 4) * 16 + y / 16) mod 16) * 16 + ((y mod 16) * 4 + z / 64) / 4
      = y
   /\ (((y mod 16) * 4 + z / 64) mod 4) * 64 + z mod 64 = z)%N.
Proof.
  intros Hx Hy Hz.
  repeat split; zify; Z.to_euclidean_division_equations; lia.
Qed.

Lemma bytes_of_to_N (bs : list byte) : bytes_of (map Byte.to_N bs) = Some bs.
Proof.
  induction bs as [|b bs IH]; [reflexivity|].
  unfold bytes_of in *. cbn [map fold_right].
  rewrite IH, Byte.of_to_N. reflexivity.
Qed.

(** Decoding what [b64encode] produced gives the bytes back. *)
Lemma b64decode_encode (bs : list byte) : b64decode (b64encode bs) = Some bs.
Proof.
  assert (Hlen : forall n bs, (List.length bs <= n)%nat ->
                              b64decode (b64encode bs) = Some bs).
  { clear bs. induction n as [|n IH]; intros bs Hn.
    - destruct bs; [reflexivity | cbn in Hn; lia].
    - destruct bs as [|a [|b [|c rest]]]; [reflexivity | | |].
      + pose proof (Byte.to_N_bounded a) as Ha.
        destruct (@b64_group (Byte.to_N a) 0 0 Ha) as (H0 & H1 & _ & _ & Hx & _);
          [lia | lia |].
        change (0 / 16)%N with 0%N in H1, Hx. rewrite N.add_0_r in H1, Hx.
        cbn [b64encode b64decode].
        rewrite (proj1 (b64_index_char H0)), (proj1 (b64_index_char H1)).
        change (b64_index "=") with (@None N).
        cbn [Ascii.eqb Bool.eqb andb String.eqb].
        rewrite Hx. exact (bytes_of_to_N [a]).
      + pose proof (Byte.to_N_bounded a) as Ha.
        pose proof (Byte.to_N_bounded b) as Hb.
        destruct (@b64_group (Byte.to_N a) (Byte.to_N b) 0 Ha Hb)
          as (H0 & H1 & H2 & _ & Hx & Hy & _); [lia|].
        change (0 / 64)%N with 0%N in H2, Hy. rewrite N.add_0_r in H2, Hy.
        cbn [b64encode b64decode].
        rewrite (proj1 (b64_index_char H0)), (proj1 (b64_index_char H1)),
          (proj1 (b64_index_char H2)).
        change (b64_index "=") with (@None N).
        cbn [Ascii.eqb Bool.eqb andb String.eqb].
        rewrite Hx, Hy. exact (bytes_of_to_N [a; b]).
      + pose proof (Byte.to_N_bounded a) as Ha.
        pose proof (Byte.to_N_bounded b) as Hb.
        pose proof (Byte.to_N_bounded c) as Hc.
        destruct (b64_group Ha Hb Hc) as (H0 & H1 & H2 & H3 & Hx & Hy & Hz).
        cbn [b64encode b64decode].
        rewrite (proj1 (b64_index_char H0)), (proj1 (b64_index_char H1)),
          (proj1 (b64_index_char H2)), (proj1 (b64_index_char H3)).
        pose proof (bytes_of_to_N [a; b; c]) as Hbytes. cbn [map] in Hbytes.
        rewrite Hx, Hy, Hz, Hbytes.
        rewrite IH by (cbn [List.length] in Hn; lia). reflexivity. }
  apply (Hlen (List.length bs)). lia.
Qed.

Section SolverFacts.
Context {Image W : Type} (E : Env Image W).

Lemma send_run (s : site) (rq : request) (st : state Image W) :
  exists out dt,
    trace (snd (send E s rq st)) = trace st ++ [EvHttp s rq out]
    /\ clock (snd (send E s rq st)) = clock st + Z.of_N dt
    /\ fst (send E s rq st)
       = match out with
         | HttpResponse resp => Ok resp
         | HttpFailure info => Raise (RequestException info)
         end.
Proof.
  unfold send.
  destruct (http_send E rq (world st)) as [[out dt] w'].
  exists out, dt. destruct out; repeat split; reflexivity.
Qed.

(** What [read_poll] makes of a response that carries a JSON object. *)
Lemma read_poll_cases (poll : response) (d : list (string * json)) :
  raise_for_status poll = Ok tt ->
  json_body poll = Some (JDict d) ->
  read_poll E poll
  = if Py.eq_one (Py.get_default d "status" JNull) then
      match Py.get_default d "request" (JStr "") with
      | JStr answer =>
          Ok (Some (if accepted (_clean_text answer)
                    then _clean_text answer else ""%string))
      | _ => Raise (PyException "TypeError")
      end
    else if Py.neq_str (Py.get_default d "request" JNull) "CAPCHA_NOT_READY"
    then Raise (LoginError ("2Captcha error: " ++ repr_json E (JDict d)))
    else Ok None.
Proof.
  intros Hst Hjs. unfold read_poll, response_json.
  rewrite Hst, Hjs. cbn [py_get py_get_default].
  destruct (Py.eq_one (Py.get_default d "status" JNull)); [|reflexivity].
  destruct (Py.get_default d "request" (JStr "")); cbn [clean_value];
    try reflexivity.
  destruct (accepted (_clean_text s)); reflexivity.
Qed.

(** What [read_upload] makes of a response that carries a JSON object:
    the job id is the value under [request]. *)
Lemma read_upload_cases (resp : response) (d : list (string * json)) :
  raise_for_status resp = Ok tt ->
  json_body resp = Some (JDict d) ->
  read_upload E resp
  = if Py.eq_one (Py.get_default d "status" JNull) then
      match Py.lookup d "request" with
      | Some captcha_id => Ok captcha_id
      | None => Raise (PyException "KeyError")
      end
    else Raise (LoginError ("2Captcha upload failed: " ++ repr_json E (JDict d))).
Proof.
  intros Hst Hjs. unfold read_upload, response_json.
  rewrite Hst, Hjs. cbn [py_get py_index].
  destruct (Py.eq_one (Py.get_default d "status" JNull)); reflexivity.
Qed.

(** A code that [read_poll] returns is empty or has four alphanumeric
    characters. *)
Lemma read_poll_code (poll : response) (code : string) :
  read_poll E poll = Ok (Some code) ->
  code = ""%string
  \/ (String.length code = 4%nat /\ forall_string is_alnum code = true).
Proof.
  unfold read_poll.
  destruct (raise_for_status poll); [|discriminate].
  destruct (response_json poll) as [data|]; [|discriminate].
  destruct (py_get data "status") as [status|]; [|discriminate].
  destruct (Py.eq_one status).
  - destruct (py_get_default data "request" (JStr "")) as [request|];
      [|discriminate].
    destruct request; cbn [clean_value]; try discriminate.
    destruct (accepted (_clean_text s)) eqn:Hacc; intros [= <-].
    + right. split; [apply accepted_length, Hacc|].
      rewrite clean_text_filter. apply filter_string_forall.
    + left. reflexivity.
  - destruct (py_get data "request") as [request|]; [|discriminate].
    destruct (Py.neq_str request "CAPCHA_NOT_READY"); discriminate.
Qed.

(** The polling loop, from any state in which the fuel covers the time
    left: it never runs out of fuel, every poll follows a sleep of five
    seconds, a poll is sent only while less than [timeout] seconds have
    passed, and the loop ends as [polling_ends] says. *)
Lemma poll_loop_spec (cfg : Config) (captcha_id : json) (start timeout : Z) :
  forall (fuel : nat) (st : state Image W),
    timeout - (clock st - start) <= 5 * (Z.of_nat fuel - 1) ->
    (1 <= fuel)%nat ->
    let out := poll_loop E fuel cfg captcha_id start timeout st in
    exists outs r,
      trace (snd out) = trace st ++ poll_events (poll_request cfg captcha_id) outs
      /\ 5 * Z.of_nat (List.length outs)
         < Z.max 0 (timeout - (clock st - start)) + 5
      /\ fst out
         = match r with Ok code => Ok (Some code) | Raise e => Raise e end
      /\ polling_ends E outs timeout (clock (snd out) - start) r.
Proof.
  induction fuel as [|fuel IH]; intros st Hfuel Hpos; [lia|].
  cbn [poll_loop]. rewrite bind_run. cbn [time_time fst snd].
  destruct (clock st - start <? timeout) eqn:Hguard.
  - apply Z.ltb_lt in Hguard.
    rewrite bind_run. cbn [time_sleep fst snd].
    set (st1 := {| world := world st; clock := clock st + 5;
                   trace := trace st ++ [EvSleep 5] |}).
    rewrite bind_run.
    destruct (send_run SiteSolverPoll (poll_request cfg captcha_id) st1)
      as (o & dt & Htr & Hclk & Hres).
    rewrite Hres. destruct o as [poll|info].
    + rewrite bind_run. cbn [lift fst snd].
      destruct (read_poll E poll) as [[code|]|e] eqn:Hread.
      * exists [HttpResponse poll], (Ok code). cbn [ret fst snd].
        split; [rewrite Htr; subst st1; cbn [trace poll_events];
                rewrite <- app_assoc; reflexivity|].
        split; [cbn [List.length]; lia|]. split; [reflexivity|].
        exists [], poll. auto.
      * specialize (IH (snd (send E SiteSolverPoll
                               (poll_request cfg captcha_id) st1))).
        rewrite Hclk in IH. subst st1. cbn [clock] in IH.
        destruct IH as (outs & r & Htr' & Hcount & Hfst & Hends);
          [lia | lia |].
        exists (HttpResponse poll :: outs), r.
        split; [rewrite Htr', Htr; cbn [trace poll_events];
                rewrite <- !app_assoc; reflexivity|].
        split; [cbn [List.length]; lia|]. split; [exact Hfst|].
        assert (Hnr : poll_not_ready E (HttpResponse poll) = true)
          by (cbn; rewrite Hread; reflexivity).
        destruct r as [code|e].
        -- destruct Hends as (before & final & -> & Hb & Hf).
           exists (HttpResponse poll :: before), final. auto.
        -- destruct Hends as [(before & final & -> & Hb & Hf)|(-> & Hb & Ht)].
           ++ left. exists (HttpResponse poll :: before), final. auto.
           ++ right. auto.
      * exists [HttpResponse poll], (Raise e). cbn [fst snd].
        split; [rewrite Htr; subst st1; cbn [trace poll_events];
                rewrite <- app_assoc; reflexivity|].
        split; [cbn [List.length]; lia|]. split; [reflexivity|].
        left. exists [], (HttpResponse poll). auto.
    + exists [HttpFailure info], (Raise (RequestException info)).
      cbn [fst snd].
      split; [rewrite Htr; subst st1; cbn [trace poll_events];
              rewrite <- app_assoc; reflexivity|].
      split; [cbn [List.length]; lia|]. split; [reflexivity|].
      left. exists [], (HttpFailure info). cbn. auto.
  - apply Z.ltb_ge in Hguard.
    exists [], (Raise (LoginError "2Captcha timeout")). cbn [raise fst snd].
    split; [cbn; rewrite app_nil_r; reflexivity|].
    split; [cbn [List.length]; lia|]. split; [reflexivity|].
    right. auto.
Qed.

Lemma poll_fuel_covers (timeout : Z) :
  timeout <= 5 * (Z.of_nat (poll_fuel timeout) - 1).
Proof.
  unfold poll_fuel. rewrite Nat2Z.inj_succ.
  destruct (Z.le_gt_cases timeout 0) as [Hle|Hgt].
  - lia.
  - rewrite Z2Nat.id by (apply Z.div_pos; lia).
    pose proof (Z.div_mod (timeout + 4) 5 ltac:(lia)).
    pose proof (Z.mod_pos_bound (timeout + 4) 5 ltac:(lia)). lia.
Qed.

(** C7.  [solve_captcha_2captcha] sends the image it is given, as it
    is given (its PNG bytes, which the [body] of the one upload carries
    in base64: decoding the body gives these bytes back).  The job id is
    what the reply to the upload carries under [request], when that
    reply is a JSON object with status 1; every poll asks for that id.
    Each poll follows a sleep of five seconds and is sent only while
    less than 120 seconds have passed since the polling started, so
    there are at most 24.  A "not ready" response makes the loop go
    round again, any other response without success status raises
    [LoginError] out of the function, and a success response ends it
    with the normalised answer when that has four characters and with
    the empty string otherwise; when every poll came back "not ready"
    the function raises the timeout error, 120 seconds or more after the
    polling started. *)
Theorem remote_solver_protocol (cfg : Config) (img : Image)
  (st : state Image W) :
  let out := solve_captcha_2captcha E cfg img 120 st in
  let upload := upload_request E cfg img in
  Py.lookup (req_data upload) "method" = Some (JStr "base64")
  /\ (exists body,
        Py.lookup (req_data upload) "body" = Some (JStr body)
        /\ b64decode body = Some (save_png (pil E) img))
  /\ (forall resp d,
        raise_for_status resp = Ok tt ->
        json_body resp = Some (JDict d) ->
        read_upload E resp
        = if Py.eq_one (Py.get_default d "status" JNull) then
            match Py.lookup d "request" with
            | Some captcha_id => Ok captcha_id
            | None => Raise (PyException "KeyError")
            end
          else Raise (LoginError ("2Captcha upload failed: "
                                  ++ repr_json E (JDict d))))
  /\ (forall captcha_id,
        Py.lookup (req_params (poll_request cfg captcha_id)) "id"
        = Some captcha_id
        /\ Py.lookup (req_params (poll_request cfg captcha_id)) "action"
           = Some (JStr "get"))
  /\ (forall poll d,
        raise_for_status poll = Ok tt ->
        json_body poll = Some (JDict d) ->
        read_poll E poll
        = if Py.eq_one (Py.get_default d "status" JNull) then
            match Py.get_default d "request" (JStr "") with
            | JStr answer =>
                Ok (Some (if accepted (_clean_text answer)
                          then _clean_text answer else ""%string))
            | _ => Raise (PyException "TypeError")
            end
          else if Py.neq_str (Py.get_default d "request" JNull)
                    "CAPCHA_NOT_READY"
          then Raise (LoginError ("2Captcha error: " ++ repr_json E (JDict d)))
          else Ok None)
  /\ match fst out with
     | Ok code =>
         code = ""%string
         \/ (String.length code = 4%nat /\ forall_string is_alnum code = true)
     | Raise _ => True
     end
  /\ if PyStr.truthy (CAPTCHA_2CAPTCHA_API_KEY cfg) then
       exists up,
         match up with
         | HttpFailure info =>
             trace (snd out) = trace st ++ [EvHttp SiteSolverUpload upload up]
             /\ fst out = Raise (RequestException info)
         | HttpResponse resp =>
             match read_upload E resp with
             | Raise e =>
                 trace (snd out)
                 = trace st ++ [EvHttp SiteSolverUpload upload up]
                 /\ fst out = Raise e
             | Ok captcha_id =>
                 exists outs started,
                   trace (snd out)
                   = trace st
                     ++ EvHttp SiteSolverUpload upload up
                        :: poll_events (poll_request cfg captcha_id) outs
                   /\ (List.length outs <= 24)%nat
                   /\ clock st <= started
                   /\ polling_ends E outs 120 (clock (snd out) - started)
                        (fst out)
             end
         end
     else
       trace (snd out) = trace st
       /\ fst out = Raise (LoginError "2Captcha API key not set").
Proof.
  cbv zeta. split; [reflexivity|].
  split; [eexists; split; [reflexivity | apply b64decode_encode]|].
  split; [apply read_upload_cases|].
  split; [intros captcha_id; split; reflexivity|].
  split; [apply read_poll_cases|].
  assert (Hrun :
    if PyStr.truthy (CAPTCHA_2CAPTCHA_API_KEY cfg) then
       exists up,
         match up with
         | HttpFailure info =>
             trace (snd (solve_captcha_2captcha E cfg img 120 st))
             = trace st ++ [EvHttp SiteSolverUpload (upload_request E cfg img) up]
             /\ fst (solve_captcha_2captcha E cfg img 120 st)
                = Raise (RequestException info)
         | HttpResponse resp =>
             match read_upload E resp with
             | Raise e =>
                 trace (snd (solve_captcha_2captcha E cfg img 120 st))
                 = trace st
                   ++ [EvHttp SiteSolverUpload (upload_request E cfg img) up]
                 /\ fst (solve_captcha_2captcha E cfg img 120 st) = Raise e
             | Ok captcha_id =>
                 exists outs started,
                   trace (snd (solve_captcha_2captcha E cfg img 120 st))
                   = trace st
                     ++ EvHttp SiteSolverUpload (upload_request E cfg img) up
                        :: poll_events (poll_request cfg captcha_id) outs
                   /\ (List.length outs <= 24)%nat
                   /\ clock st <= started
                   /\ polling_ends E outs 120
                        (clock (snd (solve_captcha_2captcha E cfg img 120 st))
                         - started)
                        (fst (solve_captcha_2captcha E cfg img 120 st))
             end
         end
     else
       trace (snd (solve_captcha_2captcha E cfg img 120 st)) = trace st
       /\ fst (solve_captcha_2captcha E cfg img 120 st)
          = Raise (LoginError "2Captcha API key not set")).
  { unfold solve_captcha_2captcha.
    destruct (PyStr.truthy (CAPTCHA_2CAPTCHA_API_KEY cfg));
      cbn [negb]; [|split; reflexivity].
    rewrite bind_run.
    destruct (send_run SiteSolverUpload (upload_request E cfg img) st)
      as (up & dt & Htr & Hclk & Hres).
    exists up. rewrite Hres. destruct up as [resp|info]; [|auto].
    rewrite bind_run. cbn [lift fst snd].
    destruct (read_upload E resp) as [captcha_id|e]; [|auto].
    rewrite bind_run. cbn [time_time fst snd]. rewrite bind_run.
    set (st1 := snd (send E SiteSolverUpload (upload_request E cfg img) st))
      in *.
    destruct (@poll_loop_spec cfg captcha_id (clock st1) 120
                (poll_fuel 120) st1)
      as (outs & r & Htr' & Hcount & Hfst & Hends);
      [ pose proof (poll_fuel_covers 120); lia
      | unfold poll_fuel; lia | ].
    rewrite Hfst. exists outs, (clock st1).
    replace (clock st1 - clock st1) with 0 in Hcount by lia.
    destruct r as [code|e]; cbn [ret fst snd];
      (split; [rewrite Htr', Htr, <- app_assoc; reflexivity|]);
      (split; [lia|]); (split; [lia | exact Hends]). }
  split; [|exact Hrun].
  destruct (fst (solve_captcha_2captcha E cfg img 120 st)) as [code|e] eqn:Hout;
    [|exact I].
  destruct (PyStr.truthy (CAPTCHA_2CAPTCHA_API_KEY cfg));
    [|destruct Hrun; discriminate].
  destruct Hrun as ([resp|info] & Hup); [|destruct Hup; discriminate].
  destruct (read_upload E resp); [|destruct Hup; discriminate].
  destruct Hup as (outs & started & _ & _ & _ & before & poll & _ & _ & Hread).
  exact (read_poll_code _ Hread).
Qed.

End SolverFacts.

(** ** Which requests each function sends *)

Section TraceFacts.
Context {Image W : Type} (E : Env Image W).

Local Abbreviation Eff := (M Image W).

Lemma emits_weaken {A : Type} (m : Eff A)
  (P Q : result A -> list (event Image) -> Prop) :
  emits m P -> (forall r evs, P r evs -> Q r evs) -> emits m Q.
Proof.
  intros Hm HPQ st. destruct (Hm st) as (evs & Htr & HP). eauto.
Qed.

Lemma emits_ret {A : Type} (a : A)
  (P : result A -> list (event Image) -> Prop) :
  P (Ok a) [] -> emits (ret a : Eff A) P.
Proof. intros HP st. exists []. cbn. rewrite app_nil_r. auto. Qed.

Lemma emits_lift {A : Type} (r : result A)
  (P : result A -> list (event Image) -> Prop) :
  P r [] -> emits (lift r : Eff A) P.
Proof. intros HP st. exists []. cbn. rewrite app_nil_r. auto. Qed.

Lemma emits_raise {A : Type} (e : exn)
  (P : result A -> list (event Image) -> Prop) :
  P (Raise e) [] -> emits (raise e : Eff A) P.
Proof. intros HP st. exists []. cbn. rewrite app_nil_r. auto. Qed.

Lemma emits_bind {A B : Type} (m : Eff A) (k : A -> Eff B)
  (P : result A -> list (event Image) -> Prop)
  (Q : result B -> list (event Image) -> Prop) :
  emits m P ->
  (forall a evs1, P (Ok a) evs1 ->
                  emits (k a) (fun r evs2 => Q r (evs1 ++ evs2))) ->
  (forall e evs1, P (Raise e) evs1 -> Q (Raise e) evs1) ->
  emits (bind m k) Q.
Proof.
  intros Hm Hk He st. rewrite bind_run.
  destruct (Hm st) as (evs1 & Htr1 & HP).
  destruct (fst (m st)) as [a|e].
  - destruct (Hk a evs1 HP (snd (m st))) as (evs2 & Htr2 & HQ).
    exists (evs1 ++ evs2). rewrite Htr2, Htr1, app_assoc. auto.
  - exists evs1. cbn [fst snd]. auto.
Qed.

Lemma emits_try {A : Type} (m : Eff A)
  (P : result A -> list (event Image) -> Prop) :
  emits m P ->
  emits (try_ m) (fun r evs => exists r0, r = Ok r0 /\ P r0 evs).
Proof.
  intros Hm st. destruct (Hm st) as (evs & Htr & HP).
  unfold try_. destruct (m st) as [r st']. exists evs. cbn in *. eauto.
Qed.

Lemma emits_send (s : site) (rq : request) :
  emits (send E s rq)
    (fun r evs =>
       exists out,
         evs = [EvHttp s rq out]
         /\ r = match out with
                | HttpResponse resp => Ok resp
                | HttpFailure info => Raise (RequestException info)
                end).
Proof.
  intros st. destruct (send_run E s rq st) as (out & dt & Htr & _ & Hres).
  exists [EvHttp s rq out]. eauto.
Qed.

Lemma emits_sleep (seconds : Z) :
  emits (time_sleep seconds : Eff unit)
    (fun r evs => evs = [EvSleep seconds] /\ r = Ok tt).
Proof. intros st. exists [EvSleep seconds]. cbn. auto. Qed.

Lemma emits_write (filename contents : string) :
  emits (write_file filename contents : Eff unit)
    (fun r evs => evs = [EvWrite filename contents] /\ r = Ok tt).
Proof. intros st. exists [EvWrite filename contents]. cbn. auto. Qed.

Lemma emits_input (prompt : string) :
  emits (input E prompt)
    (fun r evs =>
       exists line,
         evs = [EvInput prompt line]
         /\ r = match line with Some l => Ok l | None => Raise EOFError end).
Proof.
  intros st. unfold input.
  destruct (console_input E prompt (world st)) as [line w'].
  exists [EvInput prompt line]. destruct line; cbn; eauto.
Qed.

Lemma emits_tesseract (variant : Image) (config : string) :
  emits (tesseract E variant config)
    (fun r evs =>
       exists out,
         evs = [EvOcr variant config out]
         /\ r = match out with
                | OcrText raw => Ok raw
                | OcrFailure _ => Raise (PyException "TesseractError")
                end).
Proof.
  intros st. destruct (tesseract_run E variant config st) as (out & Htr & Hres).
  exists [EvOcr variant config out]. eauto.
Qed.

(** *** [only] *)

Lemma sites_ok_app (allowed : site -> bool) (evs1 evs2 : list (event Image)) :
  sites_ok allowed evs1 -> sites_ok allowed evs2 ->
  sites_ok allowed (evs1 ++ evs2).
Proof. intros H1 H2. apply Forall_app. auto. Qed.

Lemma only_bind {A B : Type} (allowed : site -> bool)
  (m : Eff A) (k : A -> Eff B) :
  only allowed m -> (forall a, only allowed (k a)) -> only allowed (bind m k).
Proof.
  intros Hm Hk. eapply emits_bind; [exact Hm | |auto].
  intros a evs1 H1. eapply emits_weaken; [apply Hk|].
  intros r evs2 H2. apply sites_ok_app; assumption.
Qed.

Lemma only_ret {A : Type} (allowed : site -> bool) (a : A) :
  only allowed (ret a : Eff A).
Proof. apply emits_ret. constructor. Qed.

Lemma only_raise {A : Type} (allowed : site -> bool) (e : exn) :
  only allowed (raise e : Eff A).
Proof. apply emits_raise. constructor. Qed.

Lemma only_lift {A : Type} (allowed : site -> bool) (r : result A) :
  only allowed (lift r : Eff A).
Proof. apply emits_lift. constructor. Qed.

Lemma only_try {A : Type} (allowed : site -> bool) (m : Eff A) :
  only allowed m -> only allowed (try_ m).
Proof.
  intros Hm. eapply emits_weaken; [apply emits_try, Hm|].
  intros r evs (r0 & _ & H). exact H.
Qed.

Lemma only_send (allowed : site -> bool) (s : site) (rq : request) :
  allowed s = true -> only allowed (send E s rq).
Proof.
  intros Hs. eapply emits_weaken; [apply emits_send|].
  intros r evs (out & -> & _). repeat constructor. exact Hs.
Qed.

Lemma only_sleep (allowed : site -> bool) (seconds : Z) :
  only allowed (time_sleep seconds : Eff unit).
Proof.
  eapply emits_weaken; [apply emits_sleep|].
  intros r evs (-> & _). repeat constructor.
Qed.

Lemma only_write (allowed : site -> bool) (filename contents : string) :
  only allowed (write_file filename contents : Eff unit).
Proof.
  eapply emits_weaken; [apply emits_write|].
  intros r evs (-> & _). repeat constructor.
Qed.

Lemma only_input (allowed : site -> bool) (prompt : string) :
  only allowed (input E prompt).
Proof.
  eapply emits_weaken; [apply emits_input|].
  intros r evs (line & -> & _). repeat constructor.
Qed.

Lemma only_tesseract (allowed : site -> bool) (variant : Image)
  (config : string) :
  only allowed (tesseract E variant config).
Proof.
  eapply emits_weaken; [apply emits_tesseract|].
  intros r evs (out & -> & _). repeat constructor.
Qed.

Lemma only_time (allowed : site -> bool) :
  only allowed (time_time : Eff Z).
Proof. intros st. exists []. cbn. rewrite app_nil_r. split; auto. constructor. Qed.

Lemma only_when (allowed : site -> bool) (b : bool) (m : Eff unit) :
  only allowed m -> only allowed (when_ b m).
Proof. intros Hm. destruct b; [exact Hm | apply only_ret]. Qed.

End TraceFacts.

Create HintDb only_db.
#[local] Hint Resolve only_ret only_raise only_lift only_sleep only_write
  only_input only_tesseract only_time : only_db.

(** Break a program down to its primitive effects. *)
Ltac only_step :=
  match goal with
  | |- only _ (bind _ _) => apply only_bind; [|intros]
  | |- only _ (try_ _) => apply only_try
  | |- only _ (when_ _ _) => apply only_when
  | |- only _ (send _ _ _) => apply only_send; assumption
  | |- only _ (match ?x with _ => _ end) => destruct x
  | |- only _ (let '(_, _) := ?x in _) => destruct x
  | |- only _ _ => solve [auto with only_db]
  end.

Ltac only_auto := repeat only_step.

Section OnlyFacts.
Context {Image W : Type} (E : Env Image W).
Variable allowed : site -> bool.

Lemma only_get_login_page (cfg : Config) :
  allowed SiteLoginPage = true -> only allowed (get_login_page E cfg).
Proof.
  intros Hs. unfold get_login_page.
  generalize (@None exn).
  generalize [LOGIN_PAGE_URL cfg;
              "https://service.taipower.com.tw/hvcs/SignOn/Module/Login"%string].
  induction l as [|url rest IH]; intros last_err; cbn [get_login_page_loop].
  - destruct last_err; only_auto.
  - only_auto.
Qed.

Lemma only_fetch_captcha (cfg : Config) (url : string) :
  allowed SiteCaptcha = true -> only allowed (fetch_captcha E cfg url).
Proof. intros Hs. unfold fetch_captcha. only_auto. Qed.

Lemma only_ocr_configs (variant : Image) (cs : list string) :
  only allowed (ocr_configs E variant cs).
Proof.
  induction cs as [|config rest IH]; cbn [ocr_configs]; only_auto.
Qed.

Lemma only_ocr_captcha (img : Image) : only allowed (ocr_captcha E img).
Proof.
  unfold ocr_captcha. generalize (_variants (pil E) img).
  induction l as [|variant rest IH]; cbn [ocr_variants]; only_auto.
  apply only_ocr_configs.
Qed.

Lemma only_poll_loop (cfg : Config) (captcha_id : json) (start timeout : Z)
  (fuel : nat) :
  allowed SiteSolverPoll = true ->
  only allowed (poll_loop E fuel cfg captcha_id start timeout).
Proof.
  intros Hs. induction fuel as [|fuel IH]; cbn [poll_loop]; only_auto.
Qed.

Lemma only_solve_captcha_2captcha (cfg : Config) (img : Image) (timeout : Z) :
  allowed SiteSolverUpload = true -> allowed SiteSolverPoll = true ->
  only allowed (solve_captcha_2captcha E cfg img timeout).
Proof.
  intros Hu Hp. unfold solve_captcha_2captcha. only_auto.
  apply only_poll_loop, Hp.
Qed.

Lemma only_solve_step (cfg : Config) (img : Image) :
  allowed SiteSolverUpload = true -> allowed SiteSolverPoll = true ->
  only allowed (solve_step E cfg img).
Proof.
  intros Hu Hp. unfold solve_step.
  only_auto;
    try (apply only_solve_captcha_2captcha; assumption);
    apply only_ocr_captcha.
Qed.

Lemma only_submit (cfg : Config) (attempt : Z) (action_url : string)
  (fields : list (string * string)) (token captcha_code : string) :
  allowed SiteLoginPost = true ->
  only allowed (submit E cfg attempt action_url fields token captcha_code).
Proof. intros Hs. unfold submit. only_auto. Qed.

Lemma only_interpret_response (cfg : Config) (resp : response) :
  allowed SiteRedirect = true ->
  only allowed (interpret_response E cfg resp).
Proof. intros Hs. unfold interpret_response. only_auto. Qed.

Lemma only_dump_pages (pages : list (string * string)) :
  allowed SiteMeterDebug = true -> only allowed (dump_pages E pages).
Proof.
  intros Hs. induction pages as [|[filename url] rest IH];
    cbn [dump_pages]; [only_auto|].
  apply only_bind; [unfold dump_page; only_auto | intros; exact IH].
Qed.

Lemma only_dump_meter_debug (cfg : Config) :
  allowed SiteMeterDebug = true -> only allowed (dump_meter_debug E cfg).
Proof.
  intros Hs. unfold dump_meter_debug.
  apply only_bind; [|intros]; apply only_dump_pages, Hs.
Qed.

Lemma only_select_meter_no (cfg : Config) (meter_no : string) :
  allowed SiteMeterList = true -> allowed SiteMeterSwitchPost = true ->
  allowed SiteMeterSwitchGet = true ->
  only allowed (select_meter_no E cfg meter_no).
Proof. intros Hl Hp Hg. unfold select_meter_no. only_auto. Qed.

Lemma only_meter_step (cfg : Config) (login_ok : bool) :
  allowed SiteMeterList = true -> allowed SiteMeterSwitchPost = true ->
  allowed SiteMeterSwitchGet = true ->
  only allowed (meter_step E cfg login_ok).
Proof.
  intros Hl Hp Hg. unfold meter_step.
  only_auto; apply only_select_meter_no; assumption.
Qed.

Lemma only_verify_dashboard (cfg : Config) (attempt : Z) :
  allowed SiteDashboard = true -> allowed SiteMeterDebug = true ->
  only allowed (verify_dashboard E cfg attempt).
Proof.
  intros Hd Hm. unfold verify_dashboard.
  only_auto; apply only_dump_meter_debug, Hm.
Qed.

Lemma only_finish_attempt (cfg : Config) (attempt : Z) (login_ok : bool) :
  allowed SiteMeterList = true -> allowed SiteMeterSwitchPost = true ->
  allowed SiteMeterSwitchGet = true ->
  allowed SiteDashboard = true -> allowed SiteMeterDebug = true ->
  only allowed (finish_attempt E cfg attempt login_ok).
Proof.
  intros Hl Hp Hg Hd Hm. unfold finish_attempt.
  apply only_bind; [apply only_meter_step; assumption|].
  intros [|]; [only_auto | apply only_verify_dashboard; assumption].
Qed.

End OnlyFacts.

Ltac side := first [assumption | reflexivity].

Ltac only_fun :=
  match goal with
  | |- only _ (get_login_page _ _) => apply only_get_login_page; side
  | |- only _ (fetch_captcha _ _ _) => apply only_fetch_captcha; side
  | |- only _ (ocr_captcha _ _) => apply only_ocr_captcha
  | |- only _ (solve_captcha_2captcha _ _ _ _) =>
      apply only_solve_captcha_2captcha; side
  | |- only _ (solve_step _ _ _) => apply only_solve_step; side
  | |- only _ (submit _ _ _ _ _ _ _) => apply only_submit; side
  | |- only _ (interpret_response _ _ _) => apply only_interpret_response; side
  | |- only _ (select_meter_no _ _ _) => apply only_select_meter_no; side
  | |- only _ (meter_step _ _ _) => apply only_meter_step; side
  | |- only _ (dump_meter_debug _ _) => apply only_dump_meter_debug; side
  | |- only _ (verify_dashboard _ _ _) => apply only_verify_dashboard; side
  | |- only _ (finish_attempt _ _ _ _) => apply only_finish_attempt; side
  | |- only _ (send _ _ _) => apply only_send; side
  end.

Ltac only_all := repeat first [only_fun | only_step].

(** ** The attempt loop *)

Section LoopFacts.
Context {Image W : Type} (E : Env Image W).

Local Abbreviation Eff := (M Image W).

Lemma emits_conj {A : Type} (m : Eff A)
  (P Q : result A -> list (event Image) -> Prop) :
  emits m P -> emits m Q -> emits m (fun r evs => P r evs /\ Q r evs).
Proof.
  intros HP HQ st.
  destruct (HP st) as (evs & Htr & Hp). destruct (HQ st) as (evs' & Htr' & Hq).
  rewrite Htr in Htr'. apply app_inv_head in Htr'. subst evs'.
  exists evs. auto.
Qed.

Lemma emits_returns {A : Type} (m : Eff A)
  (P : result A -> list (event Image) -> Prop) (R : result A -> Prop) :
  emits m P -> returns m R -> emits m (fun r evs => P r evs /\ R r).
Proof.
  intros HP HR st. destruct (HP st) as (evs & Htr & Hp).
  exists evs. auto.
Qed.

Lemma only_returns {A : Type} (allowed : site -> bool) (m : Eff A)
  (R : result A -> Prop) :
  only allowed m -> returns m R ->
  emits m (fun r evs => sites_ok allowed evs /\ R r).
Proof. apply emits_returns. Qed.

Lemma emits_bind_only {A B : Type} (allowed : site -> bool)
  (m : Eff A) (k : A -> Eff B) (R : result B -> Prop) :
  only allowed m ->
  (forall a, emits (k a) (fun r evs => sites_ok allowed evs /\ R r)) ->
  (forall e, R (Raise e)) ->
  emits (bind m k) (fun r evs => sites_ok allowed evs /\ R r).
Proof.
  intros Hm Hk He. eapply emits_bind; [exact Hm | |].
  - intros a evs1 H1. eapply emits_weaken; [apply Hk|].
    intros r evs2 [H2 Hr]. split; [apply sites_ok_app; assumption | exact Hr].
  - intros e evs1 H1. split; [exact H1 | apply He].
Qed.

Lemma returns_bind {A B : Type} (m : Eff A) (k : A -> Eff B)
  (R1 : result A -> Prop) (R : result B -> Prop) :
  returns m R1 ->
  (forall a, R1 (Ok a) -> returns (k a) R) ->
  (forall e, R1 (Raise e) -> R (Raise e)) ->
  returns (bind m k) R.
Proof.
  intros Hm Hk He st. rewrite bind_run. specialize (Hm st).
  destruct (fst (m st)) as [a|e]; [apply Hk | apply He]; exact Hm.
Qed.

Lemma returns_weaken {A : Type} (m : Eff A) (R1 R2 : result A -> Prop) :
  returns m R1 -> (forall r, R1 r -> R2 r) -> returns m R2.
Proof. intros Hm H st. apply H, Hm. Qed.

Lemma count_site_app (s : site) (evs1 evs2 : list (event Image)) :
  count_site s (evs1 ++ evs2) = (count_site s evs1 + count_site s evs2)%nat.
Proof. unfold count_site. rewrite filter_app, length_app. reflexivity. Qed.

Lemma sites_ok_count (allowed : site -> bool) (s : site)
  (evs : list (event Image)) :
  sites_ok allowed evs -> allowed s = false -> count_site s evs = 0%nat.
Proof.
  intros Hok Hs. unfold count_site.
  induction Hok as [|ev evs Hev _ IH]; [reflexivity|].
  cbn [List.filter]. destruct (is_site s ev) eqn:His; [|exact IH].
  destruct ev; cbn in His, Hev; try discriminate.
  destruct s, s0; cbn in His; try discriminate; congruence.
Qed.

(** *** The local-only configuration without manual entry *)

Section LocalOnly.
Variable cfg : Config.
Hypothesis Hlocal : USE_2CAPTCHA cfg = false.
Hypothesis Hauto : CAPTCHA_MANUAL cfg = false.

(** Lines 278-294: whatever [ocr_captcha] returns, the step ends in
    the [continue] of line 294. *)
Lemma solve_step_local (img : Image) (st : state Image W) :
  solve_step E cfg img st
  = (match fst (ocr_captcha E img st) with
     | Ok _ => Ok None
     | Raise e => Raise e
     end, snd (ocr_captcha E img st)).
Proof.
  unfold solve_step. rewrite Hlocal, Hauto, bind_run.
  destruct (fst (ocr_captcha E img st)); reflexivity.
Qed.

Lemma only_solve_step_local (allowed : site -> bool) (img : Image) :
  only allowed (solve_step E cfg img).
Proof.
  unfold solve_step. rewrite Hlocal, Hauto. only_all.
Qed.

Lemma returns_solve_step_local (img : Image) :
  returns (solve_step E cfg img) (fun r => forall code, r <> Ok (Some code)).
Proof.
  intros st. rewrite solve_step_local. cbn [fst].
  destruct (fst (ocr_captcha E img st)); discriminate.
Qed.

Lemma login_attempt_local (attempt : Z) :
  emits (login_attempt E cfg attempt)
    (fun r evs => sites_ok page_sites evs /\ forall html, r <> Ok (Some html)).
Proof.
  unfold login_attempt.
  apply emits_bind_only; [only_all | intros html | discriminate].
  apply emits_bind_only; [only_all | intros _ | discriminate].
  apply emits_bind_only;
    [only_all | intros [[action_url fields] captcha_url] | discriminate].
  apply emits_bind_only; [only_all | intros token | discriminate].
  apply emits_bind_only; [only_all | intros captcha_img | discriminate].
  eapply emits_bind.
  - apply only_returns;
      [apply (only_solve_step_local page_sites)
      | apply returns_solve_step_local].
  - intros [code|] evs1 [Hok Hcode]; [destruct (Hcode code); reflexivity|].
    apply emits_ret. rewrite app_nil_r. split; [exact Hok | discriminate].
  - intros e evs1 [Hok _]. split; [exact Hok | discriminate].
Qed.

Lemma login_loop_local (attempts : list Z) :
  emits (login_loop E cfg attempts)
    (fun r evs => sites_ok page_sites evs /\ exists e, r = Raise e).
Proof.
  induction attempts as [|attempt rest IH]; cbn [login_loop].
  - apply emits_raise. split; [constructor | eauto].
  - eapply emits_bind; [apply login_attempt_local | |].
    + intros [html|] evs1 [Hok Hres]; [destruct (Hres html); reflexivity|].
      eapply emits_weaken; [apply IH|].
      intros r evs2 [Hok2 Hr]. split; [apply sites_ok_app; assumption | exact Hr].
    + intros e evs1 [Hok _]. eauto.
Qed.

(** C3.  With [USE_2CAPTCHA] and [CAPTCHA_MANUAL] both false, the
    captcha step of every attempt ends in [continue] whatever
    [ocr_captcha] returns, a four-character code included; so the run
    sends no credential POST (all its requests are fetches of the login
    page and of the captcha image) and never returns: it ends by
    raising. *)
Theorem local_only_never_posts (st : state Image W) :
  let out := login_and_get_dashboard E cfg st in
  (forall img st',
      solve_step E cfg img st'
      = (match fst (ocr_captcha E img st') with
         | Ok _ => Ok None
         | Raise e => Raise e
         end, snd (ocr_captcha E img st')))
  /\ (exists e, fst out = Raise e)
  /\ exists evs,
      trace (snd out) = trace st ++ evs
      /\ sites_ok page_sites evs
      /\ count_site SiteLoginPost evs = 0%nat.
Proof.
  cbv zeta. split; [exact solve_step_local|].
  unfold login_and_get_dashboard.
  destruct (negb (PyStr.truthy (USERNAME cfg))
            || negb (PyStr.truthy (PASSWORD cfg))).
  - cbn. split; [eauto|]. exists []. rewrite app_nil_r.
    split; [reflexivity|]. split; [constructor | reflexivity].
  - destruct (login_loop_local (range 1 (MAX_LOGIN_ATTEMPTS cfg + 1)) st)
      as (evs & Htr & Hok & Hres).
    split; [exact Hres|]. exists evs.
    split; [exact Htr|]. split; [exact Hok|].
    apply (sites_ok_count SiteLoginPost Hok). reflexivity.
Qed.

End LocalOnly.

(** *** How many requests a run sends *)

Lemma counts_weaken {A : Type} (s : site) (n n' : nat) (m : Eff A) :
  counts s n m -> (n <= n')%nat -> counts s n' m.
Proof.
  intros Hm Hle. eapply emits_weaken; [exact Hm|].
  intros r evs H. cbv beta in *. lia.
Qed.

Lemma counts_only {A : Type} (allowed : site -> bool) (s : site) (n : nat)
  (m : Eff A) :
  only allowed m -> allowed s = false -> counts s n m.
Proof.
  intros Hm Hs. eapply emits_weaken; [exact Hm|].
  intros r evs Hok. cbv beta in *. rewrite (sites_ok_count s Hok Hs). lia.
Qed.

Lemma counts_bind {A B : Type} (s : site) (n1 n2 : nat)
  (m : Eff A) (k : A -> Eff B) :
  counts s n1 m -> (forall a, counts s n2 (k a)) ->
  counts s (n1 + n2) (bind m k).
Proof.
  intros Hm Hk. eapply emits_bind; [exact Hm | |].
  - intros a evs1 H1. eapply emits_weaken; [apply Hk|].
    intros r evs2 H2. cbv beta in *. rewrite count_site_app. lia.
  - intros e evs1 H1. cbv beta in *. lia.
Qed.

Lemma counts_bind_only {A B : Type} (allowed : site -> bool) (s : site)
  (n : nat) (m : Eff A) (k : A -> Eff B) :
  only allowed m -> allowed s = false -> (forall a, counts s n (k a)) ->
  counts s n (bind m k).
Proof.
  intros Hm Hs Hk. change n with (0 + n)%nat.
  apply counts_bind; [eapply counts_only; eassumption | exact Hk].
Qed.

Lemma counts_bind_then_only {A B : Type} (allowed : site -> bool) (s : site)
  (n : nat) (m : Eff A) (k : A -> Eff B) :
  counts s n m -> allowed s = false -> (forall a, only allowed (k a)) ->
  counts s n (bind m k).
Proof.
  intros Hm Hs Hk. replace n with (n + 0)%nat by lia.
  apply counts_bind; [exact Hm|].
  intros a. eapply counts_only; [apply Hk | exact Hs].
Qed.

Lemma counts_send (s s' : site) (rq : request) : counts s 1 (send E s' rq).
Proof.
  eapply emits_weaken; [apply emits_send|].
  intros r evs (out & -> & _). unfold count_site. cbn.
  destruct (site_eqb s s'); cbn; lia.
Qed.

Lemma counts_try {A : Type} (s : site) (n : nat) (m : Eff A) :
  counts s n m -> counts s n (try_ m).
Proof.
  intros Hm. eapply emits_weaken; [apply emits_try, Hm|].
  intros r evs (r0 & _ & H). exact H.
Qed.

Lemma counts_get_login_page_loop (urls : list string) (last_err : option exn) :
  counts SiteLoginPage (List.length urls) (get_login_page_loop E urls last_err).
Proof.
  revert last_err.
  induction urls as [|url rest IH]; intros last_err;
    cbn [get_login_page_loop List.length].
  - destruct last_err; apply emits_raise; cbn; lia.
  - change (S (List.length rest)) with (1 + List.length rest)%nat.
    apply counts_bind.
    + apply counts_try.
      eapply (counts_bind_then_only (allowed := all_but SiteLoginPage));
        [apply counts_send | reflexivity | intros; only_all].
    + intros [resp|e].
      * destruct (PyStr.contains "__RequestVerificationToken" (text resp));
          [apply emits_ret; cbn; lia | apply IH].
      * destruct e; try (apply emits_raise; cbn; lia). apply IH.
Qed.

Lemma counts_login_attempt_page (cfg : Config) (attempt : Z) :
  counts SiteLoginPage 2 (login_attempt E cfg attempt).
Proof.
  unfold login_attempt.
  eapply (counts_bind_then_only (allowed := all_but SiteLoginPage));
    [apply counts_get_login_page_loop | reflexivity |].
  intros html. unfold submit_and_verify. only_all.
Qed.

Lemma counts_login_attempt_post (cfg : Config) (attempt : Z) :
  counts SiteLoginPost 1 (login_attempt E cfg attempt).
Proof.
  unfold login_attempt.
  pose proof (fun A B m k n =>
                @counts_bind_only A B (all_but SiteLoginPost) SiteLoginPost
                  n m k) as skip.
  apply skip; [only_all | reflexivity | intros html].
  apply skip; [only_all | reflexivity | intros _].
  apply skip;
    [only_all | reflexivity | intros [[action_url fields] captcha_url]].
  apply skip; [only_all | reflexivity | intros token].
  apply skip; [only_all | reflexivity | intros captcha_img].
  apply skip; [only_all | reflexivity | intros [captcha_code|]];
    [|apply emits_ret; cbn; lia].
  unfold submit_and_verify.
  eapply (counts_bind_then_only (allowed := all_but SiteLoginPost));
    [| reflexivity | intros; only_all].
  unfold submit.
  eapply (counts_bind_then_only (allowed := all_but SiteLoginPost));
    [apply counts_send | reflexivity | intros; only_all].
Qed.

Lemma counts_login_attempt_dashboard (cfg : Config) (attempt : Z) :
  counts SiteDashboard 1 (login_attempt E cfg attempt).
Proof.
  unfold login_attempt.
  pose proof (fun A B m k n =>
                @counts_bind_only A B (all_but SiteDashboard) SiteDashboard
                  n m k) as skip.
  apply skip; [only_all | reflexivity | intros html].
  apply skip; [only_all | reflexivity | intros _].
  apply skip;
    [only_all | reflexivity | intros [[action_url fields] captcha_url]].
  apply skip; [only_all | reflexivity | intros token].
  apply skip; [only_all | reflexivity | intros captcha_img].
  apply skip; [only_all | reflexivity | intros [captcha_code|]];
    [|apply emits_ret; cbn; lia].
  unfold submit_and_verify.
  apply skip; [only_all | reflexivity | intros resp].
  apply skip; [only_all | reflexivity | intros login_ok].
  unfold finish_attempt.
  apply skip; [only_all | reflexivity | intros [|]];
    [apply emits_ret; cbn; lia|].
  unfold verify_dashboard.
  eapply (counts_bind_then_only (allowed := all_but SiteDashboard));
    [apply counts_send | reflexivity | intros; only_all].
Qed.

Lemma counts_login_loop (cfg : Config) (s : site) (n : nat) :
  (forall attempt, counts s n (login_attempt E cfg attempt)) ->
  forall attempts,
    counts s (n * List.length attempts) (login_loop E cfg attempts).
Proof.
  intros Hn. induction attempts as [|attempt rest IH];
    cbn [login_loop List.length].
  - apply emits_raise. cbn. lia.
  - replace (n * S (List.length rest))%nat
      with (n + n * List.length rest)%nat by lia.
    apply counts_bind; [apply Hn|].
    intros [html|]; [apply emits_ret; cbn; lia | exact IH].
Qed.

Lemma range_length (lo hi : Z) :
  List.length (range lo hi) = Z.to_nat (hi - lo).
Proof. unfold range. rewrite length_map, length_seq. reflexivity. Qed.

Lemma counts_login (cfg : Config) (s : site) (n : nat) :
  (forall attempt, counts s n (login_attempt E cfg attempt)) ->
  counts s (n * Z.to_nat (MAX_LOGIN_ATTEMPTS cfg))
    (login_and_get_dashboard E cfg).
Proof.
  intros Hn. unfold login_and_get_dashboard.
  destruct (negb (PyStr.truthy (USERNAME cfg))
            || negb (PyStr.truthy (PASSWORD cfg))).
  - apply emits_raise. cbn. lia.
  - replace (Z.to_nat (MAX_LOGIN_ATTEMPTS cfg))
      with (List.length (range 1 (MAX_LOGIN_ATTEMPTS cfg + 1)))
      by (rewrite range_length; f_equal; lia).
    apply counts_login_loop, Hn.
Qed.

(** When every turn of the loop comes back without a dashboard, the
    loop ends with the exhausted-attempts error. *)
Lemma login_loop_exhausted (cfg : Config) :
  (forall attempt st, fst (login_attempt E cfg attempt st) = Ok None) ->
  forall attempts st, fst (login_loop E cfg attempts st) = Raise exhausted.
Proof.
  intros Hnone. induction attempts as [|attempt rest IH]; intros st;
    cbn [login_loop].
  - reflexivity.
  - rewrite bind_run, Hnone. apply IH.
Qed.

End LoopFacts.

(** *** A recognizer that reads nothing *)

Section Exhaustion.
Context {Image W : Type} (E : Env Image W) (cfg : Config).
Hypothesis Hlocal : USE_2CAPTCHA cfg = false.
Hypothesis Hauto : CAPTCHA_MANUAL cfg = false.
Hypothesis Hpage : page_always_loads E cfg.
Hypothesis Hcaptcha : captcha_always_loads E cfg.
Hypothesis Hocr : recognizer_never_reads E.

Local Abbreviation Eff := (M Image W).

Lemma try_run {A : Type} (m : Eff A) (st : state Image W) :
  try_ m st = (Ok (fst (m st)), snd (m st)).
Proof. unfold try_. destruct (m st); reflexivity. Qed.

Lemma send_eq (s : site) (rq : request) (st : state Image W)
  (out : http_outcome) (dt : N) (w' : W) :
  http_send E rq (world st) = (out, dt, w') ->
  send E s rq st
  = (match out with
     | HttpResponse resp => Ok resp
     | HttpFailure info => Raise (RequestException info)
     end,
     {| world := w'; clock := clock st + Z.of_N dt;
        trace := trace st ++ [EvHttp s rq out] |}).
Proof. intros H. unfold send. rewrite H. destruct out; reflexivity. Qed.

Lemma get_login_page_good :
  emits (get_login_page E cfg)
    (fun r evs =>
       (exists resp,
           r = Ok (text resp)
           /\ (exists form, parse_login_form E cfg (text resp) = Ok form)
           /\ (exists token, extract_token E (text resp) = Ok token))
       /\ count_site SiteLoginPage evs = 1%nat).
Proof.
  intros st.
  destruct (Hpage (world st))
    as (resp & dt & w' & Hsend & Hst & Hmark & Hform & Htoken).
  unfold get_login_page. cbn [get_login_page_loop].
  rewrite bind_run, try_run. cbn [fst snd].
  rewrite bind_run.
  change (request_get (LOGIN_PAGE_URL cfg) [] [] 20)
    with (login_page_request cfg).
  rewrite (@send_eq SiteLoginPage _ st _ _ _ Hsend). cbn [fst snd].
  rewrite bind_run. cbn [lift fst snd]. rewrite Hst. cbn [ret fst snd].
  rewrite Hmark. cbn [ret fst snd trace].
  exists [EvHttp SiteLoginPage (login_page_request cfg) (HttpResponse resp)].
  split; [reflexivity|]. split; [eauto | reflexivity].
Qed.

Lemma returns_fetch_captcha (url : string) :
  returns (fetch_captcha E cfg url) (fun r => exists img, r = Ok img).
Proof.
  intros st.
  destruct (Hcaptcha url (world st))
    as (resp & dt & w' & img & Hsend & Hst & Himg).
  unfold fetch_captcha. rewrite bind_run.
  change (request_get url [] [("Referer", LOGIN_PAGE_URL cfg)] 20)
    with (captcha_request cfg url).
  rewrite (@send_eq SiteCaptcha _ st _ _ _ Hsend). cbn [fst snd].
  rewrite bind_run. cbn [lift fst snd]. rewrite Hst, Himg. cbn. eauto.
Qed.

Lemma returns_tesseract (variant : Image) (config : string) :
  returns (tesseract E variant config)
    (fun r => exists raw, r = Ok raw /\ accepted (_clean_text raw) = false).
Proof.
  intros st. unfold tesseract.
  destruct (Hocr variant config (world st)) as (raw & w' & -> & Hacc).
  cbn. eauto.
Qed.

Lemma returns_ocr_configs (variant : Image) (cs : list string) :
  returns (ocr_configs E variant cs) (fun r => r = Ok None).
Proof.
  induction cs as [|config rest IH]; cbn [ocr_configs].
  - intros st. reflexivity.
  - eapply returns_bind; [apply returns_tesseract | |].
    + intros raw (raw' & [= <-] & Hacc). rewrite Hacc. exact IH.
    + intros e (raw & Hneq & _). discriminate.
Qed.

Lemma returns_ocr_captcha (img : Image) :
  returns (ocr_captcha E img) (fun r => r = Ok ""%string).
Proof.
  unfold ocr_captcha. generalize (_variants (pil E) img).
  induction l as [|variant rest IH]; cbn [ocr_variants].
  - intros st. reflexivity.
  - eapply returns_bind; [apply returns_ocr_configs | |].
    + intros [code|] [=]. exact IH.
    + intros e [=].
Qed.

Lemma returns_solve_step_blind (img : Image) :
  returns (solve_step E cfg img) (fun r => r = Ok None).
Proof.
  intros st. rewrite (solve_step_local E cfg Hlocal Hauto). cbn [fst].
  rewrite (returns_ocr_captcha img st). reflexivity.
Qed.

Lemma returns_when_write (b : bool) (filename contents : string) :
  returns (when_ b (write_file filename contents) : Eff unit)
    (fun r => r = Ok tt).
Proof. intros st. destruct b; reflexivity. Qed.

Lemma returns_lift {A : Type} (r : result A) :
  returns (lift r : Eff A) (fun r' => r' = r).
Proof. intros st. reflexivity. Qed.

Lemma login_attempt_blind (attempt : Z) :
  emits (login_attempt E cfg attempt)
    (fun r evs => r = Ok None /\ count_site SiteLoginPage evs = 1%nat).
Proof.
  unfold login_attempt.
  eapply emits_bind; [apply get_login_page_good | |].
  - intros html evs1 [(resp & [= ->] & (form & Hform) & (token & Htoken)) Hc].
    eapply emits_weaken.
    + apply (only_returns (allowed := all_but SiteLoginPage)
               (R := fun r => r = Ok None)).
      * unfold submit_and_verify. only_all.
      * eapply returns_bind; [apply returns_when_write | | discriminate].
        intros _ _. rewrite Hform, Htoken.
        eapply returns_bind; [apply returns_lift | | discriminate].
        intros form' [= ->]. destruct form as [[action_url fields] captcha_url].
        eapply returns_bind; [apply returns_lift | | discriminate].
        intros token' [= ->].
        eapply returns_bind; [apply returns_fetch_captcha | |].
        -- intros img _.
           eapply returns_bind; [apply returns_solve_step_blind | |].
           ++ intros code [= ->]. intros st. reflexivity.
           ++ discriminate.
        -- intros e [img [=]].
    + intros r evs2 [Hok Hr]. split; [exact Hr|].
      rewrite count_site_app, Hc, (sites_ok_count SiteLoginPage Hok);
        [lia | reflexivity].
  - intros e evs1 [(resp & [=] & _) _].
Qed.

Lemma login_loop_blind (attempts : list Z) :
  emits (login_loop E cfg attempts)
    (fun r evs =>
       r = Raise exhausted
       /\ count_site SiteLoginPage evs = List.length attempts).
Proof.
  induction attempts as [|attempt rest IH]; cbn [login_loop List.length].
  - apply emits_raise. split; reflexivity.
  - eapply emits_bind; [apply login_attempt_blind | |].
    + intros r evs1 [[= ->] Hc]. eapply emits_weaken; [apply IH|].
      intros r evs2 [-> Hc2]. split; [reflexivity|].
      rewrite count_site_app. lia.
    + intros e evs1 [[=] _].
Qed.

End Exhaustion.

Lemma local_only_never_posts_witness :
  let out :=
    login_and_get_dashboard (Stub.stub_env Stub.happy)
      (Stub.stub_config false false 6 "") Stub.start in
  (exists e, fst out = Raise e)
  /\ exists evs,
      trace (snd out) = trace Stub.start ++ evs
      /\ count_site SiteLoginPost evs = 0%nat.
Proof.
  destruct (@local_only_never_posts _ _ (Stub.stub_env Stub.happy)
              (Stub.stub_config false false 6 "") eq_refl eq_refl Stub.start)
    as (_ & Hraise & evs & Htr & _ & Hcount).
  split; [exact Hraise|]. exists evs. split; assumption.
Defined.

Section Bounds.
Context {Image W : Type} (E : Env Image W).

(** C10.  A run starts at most [MAX_LOGIN_ATTEMPTS] attempts: it sends
    at most that many credential POSTs and dashboard fetches, and at
    most twice that many login-page requests (an attempt asks for the
    page at up to two URLs).  When no attempt returns a dashboard and
    none raises, the run ends with the exhausted-attempts error.  The
    scenario of the claim holds when the captcha is solved locally:
    with manual entry disabled, a recognizer that never reads a
    four-character code and a login page and captcha that always load,
    the run fetches the login page exactly once per attempt (three
    times when the maximum is 3), sends no credential POST and raises
    the exhausted-attempts error.  With the solving service enabled it
    fails: against a service that is never ready and a recognizer that
    reads nothing, with manual entry disabled and a maximum of 3, every
    attempt falls back to the recognizer and posts the credentials with
    an empty code, so the run sends three credential POSTs before it
    raises the exhausted-attempts error. *)
Theorem attempts_bounded (cfg : Config) (st : state Image W) :
  let out := login_and_get_dashboard E cfg st in
  let limit := Z.to_nat (MAX_LOGIN_ATTEMPTS cfg) in
  (exists evs,
      trace (snd out) = trace st ++ evs
      /\ (count_site SiteLoginPage evs <= 2 * limit)%nat
      /\ (count_site SiteLoginPost evs <= limit)%nat
      /\ (count_site SiteDashboard evs <= limit)%nat)
  /\ (PyStr.truthy (USERNAME cfg) = true ->
      PyStr.truthy (PASSWORD cfg) = true ->
      (forall attempt st', fst (login_attempt E cfg attempt st') = Ok None) ->
      fst out = Raise exhausted)
  /\ (PyStr.truthy (USERNAME cfg) = true ->
      PyStr.truthy (PASSWORD cfg) = true ->
      USE_2CAPTCHA cfg = false ->
      CAPTCHA_MANUAL cfg = false ->
      page_always_loads E cfg ->
      captcha_always_loads E cfg ->
      recognizer_never_reads E ->
      fst out = Raise exhausted
      /\ exists evs,
          trace (snd out) = trace st ++ evs
          /\ count_site SiteLoginPage evs = limit
          /\ (MAX_LOGIN_ATTEMPTS cfg = 3 ->
              count_site SiteLoginPage evs = 3%nat)
          /\ count_site SiteLoginPost evs = 0%nat)
  /\ (let portal := Stub.stub_env never_ready in
      let remote := Stub.stub_config true false 3 "" in
      let run := login_and_get_dashboard portal remote Stub.start in
      (forall variant config w,
          image_to_string portal variant config w = (OcrText "", w))
      /\ USE_2CAPTCHA remote = true
      /\ CAPTCHA_MANUAL remote = false
      /\ MAX_LOGIN_ATTEMPTS remote = 3
      /\ fst run = Raise exhausted
      /\ count_site SiteLoginPage (trace (snd run)) = 3%nat
      /\ count_site SiteLoginPost (trace (snd run)) = 3%nat
      /\ Stub.posted_codes (trace (snd run))
         = [Some (JStr ""); Some (JStr ""); Some (JStr "")]).
Proof.
  cbv zeta. split; [|split; [|split]].
  - pose proof (emits_conj
                  (counts_login (counts_login_attempt_page E cfg))
                  (emits_conj
                     (counts_login (counts_login_attempt_post E cfg))
                     (counts_login (counts_login_attempt_dashboard E cfg))))
      as H.
    destruct (H st) as (evs & Htr & Hpage & Hpost & Hdash).
    exists evs. repeat split; try assumption; lia.
  - intros Hu Hp Hnone. unfold login_and_get_dashboard.
    rewrite Hu, Hp. cbn [negb orb]. apply login_loop_exhausted, Hnone.
  - intros Hu Hp Hlocal Hauto Hpage Hcaptcha Hocr.
    unfold login_and_get_dashboard. rewrite Hu, Hp. cbn [negb orb].
    pose proof (emits_conj
                  (login_loop_blind Hlocal Hauto Hpage Hcaptcha Hocr
                     (range 1 (MAX_LOGIN_ATTEMPTS cfg + 1)))
                  (@login_loop_local _ _ E cfg Hlocal Hauto
                     (range 1 (MAX_LOGIN_ATTEMPTS cfg + 1)))) as H.
    destruct (H st) as (evs & Htr & [Hres Hcount] & [Hok _]).
    split; [exact Hres|]. exists evs. split; [exact Htr|].
    rewrite range_length in Hcount.
    replace (MAX_LOGIN_ATTEMPTS cfg + 1 - 1) with (MAX_LOGIN_ATTEMPTS cfg)
      in Hcount by lia.
    split; [exact Hcount|]. split.
    + intros Hmax. rewrite Hcount, Hmax. reflexivity.
    + apply (sites_ok_count SiteLoginPost Hok). reflexivity.
  - split; [intros variant config w; reflexivity|].
    vm_compute. repeat split; reflexivity.
Qed.

End Bounds.

Lemma stub_page_always_loads (sc : Stub.scenario) (use_2captcha manual : bool)
  (attempts : Z) (meter : string) :
  page_always_loads (Stub.stub_env sc)
    (Stub.stub_config use_2captcha manual attempts meter).
Proof.
  intros w. do 3 eexists. split; [reflexivity|].
  split; [reflexivity|]. split; [reflexivity|].
  split; eexists; reflexivity.
Qed.

Lemma stub_captcha_always_loads (sc : Stub.scenario)
  (use_2captcha manual : bool) (attempts : Z) (meter : string) :
  captcha_always_loads (Stub.stub_env sc)
    (Stub.stub_config use_2captcha manual attempts meter).
Proof.
  intros url w. unfold Stub.stub_env, http_send, captcha_request, request_get,
    Stub.stub_http, req_url.
  repeat match goal with
         | |- context [if ?b then _ else _] => destruct b
         end;
    do 4 eexists; (split; [reflexivity|]); split; reflexivity.
Qed.

Lemma stub_recognizer_never_reads :
  recognizer_never_reads (Stub.stub_env Stub.blind).
Proof.
  intros variant config w. exists ""%string, w. split; reflexivity.
Qed.

Lemma attempts_bounded_witness :
  let out :=
    login_and_get_dashboard (Stub.stub_env Stub.blind)
      (Stub.stub_config false false 3 "") Stub.start in
  (fst out = Raise exhausted
   /\ exists evs,
       trace (snd out) = trace Stub.start ++ evs
       /\ count_site SiteLoginPage evs = 3%nat
       /\ count_site SiteLoginPost evs = 0%nat)
  /\ fst out = Raise exhausted.
Proof.
  destruct (attempts_bounded (Stub.stub_env Stub.blind)
              (Stub.stub_config false false 3 "") Stub.start)
    as (_ & Hloop & H & _).
  split.
  - destruct H as (Hres & evs & Htr & _ & Hthree & Hpost);
      [ reflexivity | reflexivity | reflexivity | reflexivity
      | apply stub_page_always_loads
      | apply stub_captcha_always_loads
      | apply stub_recognizer_never_reads
      | ].
    split; [exact Hres|]. exists evs.
    split; [exact Htr|]. split; [apply Hthree; reflexivity | exact Hpost].
  - apply Hloop; [reflexivity | reflexivity |].
    intros attempt st'.
    destruct (@login_attempt_blind _ _ (Stub.stub_env Stub.blind)
                (Stub.stub_config false false 3 "") eq_refl eq_refl
                (stub_page_always_loads _ _ _ _ _)
                (stub_captcha_always_loads _ _ _ _ _)
                stub_recognizer_never_reads attempt st')
      as (evs & _ & Hnone & _).
    exact Hnone.
Defined.

(** ** Dashboard verification *)

Section DashboardFacts.
Context {Image W : Type} (E : Env Image W).

Local Abbreviation Eff := (M Image W).

Lemma returns_bind_any {A B : Type} (m : Eff A) (k : A -> Eff B)
  (R : result B -> Prop) :
  (forall a, returns (k a) R) -> (forall e, R (Raise e)) ->
  returns (bind m k) R.
Proof.
  intros Hk He. eapply returns_bind with (R1 := fun _ => True); auto.
  intros st. exact I.
Qed.

Lemma returns_verify_dashboard (cfg : Config) (attempt : Z) :
  returns (verify_dashboard E cfg attempt) marked.
Proof.
  unfold verify_dashboard.
  apply returns_bind_any; [intros dash | intros; exact I].
  apply returns_bind_any; [intros _ | intros; exact I].
  apply returns_bind_any; [intros _ | intros; exact I].
  destruct (PyStr.contains "card_1" (text dash)) eqn:Hmark.
  - intros st. exact Hmark.
  - apply returns_bind_any; [intros _ st; exact I | intros; exact I].
Qed.

Lemma returns_finish_attempt (cfg : Config) (attempt : Z) (login_ok : bool) :
  returns (finish_attempt E cfg attempt login_ok) marked.
Proof.
  unfold finish_attempt.
  apply returns_bind_any; [intros [|] | intros; exact I].
  - intros st. exact I.
  - apply returns_verify_dashboard.
Qed.

Lemma returns_login_attempt (cfg : Config) (attempt : Z) :
  returns (login_attempt E cfg attempt) marked.
Proof.
  unfold login_attempt.
  apply returns_bind_any; [intros html | intros; exact I].
  apply returns_bind_any; [intros _ | intros; exact I].
  apply returns_bind_any;
    [intros [[action_url fields] captcha_url] | intros; exact I].
  apply returns_bind_any; [intros token | intros; exact I].
  apply returns_bind_any; [intros captcha_img | intros; exact I].
  apply returns_bind_any; [intros [captcha_code|] | intros; exact I].
  - unfold submit_and_verify.
    apply returns_bind_any; [intros resp | intros; exact I].
    apply returns_bind_any; [intros login_ok | intros; exact I].
    apply returns_finish_attempt.
  - intros st. exact I.
Qed.

Lemma returns_login (cfg : Config) :
  returns (login_and_get_dashboard E cfg)
    (fun r =>
       match r with
       | Ok html => PyStr.contains "card_1" html = true
       | Raise _ => True
       end).
Proof.
  unfold login_and_get_dashboard.
  destruct (negb (PyStr.truthy (USERNAME cfg))
            || negb (PyStr.truthy (PASSWORD cfg))); [intros st; exact I|].
  generalize (range 1 (MAX_LOGIN_ATTEMPTS cfg + 1)).
  induction l as [|attempt rest IH]; cbn [login_loop]; [intros st; exact I|].
  eapply returns_bind; [apply returns_login_attempt | | intros; exact I].
  intros [html|] Hmark; [intros st; exact Hmark | exact IH].
Qed.

(** Lines 347-353 do nothing when the response was not read as a
    success, or when no meter is configured. *)
Lemma finish_attempt_no_meter (cfg : Config) (attempt : Z) (login_ok : bool)
  (st : state Image W) :
  login_ok && PyStr.truthy (METER_NO cfg) = false ->
  finish_attempt E cfg attempt login_ok st = verify_dashboard E cfg attempt st.
Proof.
  intros H. unfold finish_attempt, meter_step. rewrite H. reflexivity.
Qed.

Lemma finish_attempt_meter_ok (cfg : Config) (attempt : Z)
  (st : state Image W) :
  PyStr.truthy (METER_NO cfg) = true ->
  fst (select_meter_no E cfg (METER_NO cfg) st) = Ok tt ->
  finish_attempt E cfg attempt true st
  = verify_dashboard E cfg attempt (snd (select_meter_no E cfg (METER_NO cfg) st)).
Proof.
  intros Hm Hsel. unfold finish_attempt, meter_step. rewrite Hm. cbn [andb].
  rewrite bind_run, bind_run, try_run. cbn [fst snd]. rewrite Hsel.
  reflexivity.
Qed.














End DashboardFacts.

(** ** Meter selection *)

Section MeterFacts.
Context {Image W : Type} (E : Env Image W).

Local Abbreviation Eff := (M Image W).

Lemma collect_meters_well_formed (items : list json) :
  forallb entry_well_formed items = true ->
  forall meter_list,
    collect_meters E items meter_list
    = Ok (meter_list
          ++ flat_map (fun item => match entry_meter E item with
                                   | Some no => [no]
                                   | None => []
                                   end) items).
Proof.
  induction items as [|item rest IH]; intros Hwf meter_list;
    cbn [collect_meters flat_map].
  - rewrite app_nil_r. reflexivity.
  - cbn [forallb] in Hwf. apply andb_true_iff in Hwf. destruct Hwf as [Hitem Hrest].
    unfold entry_well_formed in Hitem. unfold entry_meter.
    destruct item as [| | | | | |l|d];
      try (cbn [Py.truthy]; rewrite (IH Hrest); reflexivity).
    destruct (Py.get_default d "UserMeter_GroupbyMeter" JNull) as [| | | | | |l|g]
      eqn:Hg;
      try (apply negb_true_iff in Hitem; rewrite Hitem, (IH Hrest);
           reflexivity).
    destruct g as [|entry g'].
    + cbn [Py.truthy]. rewrite (IH Hrest). reflexivity.
    + cbn [Py.truthy py_get].
      destruct (Py.truthy (Py.get_default (entry :: g') "MeterNo" JNull)).
      * rewrite (IH Hrest), <- app_assoc. reflexivity.
      * rewrite (IH Hrest). reflexivity.
Qed.

Lemma existsb_meters (meter_no : string) (items : list json) :
  existsb (String.eqb meter_no)
    (flat_map (fun item => match entry_meter E item with
                           | Some no => [no]
                           | None => []
                           end) items)
  = existsb (has_meter E meter_no) items.
Proof.
  induction items as [|item rest IH]; cbn [flat_map existsb]; [reflexivity|].
  rewrite existsb_app, IH. unfold has_meter.
  destruct (entry_meter E item); cbn [existsb]; [rewrite orb_false_r|];
    reflexivity.
Qed.

(** The selection of a meter that the list lacks. *)
Lemma select_meter_no_absent (cfg : Config) (meter_no : string) :
  PyStr.truthy meter_no = true ->
  meter_absent E cfg meter_no ->
  forall st,
    exists reply,
      fst (select_meter_no E cfg meter_no st)
      = Raise (LoginError ("MeterNo " ++ meter_no
                           ++ " not found in account list"))
      /\ trace (snd (select_meter_no E cfg meter_no st))
         = trace st ++ [EvHttp SiteMeterList (meter_list_request cfg)
                          (HttpResponse reply)].
Proof.
  intros Htruthy Habsent st.
  destruct (Habsent (world st))
    as (resp & dt & w' & d & items & Hsend & Hstatus & Hjson & Hdata & Hwf
        & Hnone).
  exists resp. unfold select_meter_no. rewrite Htruthy. cbn [negb].
  rewrite bind_run.
  change (request_post (METER_LIST_URL cfg) [] (Some (JDict []))
            (meter_headers cfg) 20) with (meter_list_request cfg).
  rewrite (@send_eq _ _ E SiteMeterList _ st _ _ _ Hsend). cbn [fst snd].
  replace (status_code resp >=? 400) with false
    by (symmetry; rewrite Z.geb_leb; apply Z.leb_gt; lia).
  rewrite Hjson, bind_run. cbn [ret fst snd].
  rewrite bind_run. cbn [lift py_get fst snd]. rewrite Hdata.
  rewrite bind_run. cbn [lift fst snd].
  rewrite (collect_meters_well_formed items Hwf). cbn [app].
  rewrite existsb_meters, Hnone. cbn [negb raise fst snd trace].
  split; reflexivity.
Qed.

(** Lines 347-353 when the list lacks the meter: the attempt ends after
    a sleep of one second. *)
Lemma finish_attempt_absent (cfg : Config) (attempt : Z) :
  PyStr.truthy (METER_NO cfg) = true ->
  meter_absent E cfg (METER_NO cfg) ->
  emits (finish_attempt E cfg attempt true)
    (fun r evs =>
       r = Ok None
       /\ exists reply,
           evs = [EvHttp SiteMeterList (meter_list_request cfg)
                    (HttpResponse reply);
                  EvSleep 1]).
Proof.
  intros Hm Habsent st.
  destruct (select_meter_no_absent Hm Habsent st) as (reply & Hsel & Htr).
  unfold finish_attempt, meter_step. rewrite Hm. cbn [andb].
  rewrite bind_run, bind_run, try_run. cbn [fst snd]. rewrite Hsel.
  rewrite bind_run. cbn [time_sleep ret fst snd trace].
  exists [EvHttp SiteMeterList (meter_list_request cfg) (HttpResponse reply);
          EvSleep 1].
  split; [rewrite Htr, <- app_assoc; reflexivity|].
  split; [reflexivity | eauto].
Qed.

Lemma finish_attempt_retried (cfg : Config) (attempt : Z) (login_ok : bool) :
  meter_absent E cfg (METER_NO cfg) ->
  emits (finish_attempt E cfg attempt login_ok) (retried cfg).
Proof.
  intros Habsent.
  destruct (login_ok && PyStr.truthy (METER_NO cfg)) eqn:Hstep.
  - apply andb_true_iff in Hstep. destruct Hstep as [-> Hm].
    eapply emits_weaken; [apply (finish_attempt_absent attempt Hm Habsent)|].
    intros r evs (-> & reply & ->). right. split; [reflexivity|].
    exists [], reply. split; [reflexivity | constructor].
  - intros st. rewrite (finish_attempt_no_meter E cfg attempt login_ok st Hstep).
    destruct (@only_verify_dashboard _ _ E (all_but SiteMeterList) cfg attempt
                eq_refl eq_refl st) as (evs & Htr & Hok).
    exists evs. split; [exact Htr|]. left.
    apply (sites_ok_count SiteMeterList Hok). reflexivity.
Qed.

(** A step before the meter selection. *)
Lemma retried_pass {A : Type} (m : Eff A) (k : A -> Eff (option string))
  (cfg : Config) :
  only pre_meter_sites m ->
  (forall a, emits (k a) (retried cfg)) ->
  emits (bind m k) (retried cfg).
Proof.
  intros Hm Hk. eapply emits_bind; [exact Hm | |].
  - intros a evs1 Hok. eapply emits_weaken; [apply Hk|].
    intros r evs2 [Hzero|(Hr & before & reply & -> & Hbefore)].
    + left. rewrite count_site_app, Hzero,
        (sites_ok_count SiteMeterList Hok eq_refl). reflexivity.
    + right. split; [exact Hr|]. exists (evs1 ++ before), reply.
      split; [rewrite app_assoc; reflexivity|].
      apply sites_ok_app; assumption.
  - intros e evs1 Hok. left.
    apply (sites_ok_count SiteMeterList Hok). reflexivity.
Qed.

Lemma login_attempt_retried (cfg : Config) (attempt : Z) :
  meter_absent E cfg (METER_NO cfg) ->
  emits (login_attempt E cfg attempt) (retried cfg).
Proof.
  intros Habsent. unfold login_attempt.
  apply retried_pass; [only_all | intros html].
  apply retried_pass; [only_all | intros _].
  apply retried_pass;
    [only_all | intros [[action_url fields] captcha_url]].
  apply retried_pass; [only_all | intros token].
  apply retried_pass; [only_all | intros captcha_img].
  apply retried_pass; [only_all | intros [captcha_code|]].
  - unfold submit_and_verify.
    apply retried_pass; [only_all | intros resp].
    apply retried_pass; [only_all | intros login_ok].
    apply finish_attempt_retried, Habsent.
  - apply emits_ret. left. reflexivity.
Qed.

(** C9.  When the meter list arrives as a JSON object whose [data]
    entries follow the documented structure, [select_meter_no] compares
    the configured identifier with the [MeterNo] of each entry, turned
    into a string.  If one matches, it sends a POST and then a GET to
    the meter-switch endpoint and returns (unless the transport fails on
    one of the two).  If none matches, it sends nothing more and raises
    the meter-not-found [LoginError].  The attempt loop retries: against
    a portal whose list lacks the configured meter, an attempt that
    asks for the meter list ends right after the answer, following a
    sleep of one second, without a meter-switch request and without a
    dashboard request, and the loop goes on with the next attempt. *)
Theorem meter_selection (cfg : Config) (meter_no : string)
  (st : state Image W) (resp : response) (dt : N) (w1 : W)
  (d : list (string * json)) (items : list json) :
  PyStr.truthy meter_no = true ->
  http_send E (meter_list_request cfg) (world st) = (HttpResponse resp, dt, w1) ->
  status_code resp < 400 ->
  json_body resp = Some (JDict d) ->
  Py.get_default d "data" JNull = JList items ->
  forallb entry_well_formed items = true ->
  let out := select_meter_no E cfg meter_no st in
  let listed :=
    EvHttp SiteMeterList (meter_list_request cfg) (HttpResponse resp) in
  let post := meter_switch_post cfg meter_no in
  let get := meter_switch_get cfg meter_no in
  (if existsb (has_meter E meter_no) items then
     exists o1,
       match o1 with
       | HttpFailure info =>
           trace (snd out)
           = trace st ++ [listed; EvHttp SiteMeterSwitchPost post o1]
           /\ fst out = Raise (RequestException info)
       | HttpResponse _ =>
           exists o2,
             trace (snd out)
             = trace st ++ [listed; EvHttp SiteMeterSwitchPost post o1;
                            EvHttp SiteMeterSwitchGet get o2]
             /\ fst out = match o2 with
                          | HttpResponse _ => Ok tt
                          | HttpFailure info => Raise (RequestException info)
                          end
       end
   else
     trace (snd out) = trace st ++ [listed]
     /\ fst out = Raise (LoginError ("MeterNo " ++ meter_no
                                     ++ " not found in account list")))
  /\ (req_method post = POST /\ req_method get = GET
      /\ req_url post = UID_METER_URL cfg /\ req_url get = UID_METER_URL cfg)
  /\ (meter_absent E cfg (METER_NO cfg) ->
      forall attempt st',
        let tried := login_attempt E cfg attempt st' in
        exists evs,
          trace (snd tried) = trace st' ++ evs
          /\ (count_site SiteMeterList evs = 0%nat
              \/ (fst tried = Ok None
                  /\ (exists before reply,
                         evs = before
                               ++ [EvHttp SiteMeterList (meter_list_request cfg)
                                     (HttpResponse reply);
                                   EvSleep 1]
                         /\ count_site SiteMeterList before = 0%nat)
                  /\ count_site SiteMeterSwitchPost evs = 0%nat
                  /\ count_site SiteMeterSwitchGet evs = 0%nat
                  /\ count_site SiteDashboard evs = 0%nat
                  /\ forall rest,
                      login_loop E cfg (attempt :: rest) st'
                      = login_loop E cfg rest (snd tried)))).
Proof.
  intros Htruthy Hsend Hstatus Hjson Hdata Hwf. cbv zeta.
  split; [|split].
  - unfold select_meter_no. rewrite Htruthy. cbn [negb].
    rewrite bind_run.
    change (request_post (METER_LIST_URL cfg) [] (Some (JDict []))
              (meter_headers cfg) 20) with (meter_list_request cfg).
    rewrite (@send_eq _ _ E SiteMeterList _ st _ _ _ Hsend). cbn [fst snd].
    replace (status_code resp >=? 400) with false
      by (symmetry; rewrite Z.geb_leb; apply Z.leb_gt; lia).
    rewrite Hjson, bind_run. cbn [ret fst snd].
    rewrite bind_run. cbn [lift py_get fst snd]. rewrite Hdata.
    rewrite bind_run. cbn [lift fst snd].
    rewrite (collect_meters_well_formed items Hwf). cbn [app].
    rewrite existsb_meters.
    destruct (existsb (has_meter E meter_no) items); cbn [negb].
    + rewrite bind_run.
      change (request_post (UID_METER_URL cfg) [("MeterNo", JStr meter_no)]
                None [("Referer", UID_METER_URL cfg)] 20)
        with (meter_switch_post cfg meter_no).
      change (request_get (UID_METER_URL cfg) [("MeterNo", JStr meter_no)]
                [("Referer", UID_METER_URL cfg)] 20)
        with (meter_switch_get cfg meter_no).
      match goal with
      | |- context [send E SiteMeterSwitchPost ?rq ?s] =>
          destruct (send_run E SiteMeterSwitchPost rq s)
            as (o1 & dt1 & Htr1 & _ & Hres1);
          set (st1 := send E SiteMeterSwitchPost rq s) in *
      end.
      exists o1. rewrite Hres1. destruct o1 as [resp1|info1].
      * rewrite bind_run.
        destruct (send_run E SiteMeterSwitchGet
                    (meter_switch_get cfg meter_no) (snd st1))
          as (o2 & dt2 & Htr2 & _ & Hres2).
        exists o2. rewrite Hres2. split.
        -- destruct o2; cbn [ret fst snd]; rewrite Htr2, Htr1;
             cbn [trace]; rewrite <- !app_assoc; reflexivity.
        -- destruct o2; reflexivity.
      * cbn [fst snd]. split; [|reflexivity].
        rewrite Htr1. cbn [trace]. rewrite <- app_assoc. reflexivity.
    + cbn [raise fst snd trace]. split; reflexivity.
  - repeat split.
  - intros Habsent attempt st'.
    destruct (login_attempt_retried attempt Habsent st')
      as (evs & Htr & Hretried).
    exists evs. split; [exact Htr|].
    destruct Hretried as [Hzero|(Hres & before & reply & -> & Hbefore)];
      [left; exact Hzero|].
    right. split; [exact Hres|].
    split; [exists before, reply; split; [reflexivity|];
            apply (sites_ok_count SiteMeterList Hbefore); reflexivity|].
    rewrite !count_site_app.
    rewrite (sites_ok_count SiteMeterSwitchPost Hbefore eq_refl),
      (sites_ok_count SiteMeterSwitchGet Hbefore eq_refl),
      (sites_ok_count SiteDashboard Hbefore eq_refl).
    split; [reflexivity|]. split; [reflexivity|]. split; [reflexivity|].
    intros rest. cbn [login_loop]. rewrite bind_run, Hres. reflexivity.
Qed.

End MeterFacts.

(** ** Runs against the scripted portal *)

Lemma remote_solver_protocol_witness :
  let portal := Stub.stub_env Stub.happy in
  read_upload portal
    (Stub.json_reply (JDict [("status", JInt 1); ("request", JStr "7301")]))
  = Ok (JStr "7301")
  /\ read_upload portal
       (Stub.json_reply
          (JDict [("status", JInt 0); ("request", JStr "ERROR_ZERO_BALANCE")]))
     = Raise (LoginError "2Captcha upload failed: <repr>")
  /\ read_poll portal
       (Stub.json_reply
          (JDict [("status", JInt 0); ("request", JStr "CAPCHA_NOT_READY")]))
     = Ok None
  /\ read_poll portal
       (Stub.json_reply (JDict [("status", JInt 1); ("request", JStr "A-b12")]))
     = Ok (Some "Ab12"%string)
  /\ read_poll portal
       (Stub.json_reply (JDict [("status", JInt 1); ("request", JStr "abc")]))
     = Ok (Some ""%string).
Proof.
  destruct (remote_solver_protocol (Stub.stub_env Stub.happy)
              (Stub.stub_config true false 6 "") ["raw"%string] Stub.start)
    as (_ & _ & Hupload & _ & Hread & _).
  cbv zeta.
  split;
    [exact (Hupload
              (Stub.json_reply
                 (JDict [("status", JInt 1); ("request", JStr "7301")]))
              [("status", JInt 1); ("request", JStr "7301")]
              eq_refl eq_refl)|].
  split;
    [exact (Hupload
              (Stub.json_reply
                 (JDict [("status", JInt 0);
                         ("request", JStr "ERROR_ZERO_BALANCE")]))
              [("status", JInt 0); ("request", JStr "ERROR_ZERO_BALANCE")]
              eq_refl eq_refl)|].
  repeat split; (rewrite (Hread _ _ eq_refl eq_refl); reflexivity).
Defined.

(** The adapter against the scripted portal: the body of the upload is
    the base64 text of the four bytes of the image, the service hands
    out the job id [7301], and the three polls ask for that id; the
    third brings the answer. *)
Lemma solver_run_example :
  let portal := Stub.stub_env Stub.happy in
  let cfg := Stub.stub_config true false 6 "" in
  let out := solve_captcha_2captcha portal cfg ["raw"%string] 120 Stub.start in
  let not_ready :=
    HttpResponse
      (Stub.json_reply
         (JDict [("status", JInt 0); ("request", JStr "CAPCHA_NOT_READY")])) in
  let ready :=
    HttpResponse
      (Stub.json_reply
         (JDict [("status", JInt 1); ("request", JStr "Ab12")])) in
  Py.lookup (req_data (upload_request portal cfg ["raw"%string])) "body"
  = Some (JStr "iVBORw==")
  /\ fst out = Ok "Ab12"%string
  /\ trace (snd out)
     = EvHttp SiteSolverUpload (upload_request portal cfg ["raw"%string])
         (HttpResponse
            (Stub.json_reply
               (JDict [("status", JInt 1); ("request", JStr "7301")])))
       :: poll_events (poll_request cfg (JStr "7301"))
            [not_ready; not_ready; ready].
Proof. vm_compute. repeat split; reflexivity. Qed.


Lemma stub_meter_absent :
  meter_absent (Stub.stub_env Stub.happy)
    (Stub.stub_config true false 6 "9999") "9999".
Proof.
  intros w. do 5 eexists. split; [reflexivity|].
  split; [reflexivity|]. split; [reflexivity|]. split; [reflexivity|].
  split; reflexivity.
Qed.

Lemma meter_selection_witness :
  let portal := Stub.stub_env Stub.happy in
  let cfg := Stub.stub_config true false 6 "4567" in
  let absent := Stub.stub_config true false 6 "9999" in
  let out := select_meter_no portal cfg "4567" Stub.start in
  let tried := login_attempt portal absent 1 Stub.start in
  (fst out = Ok tt \/ exists info, fst out = Raise (RequestException info))
  /\ fst (select_meter_no portal absent "9999" Stub.start)
     = Raise (LoginError "MeterNo 9999 not found in account list")
  /\ fst tried = Ok None
  /\ count_site SiteDashboard (trace (snd tried)) = 0%nat
  /\ login_loop portal absent [1; 2] Stub.start
     = login_loop portal absent [2] (snd tried).
Proof.
  pose proof
    (@meter_selection _ _ (Stub.stub_env Stub.happy)
       (Stub.stub_config true false 6 "4567") "4567" Stub.start
       (Stub.json_reply (JDict [("data", JList (Stub.sc_meters Stub.happy))]))
       0%N O [("data", JList (Stub.sc_meters Stub.happy))]
       (Stub.sc_meters Stub.happy)
       eq_refl eq_refl eq_refl eq_refl eq_refl eq_refl) as H.
  pose proof
    (@meter_selection _ _ (Stub.stub_env Stub.happy)
       (Stub.stub_config true false 6 "9999") "9999" Stub.start
       (Stub.json_reply (JDict [("data", JList (Stub.sc_meters Stub.happy))]))
       0%N O [("data", JList (Stub.sc_meters Stub.happy))]
       (Stub.sc_meters Stub.happy)
       eq_refl eq_refl eq_refl eq_refl eq_refl eq_refl) as Habsent.
  cbv zeta in *.
  destruct H as (H & _). destruct Habsent as (Hraise & _ & Habsent).
  destruct (Habsent stub_meter_absent 1 Stub.start)
    as (evs & Htr & [Hzero|(Hres & _ & _ & _ & Hdash & Hloop)]).
  - exfalso. change (trace Stub.start ++ evs) with evs in Htr.
    rewrite <- Htr in Hzero. vm_compute in Hzero. discriminate Hzero.
  - split; [|split; [|split; [|split]]].
    + assert (Hfound : existsb (has_meter (Stub.stub_env Stub.happy) "4567")
                         (Stub.sc_meters Stub.happy) = true) by reflexivity.
      rewrite Hfound in H.
      destruct H as [[resp1|info1] H].
      * destruct H as [[resp2|info2] [_ Hok]]; rewrite Hok; eauto.
      * destruct H as [_ Hok]. rewrite Hok. eauto.
    + assert (Hnone : existsb (has_meter (Stub.stub_env Stub.happy) "9999")
                        (Stub.sc_meters Stub.happy) = false) by reflexivity.
      rewrite Hnone in Hraise. exact (proj2 Hraise).
    + exact Hres.
    + rewrite Htr. exact Hdash.
    + apply Hloop.
Defined.

(** C1, at the end-to-end scenario of the specification in the default
    configuration (local recognition, no manual entry): the login page
    carries the form and the token, every recognition reads [Ab12], the
    server accepts the credentials with status [true] and no redirect,
    the dashboard carries the marker.  The run never submits the code:
    it makes six attempts, sends no credential POST and raises the
    exhausted-attempts error.  With the remote solver enabled the same
    portal is logged into on the first attempt. *)
Theorem recognized_code_not_submitted :
  let portal := Stub.stub_env Stub.happy in
  let out :=
    login_and_get_dashboard portal (Stub.stub_config false false 6 "")
      Stub.start in
  let remote :=
    login_and_get_dashboard portal (Stub.stub_config true false 6 "")
      Stub.start in
  fst (ocr_captcha portal ["raw"%string] Stub.start) = Ok "Ab12"%string
  /\ fst out = Raise exhausted
  /\ count_site SiteLoginPage (trace (snd out)) = 6%nat
  /\ Stub.posted_codes (trace (snd out)) = []
  /\ fst remote = Ok "<div id='card_1'>kW</div>"%string
  /\ count_site SiteLoginPage (trace (snd remote)) = 1%nat
  /\ Stub.posted_codes (trace (snd remote)) = [Some (JStr "Ab12")].
Proof. vm_compute. repeat split; reflexivity. Qed.

(** C2, with the remote solver enabled and manual entry disabled: the
    solving service answers with a three-character text, the adapter
    returns the empty string, and the attempt still sends the
    credential POST, with an empty captcha code. *)
Theorem unsolved_captcha_is_submitted :
  let portal := Stub.stub_env Stub.blind in
  let cfg := Stub.stub_config true false 3 "" in
  let out := login_and_get_dashboard portal cfg Stub.start in
  fst (solve_captcha_2captcha portal cfg ["raw"%string] 120 Stub.start)
  = Ok ""%string
  /\ fst (solve_step portal cfg ["raw"%string] Stub.start) = Ok (Some ""%string)
  /\ Stub.posted_codes (trace (snd out)) = [Some (JStr "")]
  /\ count_site SiteLoginPost (trace (snd out)) = 1%nat.
Proof. vm_compute. repeat split; reflexivity. Qed.

(* ================================================================== *)
(** * Further properties *)

(** ** Normalisation, continued *)

Lemma filter_string_idempotent (p : ascii -> bool) (s : string) :
  filter_string p (filter_string p s) = filter_string p s.
Proof.
  induction s as [|c rest IH]; cbn [filter_string]; [reflexivity|].
  destruct (p c) eqn:Hc; [cbn [filter_string]; rewrite Hc, IH|]; auto.
Qed.

Lemma filter_string_length (p : ascii -> bool) (s : string) :
  (String.length (filter_string p s) <= String.length s)%nat.
Proof.
  induction s as [|c rest IH]; cbn [filter_string String.length]; [lia|].
  destruct (p c); cbn [String.length]; lia.
Qed.

Lemma filter_string_fixed (p : ascii -> bool) (s : string) :
  filter_string p s = s <-> forall_string p s = true.
Proof.
  induction s as [|c rest IH]; cbn [filter_string forall_string];
    [tauto|].
  destruct (p c) eqn:Hc; cbn [andb].
  - rewrite <- IH. split; [intros [= H]; exact H | intros ->; reflexivity].
  - split; [|discriminate].
    intros H. pose proof (filter_string_length p rest) as Hlen.
    rewrite H in Hlen. cbn [String.length] in Hlen. lia.
Qed.

(** X1.  [_clean_text] is idempotent, distributes over concatenation,
    never lengthens its input, and leaves a text unchanged exactly when
    the text is made of characters of [[0-9A-Za-z]] only. *)
Theorem clean_text_algebra (a b : string) :
  _clean_text (_clean_text a) = _clean_text a
  /\ _clean_text (a ++ b) = (_clean_text a ++ _clean_text b)%string
  /\ (String.length (_clean_text a) <= String.length a)%nat
  /\ (_clean_text a = a <-> forall_string is_alnum a = true).
Proof.
  rewrite !clean_text_filter.
  split; [apply filter_string_idempotent|].
  split; [apply filter_string_app|].
  split; [apply filter_string_length | apply filter_string_fixed].
Qed.

Lemma clean_text_algebra_witness :
  _clean_text "Ab12" = "Ab12"%string /\ _clean_text "A b" <> "A b"%string.
Proof.
  split.
  - apply (proj2 (proj2 (proj2 (proj2 (clean_text_algebra "Ab12" ""))))).
    reflexivity.
  - intros H.
    apply (proj1 (proj2 (proj2 (proj2 (clean_text_algebra "A b" ""))))) in H.
    discriminate H.
Defined.

(** ** Loading and parsing the login page *)

Section PageFacts.
Context {Image W : Type} (E : Env Image W).

Local Abbreviation Eff := (M Image W).

(** Lines 94-97: the body of the [try] for one URL. *)
Lemma page_try_run (url : string) (st : state Image W) :
  let body :=
    (resp <- send E SiteLoginPage (request_get url [] [] 20) ;;
     lift (raise_for_status resp) ;;;
     ret resp)%py in
  exists o,
    trace (snd (body st))
    = trace st ++ [EvHttp SiteLoginPage (request_get url [] [] 20) o]
    /\ fst (body st)
       = match o with
         | HttpFailure info => Raise (RequestException info)
         | HttpResponse resp =>
             match page_error o with
             | Some e => Raise e
             | None => Ok resp
             end
         end.
Proof.
  cbv zeta. rewrite bind_run.
  destruct (send_run E SiteLoginPage (request_get url [] [] 20) st)
    as (o & dt & Htr & _ & Hres).
  exists o. rewrite Hres. destruct o as [resp|info]; [|auto].
  rewrite bind_run. cbn [lift fst snd page_error]. unfold raise_for_status.
  destruct ((400 <=? status_code resp) && (status_code resp <? 600));
    cbn [ret fst snd]; auto.
Qed.

Lemma get_login_page_loop_cons (url : string) (rest : list string)
  (last_err : option exn) :
  get_login_page_loop E (url :: rest) last_err
  = (r <- try_ (resp <- send E SiteLoginPage (request_get url [] [] 20) ;;
                lift (raise_for_status resp) ;;;
                ret resp) ;;
     match r with
     | Ok resp =>
         if PyStr.contains "__RequestVerificationToken" (text resp)
         then ret (text resp)
         else get_login_page_loop E rest last_err
     | Raise (RequestException info) =>
         get_login_page_loop E rest (Some (RequestException info))
     | Raise e => raise e
     end)%py.
Proof. reflexivity. Qed.

(** X2.  [get_login_page] asks for the configured URL first.  If that
    delivers a page with the anti-forgery marker, the page is returned
    and nothing else is requested.  Otherwise the second, fixed URL is
    asked: a marked page from it is returned, whatever went wrong with
    the first URL; if it delivers none, the function raises the error
    of the second URL, else the error of the first, else
    [LoginError "Unable to load login page"] when both answered without
    error and without marker. *)
Theorem get_login_page_fallback (cfg : Config) (st : state Image W) :
  let out := get_login_page E cfg st in
  let first := request_get (LOGIN_PAGE_URL cfg) [] [] 20 in
  let second := request_get SECONDARY_LOGIN_URL [] [] 20 in
  exists o1,
    match page_delivered o1 with
    | Some html =>
        trace (snd out) = trace st ++ [EvHttp SiteLoginPage first o1]
        /\ fst out = Ok html
    | None =>
        exists o2,
          trace (snd out)
          = trace st ++ [EvHttp SiteLoginPage first o1;
                         EvHttp SiteLoginPage second o2]
          /\ fst out
             = match page_delivered o2 with
               | Some html => Ok html
               | None =>
                   Raise (match page_error o2, page_error o1 with
                          | Some e, _ => e
                          | None, Some e => e
                          | None, None =>
                              LoginError "Unable to load login page"
                          end)
               end
    end.
Proof.
  cbv zeta. unfold get_login_page, SECONDARY_LOGIN_URL.
  rewrite get_login_page_loop_cons.
  rewrite bind_run, try_run. cbn [fst snd].
  destruct (page_try_run (LOGIN_PAGE_URL cfg) st) as (o1 & Htr1 & Hres1).
  cbv zeta in Htr1, Hres1. exists o1. rewrite Hres1.
  set (st1 := snd ((resp <- send E SiteLoginPage
                              (request_get (LOGIN_PAGE_URL cfg) [] [] 20) ;;
                    lift (raise_for_status resp) ;;; ret resp)%py st)) in *.
  assert (Hsecond : forall last_err,
    exists o2,
      trace (snd (get_login_page_loop E
                    ["https://service.taipower.com.tw/hvcs/SignOn/Module/Login"%string]
                    last_err st1))
      = trace st1
        ++ [EvHttp SiteLoginPage
              (request_get
                 "https://service.taipower.com.tw/hvcs/SignOn/Module/Login"
                 [] [] 20) o2]
      /\ fst (get_login_page_loop E
                ["https://service.taipower.com.tw/hvcs/SignOn/Module/Login"%string]
                last_err st1)
         = match page_delivered o2 with
           | Some html => Ok html
           | None =>
               Raise (match page_error o2, last_err with
                      | Some e, _ => e
                      | None, Some e => e
                      | None, None => LoginError "Unable to load login page"
                      end)
           end).
  { intros last_err. rewrite get_login_page_loop_cons.
    cbn [get_login_page_loop].
    rewrite bind_run, try_run. cbn [fst snd].
    destruct (page_try_run
                "https://service.taipower.com.tw/hvcs/SignOn/Module/Login" st1)
      as (o2 & Htr2 & Hres2).
    cbv zeta in Htr2, Hres2. exists o2. rewrite Hres2.
    destruct o2 as [resp2|info2]; cbn [page_delivered page_error].
    - destruct ((400 <=? status_code resp2) && (status_code resp2 <? 600)).
      + cbn [raise fst snd]. auto.
      + destruct (PyStr.contains "__RequestVerificationToken" (text resp2)).
        * cbn [ret fst snd]. auto.
        * destruct last_err; cbn [raise fst snd]; auto.
    - cbn [raise fst snd]. auto. }
  destruct o1 as [resp1|info1]; cbn [page_delivered page_error].
  - destruct ((400 <=? status_code resp1) && (status_code resp1 <? 600)).
    + destruct (Hsecond (Some (RequestException
                                 ("HTTPError " ++ PyStr.of_Z (status_code resp1)))))
        as (o2 & Htr2 & Hres2).
      exists o2. rewrite Hres2. split; [|reflexivity].
      rewrite Htr2, Htr1, <- app_assoc. reflexivity.
    + destruct (PyStr.contains "__RequestVerificationToken" (text resp1)).
      * cbn [ret fst snd]. auto.
      * destruct (Hsecond None) as (o2 & Htr2 & Hres2).
        exists o2. rewrite Hres2. split; [|reflexivity].
        rewrite Htr2, Htr1, <- app_assoc. reflexivity.
  - destruct (Hsecond (Some (RequestException info1)))
      as (o2 & Htr2 & Hres2).
    exists o2. rewrite Hres2. split; [|reflexivity].
    rewrite Htr2, Htr1, <- app_assoc. reflexivity.
Qed.

End PageFacts.

(** *** Dictionaries *)

Lemma lookup_dict_set {V : Type} (d : list (string * V)) (k k' : string)
  (v : V) :
  Py.lookup (Py.dict_set d k v) k'
  = if String.eqb k k' then Some v else Py.lookup d k'.
Proof.
  induction d as [|[k0 v0] rest IH]; cbn [Py.dict_set Py.lookup].
  - reflexivity.
  - destruct (String.eqb_spec k0 k) as [->|Hne]; cbn [Py.lookup].
    + destruct (String.eqb k k'); reflexivity.
    + rewrite IH. destruct (String.eqb_spec k0 k') as [->|Hne'];
        [|reflexivity].
      destruct (String.eqb_spec k k'); [congruence | reflexivity].
Qed.

Lemma dict_set_keys {V : Type} (d : list (string * V)) (k : string) (v : V)
  (x : string) :
  In x (map fst (Py.dict_set d k v)) <-> x = k \/ In x (map fst d).
Proof.
  induction d as [|[k0 v0] rest IH]; cbn [Py.dict_set map fst In].
  - intuition congruence.
  - destruct (String.eqb_spec k0 k) as [->|Hne]; cbn [map fst In].
    + intuition congruence.
    + rewrite IH. intuition congruence.
Qed.

Lemma dict_set_nodup {V : Type} (d : list (string * V)) (k : string) (v : V) :
  NoDup (map fst d) -> NoDup (map fst (Py.dict_set d k v)).
Proof.
  induction d as [|[k0 v0] rest IH]; cbn [Py.dict_set map fst]; intros Hnd.
  - repeat constructor. intros [].
  - inversion Hnd as [|? ? Hnotin Hrest]; subst.
    destruct (String.eqb_spec k0 k) as [->|Hne]; cbn [map fst].
    + constructor; assumption.
    + constructor; [|apply IH, Hrest].
      rewrite dict_set_keys. intuition congruence.
Qed.

Lemma lookup_none_iff {V : Type} (d : list (string * V)) (k : string) :
  Py.lookup d k = None <-> ~ In k (map fst d).
Proof.
  induction d as [|[k0 v0] rest IH]; cbn [Py.lookup map fst In]; [tauto|].
  destruct (String.eqb_spec k0 k) as [->|Hne].
  - split; [discriminate | intros H; destruct H; auto].
  - rewrite IH. intuition congruence.
Qed.

Lemma truthy_nonempty (s : string) : PyStr.truthy s = true <-> s <> ""%string.
Proof. destruct s; cbn; split; congruence. Qed.

Lemma collect_fields_spec (inputs : list (option string * option string)) :
  forall fields,
    NoDup (map fst fields) -> ~ In ""%string (map fst fields) ->
    NoDup (map fst (collect_fields inputs fields))
    /\ ~ In ""%string (map fst (collect_fields inputs fields))
    /\ forall name,
        Py.lookup (collect_fields inputs fields) name
        = if PyStr.truthy name
          then last_input_value inputs name (Py.lookup fields name)
          else Py.lookup fields name.
Proof.
  induction inputs as [|[n v] rest IH]; intros fields Hnd Hne;
    cbn [collect_fields last_input_value].
  - split; [exact Hnd|]. split; [exact Hne|].
    intros name. destruct (PyStr.truthy name); reflexivity.
  - destruct n as [n|].
    + destruct (PyStr.truthy n) eqn:Hn; cbn [negb].
      * destruct (IH (Py.dict_set fields n
                        (match v with Some v0 => v0 | None => ""%string end)))
          as (H1 & H2 & H3).
        -- apply dict_set_nodup, Hnd.
        -- rewrite dict_set_keys. intros [Heq|Hin]; [|auto].
           subst n. discriminate Hn.
        -- split; [exact H1|]. split; [exact H2|].
           intros name. rewrite H3, lookup_dict_set.
           destruct (PyStr.truthy name) eqn:Hname; [reflexivity|].
           destruct (String.eqb_spec n name) as [->|]; [congruence|].
           reflexivity.
      * destruct (IH fields Hnd Hne) as (H1 & H2 & H3).
        split; [exact H1|]. split; [exact H2|].
        intros name. rewrite H3.
        destruct (PyStr.truthy name) eqn:Hname; [|reflexivity].
        destruct (String.eqb_spec n name) as [->|]; [congruence|].
        reflexivity.
    + apply IH; assumption.
Qed.

Section FormFacts.
Context {Image W : Type} (E : Env Image W).

(** X3.  [parse_login_form] raises [LoginError] in two cases, before
    it resolves any URL: when the page has no form with id [loginForm],
    and when that form's [action] is missing or blank.  With a form and
    an action it raises no [LoginError] (in the program, joining a
    malformed URL is what can still raise, a [ValueError]); when it
    returns, the action URL is the form's action, stripped, resolved
    against the login URL, the captcha path it resolves is never empty
    (a missing or blank captcha [src] is replaced by the default path),
    and the fields it returns form a dictionary: names are unique and
    never empty, inputs without a name are left out, and each name is
    given the value of the last input that carries it. *)
Theorem parse_login_form_result (cfg : Config) (html : string) :
  match find_login_form E html with
  | None =>
      parse_login_form E cfg html = Raise (LoginError "Login form not found")
  | Some form =>
      let action :=
        PyStr.strip
          match form_action form with Some a => a | None => ""%string end in
      if PyStr.truthy action then
        match parse_login_form E cfg html with
        | Ok (action_url, fields, captcha_url) =>
            action <> ""%string
            /\ action_url = urljoin E (LOGIN_PAGE_URL cfg) action
            /\ (exists src,
                   src <> ""%string
                   /\ captcha_url = urljoin E (LOGIN_PAGE_URL cfg) src
                   /\ (src = "/hvcs/Other/Module/Chptcha"%string
                       \/ exists a, select_captcha_image E html = Some (Some a)
                                    /\ src = PyStr.strip a))
            /\ NoDup (map fst fields)
            /\ ~ In ""%string (map fst fields)
            /\ forall name,
                Py.lookup fields name
                = if PyStr.truthy name
                  then last_input_value (form_inputs form) name None
                  else None
        | Raise e => forall msg, e <> LoginError msg
        end
      else
        parse_login_form E cfg html
        = Raise (LoginError "Login form action not found")
  end.
Proof.
  unfold parse_login_form.
  destruct (find_login_form E html) as [form|]; [|reflexivity].
  cbv zeta.
  set (action := PyStr.strip
                   match form_action form with
                   | Some a => a
                   | None => ""%string
                   end).
  destruct (PyStr.truthy action) eqn:Haction; cbn [negb]; [|reflexivity].
  destruct (collect_fields_spec (form_inputs form) [])
    as (Hnd & Hne & Hlook); [constructor | intros [] |].
  split; [apply truthy_nonempty, Haction|]. split; [reflexivity|].
  split; [|split; [exact Hnd | split; [exact Hne | exact Hlook]]].
  destruct (select_captcha_image E html) as [[a|]|] eqn:Hsel.
  - destruct (PyStr.truthy (PyStr.strip a)) eqn:Hsrc; cbn [negb].
    + exists (PyStr.strip a).
      split; [apply truthy_nonempty, Hsrc|]. split; [reflexivity|].
      right. eauto.
    + exists "/hvcs/Other/Module/Chptcha"%string.
      split; [discriminate|]. split; [reflexivity|]. left. reflexivity.
  - cbn. exists "/hvcs/Other/Module/Chptcha"%string.
    split; [discriminate|]. split; [reflexivity|]. left. reflexivity.
  - cbn. exists "/hvcs/Other/Module/Chptcha"%string.
    split; [discriminate|]. split; [reflexivity|]. left. reflexivity.
Qed.

End FormFacts.

(** ** Failures that end the run *)

Section FatalFacts.
Context {Image W : Type} (E : Env Image W).

Lemma range_cons (lo hi : Z) :
  lo < hi -> range lo hi = lo :: range (lo + 1) hi.
Proof.
  intros H. unfold range.
  replace (Z.to_nat (hi - lo)) with (S (Z.to_nat (hi - (lo + 1)))) by lia.
  cbn [seq map]. f_equal; [lia|].
  rewrite <- seq_shift, map_map. apply map_ext. intros i. lia.
Qed.

Lemma get_login_page_emits (cfg : Config) :
  emits (get_login_page E cfg)
    (fun _ evs =>
       sites_ok page_site evs /\ (count_site SiteLoginPage evs <= 2)%nat).
Proof.
  apply emits_conj.
  - apply only_get_login_page. reflexivity.
  - apply (counts_get_login_page_loop E
             [LOGIN_PAGE_URL cfg;
              "https://service.taipower.com.tw/hvcs/SignOn/Module/Login"%string]
             None).
Qed.

(** X4.  With credentials configured and at least one attempt allowed,
    a failure to load or to read the login page ends the run on the
    spot: when [get_login_page] raises, or the page it returns has no
    usable form or no token, [login_and_get_dashboard] raises that very
    exception, after the requests for the login page only (two at most)
    and without a second attempt. *)
Theorem page_failure_ends_run (cfg : Config) (st : state Image W) :
  PyStr.truthy (USERNAME cfg) = true ->
  PyStr.truthy (PASSWORD cfg) = true ->
  0 < MAX_LOGIN_ATTEMPTS cfg ->
  let out := login_and_get_dashboard E cfg st in
  match fst (get_login_page E cfg st) with
  | Raise e => ended_at_page st out e
  | Ok html =>
      match parse_login_form E cfg html, extract_token E html with
      | Raise e, _ => ended_at_page st out e
      | Ok _, Raise e => ended_at_page st out e
      | Ok _, Ok _ => True
      end
  end.
Proof.
  intros Hu Hp Hmax. cbv zeta.
  assert (Hloop : forall e st',
             login_attempt E cfg 1 st = (Raise e, st') ->
             login_and_get_dashboard E cfg st = (Raise e, st')).
  { intros e st' Hatt. unfold login_and_get_dashboard.
    rewrite Hu, Hp. cbn [negb orb].
    rewrite range_cons by lia. cbn [login_loop].
    unfold bind at 1. rewrite Hatt. reflexivity. }
  destruct (get_login_page_emits cfg st) as (evs & Htr & Hok & Hcount).
  unfold login_attempt in Hloop. unfold bind at 1 in Hloop.
  destruct (get_login_page E cfg st) as [[html|e] st1];
    cbn [fst snd] in *.
  - unfold bind at 1 in Hloop.
    set (saved := when_ (SAVE_LOGIN_HTML cfg)
                    (write_file ("login_page_" ++ PyStr.of_Z 1 ++ ".html")
                       html) : M Image W unit) in *.
    assert (Hsaved :
      exists st2 evs',
        saved st1 = (Ok tt, st2)
        /\ trace st2 = trace st1 ++ evs'
        /\ sites_ok page_site evs'
        /\ count_site SiteLoginPage evs' = 0%nat).
    { subst saved. destruct (SAVE_LOGIN_HTML cfg); cbn.
      - do 2 eexists. split; [reflexivity|]. split; [reflexivity|].
        split; [repeat constructor | reflexivity].
      - exists st1, []. rewrite app_nil_r.
        split; [reflexivity|]. split; [reflexivity|].
        split; [constructor | reflexivity]. }
    destruct Hsaved as (st2 & evs' & Hres & Htr' & Hok' & Hcount').
    rewrite Hres in Hloop. unfold bind at 1 in Hloop. cbn [lift] in Hloop.
    assert (Hend : forall e,
               login_and_get_dashboard E cfg st = (Raise e, st2) ->
               ended_at_page st (login_and_get_dashboard E cfg st) e).
    { intros e ->. split; [reflexivity|]. exists (evs ++ evs').
      cbn [snd]. rewrite Htr', Htr, app_assoc.
      split; [reflexivity|]. split; [apply sites_ok_app; assumption|].
      rewrite count_site_app. lia. }
    destruct (parse_login_form E cfg html)
      as [[[action_url fields] captcha_url]|e];
      [|apply Hend, Hloop; reflexivity].
    unfold bind at 1 in Hloop. cbn [lift] in Hloop.
    destruct (extract_token E html) as [token|e];
      [exact I | apply Hend, Hloop; reflexivity].
  - rewrite (Hloop e st1 eq_refl). split; [reflexivity|].
    exists evs. cbn [snd]. auto.
Qed.

End FatalFacts.

Lemma page_failure_ends_run_witness :
  ended_at_page Stub.start
    (login_and_get_dashboard changed_portal
       (Stub.stub_config false false 6 "") Stub.start)
    (LoginError "Login form not found").
Proof.
  exact (@page_failure_ends_run _ _ changed_portal
           (Stub.stub_config false false 6 "") Stub.start
           eq_refl eq_refl eq_refl).
Defined.

(** ** What a credential POST carries *)

Section PostFacts.
Context {Image W : Type} (E : Env Image W).

Local Abbreviation Eff := (M Image W).

Lemma every_bind {A B : Type} (Q : event Image -> Prop)
  (m : Eff A) (k : A -> Eff B) :
  every Q m -> (forall a, every Q (k a)) -> every Q (bind m k).
Proof.
  intros Hm Hk. eapply emits_bind; [exact Hm | |auto].
  intros a evs1 H1. eapply emits_weaken; [apply Hk|].
  intros r evs2 H2. apply Forall_app. auto.
Qed.

Lemma every_only {A : Type} (Q : event Image -> Prop)
  (allowed : site -> bool) (m : Eff A) :
  only allowed m ->
  (forall ev, site_allowed allowed ev = true -> Q ev) ->
  every Q m.
Proof.
  intros Hm HQ. eapply emits_weaken; [exact Hm|].
  intros r evs Hok. eapply Forall_impl; [|exact Hok]. exact HQ.
Qed.

Lemma every_lift_bind {A B : Type} (Q : event Image -> Prop)
  (r : result A) (k : A -> Eff B) :
  (forall a, r = Ok a -> every Q (k a)) -> every Q (bind (lift r) k).
Proof.
  intros Hk. destruct r as [a|e].
  - intros st. exact (Hk a eq_refl st).
  - intros st. exists []. cbn. rewrite app_nil_r. auto.
Qed.

Lemma not_post_ok (cfg : Config) (ev : event Image) :
  site_allowed (all_but SiteLoginPost) ev = true -> credential_post_ok cfg ev.
Proof.
  destruct ev as [s rq out| | | |]; cbn; try exact (fun _ => I).
  destruct s; cbn; try exact (fun _ => I). discriminate.
Qed.

Lemma extract_token_nonempty (html token : string) :
  extract_token E html = Ok token -> token <> ""%string.
Proof.
  unfold extract_token.
  destruct (find_token_input E html) as [[value|]|]; try discriminate.
  destruct (PyStr.truthy value) eqn:Hv; [|discriminate].
  intros [= <-]. apply truthy_nonempty, Hv.
Qed.

Lemma parse_login_form_nodup (cfg : Config) (html action_url : string)
  (fields : list (string * string)) (captcha_url : string) :
  parse_login_form E cfg html = Ok (action_url, fields, captcha_url) ->
  NoDup (map fst fields).
Proof.
  unfold parse_login_form.
  destruct (find_login_form E html) as [form|]; [|discriminate].
  destruct (negb _); [discriminate|].
  intros [= _ <- _].
  apply (collect_fields_spec (form_inputs form) []); [constructor | intros []].
Qed.

Lemma login_payload_keys (cfg : Config) (fields : list (string * string))
  (token code : string) :
  NoDup (map fst fields) ->
  NoDup (map fst (login_payload cfg fields token code)).
Proof.
  intros Hnd. unfold login_payload, Py.dict_update. cbn [fold_left fst snd].
  do 4 apply dict_set_nodup.
  rewrite map_map. cbn [fst]. exact Hnd.
Qed.

Lemma submit_every (cfg : Config) (attempt : Z) (action_url : string)
  (fields : list (string * string)) (token code : string) :
  NoDup (map fst fields) -> token <> ""%string ->
  every (credential_post_ok cfg)
    (submit E cfg attempt action_url fields token code).
Proof.
  intros Hnd Htok. unfold submit. apply every_bind.
  - eapply emits_weaken; [apply emits_send|].
    intros r evs (out & -> & _). constructor; [|constructor].
    cbn [credential_post_ok request_post req_method req_data req_headers].
    split; [reflexivity|].
    split; [apply login_payload_keys, Hnd|].
    unfold login_payload, Py.dict_update. cbn [fold_left fst snd].
    rewrite !lookup_dict_set. cbn.
    repeat split; eauto.
  - intros resp.
    eapply every_only with (allowed := all_but SiteLoginPost);
      [only_all | apply not_post_ok].
Qed.

Lemma login_attempt_every (cfg : Config) (attempt : Z) :
  every (credential_post_ok cfg) (login_attempt E cfg attempt).
Proof.
  pose proof (fun A (m : Eff A) (H : only (all_but SiteLoginPost) m) =>
                @every_only A (credential_post_ok cfg)
                  (all_but SiteLoginPost) m H (not_post_ok cfg)) as quiet.
  unfold login_attempt.
  apply every_bind; [apply quiet; only_all | intros html].
  apply every_bind; [apply quiet; only_all | intros _].
  apply every_lift_bind.
  intros [[action_url fields] captcha_url] Hform.
  apply every_lift_bind. intros token Htoken.
  apply every_bind; [apply quiet; only_all | intros captcha_img].
  apply every_bind; [apply quiet; only_all | intros [captcha_code|]].
  - unfold submit_and_verify. apply every_bind.
    + apply submit_every.
      * eapply parse_login_form_nodup, Hform.
      * eapply extract_token_nonempty, Htoken.
    + intros resp. apply quiet. only_all.
  - apply quiet. only_all.
Qed.

(** X5.  Every credential POST of a run is a POST whose form data has
    unique keys and carries the configured user name and password, the
    captcha code, and the anti-forgery token of the page, the same
    non-empty token being also sent as the [RequestVerificationToken]
    header; a hidden field of the form named like one of these keys
    does not replace them.  A run whose user name or password is empty
    performs no effect at all. *)
Theorem credential_posts_well_formed (cfg : Config) (st : state Image W) :
  let out := login_and_get_dashboard E cfg st in
  exists evs,
    trace (snd out) = trace st ++ evs
    /\ Forall (credential_post_ok cfg) evs
    /\ (evs = [] \/ (USERNAME cfg <> ""%string /\ PASSWORD cfg <> ""%string)).
Proof.
  cbv zeta. unfold login_and_get_dashboard.
  destruct (PyStr.truthy (USERNAME cfg)) eqn:Hu;
    [destruct (PyStr.truthy (PASSWORD cfg)) eqn:Hp|]; cbn [negb orb].
  - assert (Hloop : forall attempts,
               every (credential_post_ok cfg) (login_loop E cfg attempts)).
    { induction attempts as [|attempt rest IH]; cbn [login_loop].
      - apply emits_raise. constructor.
      - apply every_bind; [apply login_attempt_every|].
        intros [html|]; [apply emits_ret; constructor | exact IH]. }
    destruct (Hloop (range 1 (MAX_LOGIN_ATTEMPTS cfg + 1)) st)
      as (evs & Htr & Hall).
    exists evs. split; [exact Htr|]. split; [exact Hall|].
    right. split; apply truthy_nonempty; assumption.
  - exists []. cbn. rewrite app_nil_r. auto.
  - exists []. cbn. rewrite app_nil_r. auto.
Qed.

End PostFacts.

(** ** What the configuration switches on *)

Section UsesFacts.
Context {Image W : Type} (E : Env Image W).
Variable allowed : kind -> bool.

Local Abbreviation Eff := (M Image W).

Lemma uses_bind {A B : Type} (m : Eff A) (k : A -> Eff B) :
  uses allowed m -> (forall a, uses allowed (k a)) -> uses allowed (bind m k).
Proof. apply every_bind. Qed.

Lemma uses_ret {A : Type} (a : A) : uses allowed (ret a : Eff A).
Proof. apply emits_ret. constructor. Qed.

Lemma uses_raise {A : Type} (e : exn) : uses allowed (raise e : Eff A).
Proof. apply emits_raise. constructor. Qed.

Lemma uses_lift {A : Type} (r : result A) : uses allowed (lift r : Eff A).
Proof. apply emits_lift. constructor. Qed.

Lemma uses_time : uses allowed (time_time : Eff Z).
Proof. intros st. exists []. cbn. rewrite app_nil_r. split; auto. Qed.

Lemma uses_try {A : Type} (m : Eff A) : uses allowed m -> uses allowed (try_ m).
Proof.
  intros Hm. eapply emits_weaken; [apply emits_try, Hm|].
  intros r evs (r0 & _ & H). exact H.
Qed.

Lemma uses_when (b : bool) (m : Eff unit) :
  (b = true -> uses allowed m) -> uses allowed (when_ b m).
Proof. intros Hm. destruct b; [apply Hm; reflexivity | apply uses_ret]. Qed.

Lemma uses_send (s : site) (rq : request) :
  allowed (KHttp s) = true -> uses allowed (send E s rq).
Proof.
  intros Hs. eapply emits_weaken; [apply emits_send|].
  intros r evs (out & -> & _). repeat constructor. exact Hs.
Qed.

Lemma uses_tesseract (variant : Image) (config : string) :
  allowed KOcr = true -> uses allowed (tesseract E variant config).
Proof.
  intros Hs. eapply emits_weaken; [apply emits_tesseract|].
  intros r evs (out & -> & _). repeat constructor. exact Hs.
Qed.

Lemma uses_sleep (seconds : Z) :
  allowed KSleep = true -> uses allowed (time_sleep seconds : Eff unit).
Proof.
  intros Hs. eapply emits_weaken; [apply emits_sleep|].
  intros r evs (-> & _). repeat constructor. exact Hs.
Qed.

Lemma uses_write (filename contents : string) :
  allowed KWrite = true -> uses allowed (write_file filename contents : Eff unit).
Proof.
  intros Hs. eapply emits_weaken; [apply emits_write|].
  intros r evs (-> & _). repeat constructor. exact Hs.
Qed.

Lemma uses_input (prompt : string) :
  allowed KInput = true -> uses allowed (input E prompt).
Proof.
  intros Hs. eapply emits_weaken; [apply emits_input|].
  intros r evs (line & -> & _). repeat constructor. exact Hs.
Qed.

End UsesFacts.

Ltac uses_step :=
  match goal with
  | |- uses _ (bind _ _) => apply uses_bind; [|intros]
  | |- uses _ (try_ _) => apply uses_try
  | |- uses _ (ret _) => apply uses_ret
  | |- uses _ (raise _) => apply uses_raise
  | |- uses _ (lift _) => apply uses_lift
  | |- uses _ time_time => apply uses_time
  | |- uses _ (when_ _ _) => apply uses_when; intros
  | |- uses _ (send _ _ _) => apply uses_send
  | |- uses _ (tesseract _ _ _) => apply uses_tesseract
  | |- uses _ (time_sleep _) => apply uses_sleep
  | |- uses _ (write_file _ _) => apply uses_write
  | |- uses _ (input _ _) => apply uses_input
  | |- uses _ (match ?x with _ => _ end) => destruct x eqn:?
  | |- uses _ (let '(_, _) := ?x in _) => destruct x
  end.

(** The side conditions: the kind is switched on by the flags at hand. *)
Ltac gate_side :=
  cbn [gate];
  repeat match goal with
         | H : _ = true |- _ => rewrite H
         | H : _ = false |- _ => rewrite H
         end;
  cbn [andb orb negb]; rewrite ?orb_true_r; reflexivity.

Ltac uses_all := repeat (uses_step; try gate_side).

Section GateFacts.
Context {Image W : Type} (E : Env Image W) (cfg : Config).

Lemma uses_get_login_page : uses (gate cfg) (get_login_page E cfg).
Proof.
  unfold get_login_page.
  generalize (@None exn).
  generalize [LOGIN_PAGE_URL cfg;
              "https://service.taipower.com.tw/hvcs/SignOn/Module/Login"%string].
  induction l as [|url rest IH]; intros last_err; cbn [get_login_page_loop];
    uses_all; apply IH.
Qed.

Lemma uses_ocr_captcha (img : Image) : uses (gate cfg) (ocr_captcha E img).
Proof.
  unfold ocr_captcha. generalize (_variants (pil E) img).
  induction l as [|variant rest IH]; cbn [ocr_variants]; uses_all;
    try exact IH.
  generalize configs.
  induction l as [|config cs IHc]; cbn [ocr_configs]; uses_all. exact IHc.
Qed.

Lemma uses_poll_loop (captcha_id : json) (start timeout : Z) (fuel : nat) :
  USE_2CAPTCHA cfg = true ->
  PyStr.truthy (CAPTCHA_2CAPTCHA_API_KEY cfg) = true ->
  uses (gate cfg) (poll_loop E fuel cfg captcha_id start timeout).
Proof.
  intros Hu Hk. induction fuel as [|fuel IH]; cbn [poll_loop]; uses_all.
  exact IH.
Qed.

Lemma uses_solve_step (img : Image) : uses (gate cfg) (solve_step E cfg img).
Proof.
  unfold solve_step.
  destruct (USE_2CAPTCHA cfg) eqn:Hu.
  - apply uses_bind; [apply uses_try | intros r].
    + unfold solve_captcha_2captcha.
      destruct (PyStr.truthy (CAPTCHA_2CAPTCHA_API_KEY cfg)) eqn:Hk;
        cbn [negb]; uses_all.
      apply uses_poll_loop; assumption.
    + destruct r; uses_all; apply uses_ocr_captcha.
  - apply uses_bind; [apply uses_ocr_captcha | intros code].
    destruct (CAPTCHA_MANUAL cfg) eqn:Hm; uses_all.
Qed.

Lemma uses_dump_meter_debug :
  METER_DEBUG cfg = true -> uses (gate cfg) (dump_meter_debug E cfg).
Proof.
  intros Hd.
  assert (Hpages : forall pages, uses (gate cfg) (dump_pages E pages)).
  { induction pages as [|[filename url] rest IH]; cbn [dump_pages];
      [apply uses_ret|].
    apply uses_bind; [unfold dump_page; uses_all | intros; exact IH]. }
  unfold dump_meter_debug. apply uses_bind; [|intros]; apply Hpages.
Qed.

Lemma uses_select_meter_no :
  uses (gate cfg) (select_meter_no E cfg (METER_NO cfg)).
Proof.
  unfold select_meter_no.
  destruct (PyStr.truthy (METER_NO cfg)) eqn:Hm; cbn [negb]; uses_all.
Qed.

Lemma uses_login_attempt (attempt : Z) :
  uses (gate cfg) (login_attempt E cfg attempt).
Proof.
  unfold login_attempt.
  apply uses_bind; [apply uses_get_login_page | intros html].
  apply uses_bind; [uses_all | intros _].
  apply uses_bind; [uses_all | intros [[action_url fields] captcha_url]].
  apply uses_bind; [uses_all | intros token].
  apply uses_bind; [unfold fetch_captcha; uses_all | intros captcha_img].
  apply uses_bind; [apply uses_solve_step | intros [captcha_code|]];
    [|apply uses_ret].
  unfold submit_and_verify.
  apply uses_bind; [unfold submit; uses_all | intros resp].
  apply uses_bind; [unfold interpret_response; uses_all | intros login_ok].
  unfold finish_attempt.
  apply uses_bind.
  - unfold meter_step.
    destruct (login_ok && PyStr.truthy (METER_NO cfg)); [|apply uses_ret].
    apply uses_bind; [apply uses_try, uses_select_meter_no | intros r].
    destruct r as [|[]]; uses_all.
  - intros [|]; [apply uses_ret|].
    unfold verify_dashboard. uses_all. apply uses_dump_meter_debug.
    assumption.
Qed.

(** X6.  The effects of a run are those its configuration switches on
    (see [gate]): it contacts the solving service only if
    [USE_2CAPTCHA] is set and the API key is not empty; it reads the
    console only if [USE_2CAPTCHA] is off and [CAPTCHA_MANUAL] is on; it
    writes a file only if one of the four debug flags is set; it uses
    the meter-list and meter-switch endpoints only if a meter is
    configured, and the meter debug pages only under [METER_DEBUG]. *)
Theorem run_respects_configuration (st : state Image W) :
  let out := login_and_get_dashboard E cfg st in
  exists evs,
    trace (snd out) = trace st ++ evs
    /\ Forall (fun ev => gate cfg (event_kind ev) = true) evs.
Proof.
  cbv zeta. unfold login_and_get_dashboard.
  destruct (negb (PyStr.truthy (USERNAME cfg))
            || negb (PyStr.truthy (PASSWORD cfg))).
  - exists []. cbn. rewrite app_nil_r. auto.
  - generalize (range 1 (MAX_LOGIN_ATTEMPTS cfg + 1)). intros attempts.
    revert st. change (uses (gate cfg) (login_loop E cfg attempts)).
    induction attempts as [|attempt rest IH]; cbn [login_loop].
    + apply uses_raise.
    + apply uses_bind; [apply uses_login_attempt|].
      intros [html|]; [apply uses_ret | exact IH].
Qed.

End GateFacts.

(** ** The captcha step of an attempt *)

Section StepFacts.
Context {Image W : Type} (E : Env Image W).

Local Abbreviation Eff := (M Image W).

(** A code that [ocr_captcha] returns is empty or has four
    alphanumeric characters. *)
Lemma returns_ocr_shape (img : Image) :
  returns (ocr_captcha E img)
    (fun r =>
       match r with
       | Ok code =>
           code = ""%string
           \/ (String.length code = 4%nat
               /\ forall_string is_alnum code = true)
       | Raise _ => True
       end).
Proof.
  assert (Hconfigs : forall variant cs,
    returns (ocr_configs E variant cs)
      (fun r =>
         match r with
         | Ok (Some code) =>
             String.length code = 4%nat /\ forall_string is_alnum code = true
         | _ => True
         end)).
  { intros variant cs. induction cs as [|config rest IH]; cbn [ocr_configs].
    - intros st. exact I.
    - apply returns_bind_any; [|intros; exact I].
      intros raw. destruct (accepted (_clean_text raw)) eqn:Hacc;
        [|exact IH].
      intros st. cbn. split; [apply accepted_length, Hacc|].
      rewrite clean_text_filter. apply filter_string_forall. }
  unfold ocr_captcha. generalize (_variants (pil E) img).
  induction l as [|variant rest IH]; cbn [ocr_variants].
  - intros st. left. reflexivity.
  - eapply returns_bind; [apply Hconfigs | |].
    + intros [code|] Hc; [|exact IH]. intros st. right. exact Hc.
    + intros e _. exact I.
Qed.

(** A code that the solving service delivers is empty or has four
    alphanumeric characters. *)
Lemma returns_solver_shape (cfg : Config) (img : Image) (timeout : Z) :
  returns (solve_captcha_2captcha E cfg img timeout)
    (fun r =>
       match r with
       | Ok code =>
           code = ""%string
           \/ (String.length code = 4%nat
               /\ forall_string is_alnum code = true)
       | Raise _ => True
       end).
Proof.
  assert (Hloop : forall captcha_id start fuel,
    returns (poll_loop E fuel cfg captcha_id start timeout)
      (fun r =>
         match r with
         | Ok (Some code) =>
             code = ""%string
             \/ (String.length code = 4%nat
                 /\ forall_string is_alnum code = true)
         | _ => True
         end)).
  { intros captcha_id start fuel.
    induction fuel as [|fuel IH]; cbn [poll_loop]; [intros st; exact I|].
    apply returns_bind_any; [|intros; exact I]. intros now.
    destruct (now - start <? timeout); [|intros st; exact I].
    apply returns_bind_any; [|intros; exact I]. intros _.
    apply returns_bind_any; [|intros; exact I]. intros poll.
    eapply returns_bind; [apply returns_lift | |].
    + intros [code|] Hread; [|exact IH].
      intros st. cbn. exact (read_poll_code _ _ (eq_sym Hread)).
    + intros e _. exact I. }
  unfold solve_captcha_2captcha.
  destruct (negb (PyStr.truthy (CAPTCHA_2CAPTCHA_API_KEY cfg)));
    [intros st; exact I|].
  apply returns_bind_any; [|intros; exact I]. intros resp.
  apply returns_bind_any; [|intros; exact I]. intros captcha_id.
  apply returns_bind_any; [|intros; exact I]. intros start.
  eapply returns_bind; [apply Hloop | |].
  - intros [code|] Hc; intros st; [exact Hc | exact I].
  - intros e _. exact I.
Qed.

(** X7.  The captcha step of an attempt ends in one of three ways.  It
    hands a code to the credential POST: with the solving service
    enabled this code is empty or has four alphanumeric characters;
    otherwise manual entry is on and the code is the line just typed at
    the prompt, stripped, of exactly four characters (of any kind: the
    typed line is not normalised, and what the recognizer read is
    dropped).  Or it restarts the attempt, which happens only with the
    solving service disabled.  Or it raises.  With the solving service
    enabled it raises only after that service has failed, and the
    exception is the one the fallback recognition raised: a failure of
    the solving service never leaves the step.  Without it the
    exception is that of the recognition or, in manual mode, one of the
    prompt other than the end of input. *)
Theorem captcha_step_outcomes (cfg : Config) (img : Image)
  (st : state Image W) :
  let out := solve_step E cfg img st in
  let solved := solve_captcha_2captcha E cfg img 120 st in
  match fst out with
  | Ok (Some code) =>
      if USE_2CAPTCHA cfg then
        code = ""%string
        \/ (String.length code = 4%nat /\ forall_string is_alnum code = true)
      else
        CAPTCHA_MANUAL cfg = true
        /\ String.length code = 4%nat
        /\ exists evs line,
            trace (snd out)
            = trace st ++ evs
                ++ [EvInput "Enter captcha (4 chars): " (Some line)]
            /\ code = PyStr.strip line
  | Ok None => USE_2CAPTCHA cfg = false
  | Raise e =>
      if USE_2CAPTCHA cfg then
        (exists failure, fst solved = Raise failure)
        /\ fst (ocr_captcha E img (snd solved)) = Raise e
        /\ out = (Raise e, snd (ocr_captcha E img (snd solved)))
      else
        fst (ocr_captcha E img st) = Raise e
        \/ (CAPTCHA_MANUAL cfg = true
            /\ e <> EOFError
            /\ fst (input E "Enter captcha (4 chars): "
                      (snd (ocr_captcha E img st))) = Raise e)
  end.
Proof.
  cbv zeta. unfold solve_step. destruct (USE_2CAPTCHA cfg).
  - rewrite bind_run, try_run. cbn [fst snd].
    pose proof (returns_solver_shape cfg img 120 st) as Hs. cbv beta in Hs.
    destruct (fst (solve_captcha_2captcha E cfg img 120 st)) as [code|e].
    + exact Hs.
    + rewrite bind_run.
      pose proof (returns_ocr_shape img
                    (snd (solve_captcha_2captcha E cfg img 120 st))) as Ho.
      cbv beta in Ho.
      destruct (fst (ocr_captcha E img
                       (snd (solve_captcha_2captcha E cfg img 120 st))))
        as [code|e'].
      * exact Ho.
      * split; [eauto|]. split; reflexivity.
  - rewrite bind_run.
    destruct (only_ocr_captcha E (fun _ => true) img st) as (evs & Htr & _).
    destruct (fst (ocr_captcha E img st)) as [code|e]; [|left; reflexivity].
    destruct (CAPTCHA_MANUAL cfg); [|reflexivity].
    rewrite bind_run, try_run. unfold input.
    destruct (console_input E "Enter captcha (4 chars): "
                (world (snd (ocr_captcha E img st)))) as [[line|] w'];
      cbn [fst snd]; [|reflexivity].
    destruct (PyStr.len (PyStr.strip line) =? 4) eqn:Hlen; [|reflexivity].
    cbn [ret fst snd trace]. split; [reflexivity|].
    split; [apply accepted_length, Hlen|].
    exists evs, line. rewrite Htr, <- app_assoc. auto.
Qed.

End StepFacts.

(** ** Reading the reply to the credential POST *)

Section VerdictFacts.
Context {Image W : Type} (E : Env Image W).

(** X8.  How the reply to the credential POST is read (lines 320-345).
    A reply that is not announced as JSON counts as accepted exactly
    when its status is below 400.  A reply announced as JSON whose body
    does not parse counts as rejected, without an exception; when the
    body parses, the verdict depends on the body and the content type
    only, so the HTTP status plays no part.  Reading the reply sends at
    most one request, a GET of the redirect URL joined to the login
    page URL, and none when the verdict is a rejection, in which case
    nothing at all has happened. *)
Theorem login_verdict (cfg : Config) (resp : response) (st : state Image W) :
  let out := interpret_response E cfg resp st in
  (snd out = st
   \/ (fst out <> Ok false
       /\ exists u o,
           trace (snd out)
           = trace st
               ++ [EvHttp SiteRedirect
                     (request_get (urljoin E (LOGIN_PAGE_URL cfg) u) [] [] 20)
                     o]))
  /\ if is_json_response resp then
       match json_body resp with
       | None => out = (Ok false, st)
       | Some v =>
           forall resp',
             content_type resp' = content_type resp ->
             json_body resp' = Some v ->
             interpret_response E cfg resp' st = out
       end
     else out = (Ok (status_code resp <? 400), st).
Proof.
  cbv zeta. split.
  - unfold interpret_response.
    destruct (PyStr.startswith _ _); [|left; reflexivity].
    rewrite bind_run. cbn [lift fst snd].
    destruct (py_get _ "data") as [d|e]; [|left; reflexivity].
    destruct (Py.truthy (Py.get_default _ "Status" JNull));
      cbn [andb]; [|left; reflexivity].
    destruct (Py.get_default _ "Url" JNull) as [| | | | |u| |] eqn:Hurl;
      try (destruct (Py.truthy _); left; reflexivity).
    destruct (Py.truthy (JStr u)); [|left; reflexivity].
    right. rewrite bind_run.
    destruct (send_run E SiteRedirect
                (request_get (urljoin E (LOGIN_PAGE_URL cfg) u) [] [] 20) st)
      as (o & dt & Htr & _ & Hres).
    rewrite Hres. destruct o as [r|info]; cbn [ret fst snd].
    + split; [discriminate | eauto].
    + split; [discriminate | eauto].
  - unfold is_json_response.
    destruct (PyStr.startswith "application/json"
                (PyStr.lower match content_type resp with
                             | Some c => c
                             | None => ""%string
                             end)) eqn:Hjson.
    + destruct (json_body resp) as [v|] eqn:Hbody.
      * intros resp' Htype Hbody'. unfold interpret_response.
        rewrite Htype, Hjson, Hbody, Hbody'. reflexivity.
      * unfold interpret_response. rewrite Hjson, Hbody. reflexivity.
    + unfold interpret_response. rewrite Hjson. reflexivity.
Qed.

End VerdictFacts.

Lemma login_verdict_witness :
  let accepted_body := JDict [("data", JDict [("Status", JBool true)])] in
  let failed :=
    {| status_code := 500;
       content_type := Some "application/json; charset=utf-8"%string;
       text := ""%string; content := []; json_body := Some accepted_body |} in
  fst (interpret_response (Stub.stub_env Stub.happy)
         (Stub.stub_config true false 6 "") failed Stub.start)
  = Ok true.
Proof.
  cbv zeta.
  rewrite (proj2 (login_verdict (Stub.stub_env Stub.happy)
                    (Stub.stub_config true false 6 "")
                    (Stub.json_reply
                       (JDict [("data", JDict [("Status", JBool true)])]))
                    Stub.start)
             {| status_code := 500;
                content_type := Some "application/json; charset=utf-8"%string;
                text := ""%string; content := [];
                json_body :=
                  Some (JDict [("data", JDict [("Status", JBool true)])]) |}
             eq_refl eq_refl).
  reflexivity.
Defined.

(** ** The order of the requests of a run *)

Section OrderFacts.
Context {Image W : Type} (E : Env Image W).

Local Abbreviation Eff := (M Image W).

Lemma follows_skip {A B : Type} (allowed : site -> bool) (s1 s2 : site)
  (n : nat) (m : Eff A) (k : A -> Eff B) :
  only allowed m -> allowed s2 = false ->
  (forall a, follows s1 s2 n (k a)) ->
  follows s1 s2 n (bind m k).
Proof.
  intros Hm Hs Hk. eapply emits_bind; [exact Hm | |].
  - intros a evs1 H1. eapply emits_weaken; [apply Hk|].
    intros r evs2 H2. cbv beta in *. rewrite !count_site_app.
    rewrite (sites_ok_count s2 H1 Hs). nia.
  - intros e evs1 H1. cbv beta in *. rewrite (sites_ok_count s2 H1 Hs). lia.
Qed.

Lemma follows_then_only {A B : Type} (allowed : site -> bool) (s1 s2 : site)
  (n : nat) (m : Eff A) (k : A -> Eff B) :
  follows s1 s2 n m -> allowed s2 = false ->
  (forall a, only allowed (k a)) ->
  follows s1 s2 n (bind m k).
Proof.
  intros Hm Hs Hk. eapply emits_bind; [exact Hm | |].
  - intros a evs1 H1. eapply emits_weaken; [apply Hk|].
    intros r evs2 H2. cbv beta in *. rewrite !count_site_app.
    rewrite (sites_ok_count s2 H2 Hs). nia.
  - intros e evs1 H1. exact H1.
Qed.

Lemma follows_from {A B : Type} (allowed : site -> bool) (s1 s2 : site)
  (n : nat) (m : Eff A) (k : A -> Eff B) :
  sends s1 m -> only allowed m -> allowed s2 = false ->
  (forall a, counts s2 n (k a)) ->
  follows s1 s2 n (bind m k).
Proof.
  intros Hsends Hm Hs Hk.
  eapply emits_bind; [exact (emits_conj Hsends Hm) | |].
  - intros a evs1 [H1 Hok]. eapply emits_weaken; [apply Hk|].
    intros r evs2 H2. cbv beta in *. rewrite !count_site_app.
    rewrite (sites_ok_count s2 Hok Hs). nia.
  - intros e evs1 [H1 Hok]. cbv beta in *.
    rewrite (sites_ok_count s2 Hok Hs). lia.
Qed.

Lemma follows_only {A : Type} (allowed : site -> bool) (s1 s2 : site)
  (n : nat) (m : Eff A) :
  only allowed m -> allowed s2 = false -> follows s1 s2 n m.
Proof.
  intros Hm Hs. eapply emits_weaken; [exact Hm|].
  intros r evs Hok. cbv beta in *. rewrite (sites_ok_count s2 Hok Hs). lia.
Qed.

Lemma follows_try {A : Type} (s1 s2 : site) (n : nat) (m : Eff A) :
  follows s1 s2 n m -> follows s1 s2 n (try_ m).
Proof.
  intros Hm. eapply emits_weaken; [apply emits_try, Hm|].
  intros r evs (r0 & _ & H). exact H.
Qed.

Lemma sends_send (s : site) (rq : request) : sends s (send E s rq).
Proof.
  eapply emits_weaken; [apply emits_send|].
  intros r evs (out & -> & _). unfold count_site. cbn.
  destruct s; cbn; lia.
Qed.

Lemma sends_bind {A B : Type} (s : site) (m : Eff A) (k : A -> Eff B) :
  sends s m -> (forall a, only (fun _ => true) (k a)) -> sends s (bind m k).
Proof.
  intros Hm Hk. eapply emits_bind; [exact Hm | |].
  - intros a evs1 H1. eapply emits_weaken; [apply Hk|].
    intros r evs2 _. cbv beta in *. rewrite count_site_app. lia.
  - intros e evs1 H1. exact H1.
Qed.

Lemma sends_try {A : Type} (s : site) (m : Eff A) :
  sends s m -> sends s (try_ m).
Proof.
  intros Hm. eapply emits_weaken; [apply emits_try, Hm|].
  intros r evs (r0 & _ & H). exact H.
Qed.

Lemma sends_get_login_page (cfg : Config) :
  sends SiteLoginPage (get_login_page E cfg).
Proof.
  unfold get_login_page. cbn [get_login_page_loop].
  apply sends_bind.
  - apply sends_try, sends_bind; [apply sends_send | intros; only_all].
  - intros r.
    change (only (fun _ : site => true)
              (match r with
               | Ok resp =>
                   if PyStr.contains "__RequestVerificationToken" (text resp)
                   then ret (text resp)
                   else get_login_page_loop E
                          ["https://service.taipower.com.tw/hvcs/SignOn/Module/Login"%string]
                          None
               | Raise (RequestException info) =>
                   get_login_page_loop E
                     ["https://service.taipower.com.tw/hvcs/SignOn/Module/Login"%string]
                     (Some (RequestException info))
               | Raise e => raise e
               end)).
    cbn [get_login_page_loop]. only_all.
Qed.

Lemma sends_fetch_captcha (cfg : Config) (url : string) :
  sends SiteCaptcha (fetch_captcha E cfg url).
Proof.
  unfold fetch_captcha. apply sends_bind; [apply sends_send|].
  intros; only_all.
Qed.

Lemma sends_submit (cfg : Config) (attempt : Z) (action_url : string)
  (fields : list (string * string)) (token captcha_code : string) :
  sends SiteLoginPost
    (submit E cfg attempt action_url fields token captcha_code).
Proof.
  unfold submit. apply sends_bind; [apply sends_send|].
  intros; only_all.
Qed.

Lemma count_poll_events (rq : request) (outs : list http_outcome) :
  count_site SiteSolverPoll (poll_events (Image := Image) rq outs)
  = List.length outs.
Proof.
  unfold count_site. induction outs as [|out rest IH]; [reflexivity|].
  cbn. f_equal. exact IH.
Qed.

(** After the upload, at most 24 polls. *)
Lemma counts_polls (cfg : Config) (resp : response) :
  counts SiteSolverPoll 24
    (bind (lift (read_upload E resp))
       (fun captcha_id =>
          bind time_time
            (fun start =>
               bind (poll_loop E (poll_fuel 120) cfg captcha_id start 120)
                 (fun r =>
                    match r with
                    | Some code => ret code
                    | None => raise (LoginError "2Captcha timeout")
                    end)))).
Proof.
  intros st. rewrite bind_run. cbn [lift fst snd].
  destruct (read_upload E resp) as [captcha_id|e];
    [|exists []; cbn; rewrite app_nil_r; split; [reflexivity | lia]].
  rewrite bind_run. cbn [time_time fst snd]. rewrite bind_run.
  destruct (@poll_loop_spec _ _ E cfg captcha_id (clock st) 120
              (poll_fuel 120) st)
    as (outs & r & Htr & Hcount & Hfst & _);
    [ pose proof (poll_fuel_covers 120); lia | unfold poll_fuel; lia | ].
  rewrite Hfst.
  exists (poll_events (poll_request cfg captcha_id) outs).
  split; [destruct r; exact Htr|].
  rewrite count_poll_events. lia.
Qed.

Ltac only_more :=
  unfold submit_and_verify;
  repeat first [only_fun | only_step | apply only_poll_loop; side].

Ltac counts_skip s :=
  eapply counts_bind_only with (allowed := all_but s);
  [only_more | reflexivity | intros].

Ltac counts_here s :=
  eapply counts_bind_then_only with (allowed := all_but s);
  [ | reflexivity | intros; only_more].

Ltac follows_pass s :=
  eapply follows_skip with (allowed := all_but s);
  [only_more | reflexivity | intros].

Lemma counts_zero {A : Type} (s : site) (n : nat) (r : result A) :
  counts s n (lift r : Eff A).
Proof. apply emits_lift. cbn. lia. Qed.

(** *** Pieces of an attempt *)

Lemma counts_fetch_captcha (cfg : Config) (url : string) :
  counts SiteCaptcha 1 (fetch_captcha E cfg url).
Proof. unfold fetch_captcha. counts_here SiteCaptcha. apply counts_send. Qed.

Lemma counts_upload (cfg : Config) (img : Image) :
  counts SiteSolverUpload 1 (solve_step E cfg img).
Proof.
  unfold solve_step. destruct (USE_2CAPTCHA cfg);
    [|eapply counts_only with (allowed := all_but SiteSolverUpload);
      [only_more | reflexivity]].
  counts_here SiteSolverUpload. apply counts_try.
  unfold solve_captcha_2captcha.
  destruct (negb (PyStr.truthy (CAPTCHA_2CAPTCHA_API_KEY cfg)));
    [apply emits_raise; cbn; lia|].
  counts_here SiteSolverUpload. apply counts_send.
Qed.

Lemma counts_submit (cfg : Config) (attempt : Z) (action_url : string)
  (fields : list (string * string)) (token captcha_code : string) :
  counts SiteLoginPost 1
    (submit E cfg attempt action_url fields token captcha_code).
Proof. unfold submit. counts_here SiteLoginPost. apply counts_send. Qed.

Lemma counts_redirect (cfg : Config) (resp : response) :
  counts SiteRedirect 1 (interpret_response E cfg resp).
Proof.
  unfold interpret_response.
  destruct (PyStr.startswith _ _); [|apply emits_ret; cbn; lia].
  counts_skip SiteRedirect.
  destruct (Py.truthy _ && Py.truthy _);
    [|destruct (Py.truthy _); apply emits_ret; cbn; lia].
  destruct (Py.get_default _ "Url" JNull);
    try (apply emits_raise; cbn; lia).
  counts_here SiteRedirect. apply counts_send.
Qed.

Lemma counts_meter_list (cfg : Config) (meter_no : string) :
  counts SiteMeterList 1 (select_meter_no E cfg meter_no).
Proof.
  unfold select_meter_no.
  destruct (negb (PyStr.truthy meter_no)); [apply emits_ret; cbn; lia|].
  counts_here SiteMeterList. apply counts_send.
Qed.

Lemma counts_dashboard (cfg : Config) (attempt : Z) :
  counts SiteDashboard 1 (verify_dashboard E cfg attempt).
Proof.
  unfold verify_dashboard. counts_here SiteDashboard. apply counts_send.
Qed.

Lemma counts_dump_pages (pages : list (string * string)) :
  counts SiteMeterDebug (List.length pages) (dump_pages E pages).
Proof.
  induction pages as [|[filename url] rest IH]; cbn [dump_pages List.length].
  - apply emits_ret. cbn. lia.
  - change (S (List.length rest)) with (1 + List.length rest)%nat.
    apply counts_bind; [|intros; exact IH].
    unfold dump_page. counts_here SiteMeterDebug. apply counts_send.
Qed.

Lemma counts_dump_meter_debug (cfg : Config) :
  counts SiteMeterDebug 4 (dump_meter_debug E cfg).
Proof.
  unfold dump_meter_debug. change 4%nat with (1 + 3)%nat.
  apply counts_bind; [|intros]; apply counts_dump_pages.
Qed.

(** What follows the credential POST of an attempt. *)
Lemma counts_after_post (cfg : Config) (attempt : Z) (resp : response)
  (s : site) :
  In s [SiteRedirect; SiteMeterList; SiteDashboard] ->
  counts s 1
    (bind (interpret_response E cfg resp)
       (fun login_ok => finish_attempt E cfg attempt login_ok)).
Proof.
  intros [<-|[<-|[<-|[]]]].
  - counts_here SiteRedirect. apply counts_redirect.
  - counts_skip SiteMeterList. unfold finish_attempt.
    counts_here SiteMeterList. unfold meter_step.
    destruct (_ && _); [|apply emits_ret; cbn; lia].
    counts_here SiteMeterList. apply counts_try, counts_meter_list.
  - counts_skip SiteDashboard. unfold finish_attempt.
    counts_skip SiteDashboard.
    destruct a0; [apply emits_ret; cbn; lia | apply counts_dashboard].
Qed.

(** The relations of [in_order] that start at the credential POST. *)
Lemma follows_post (cfg : Config) (attempt : Z) (s : site) :
  In s [SiteRedirect; SiteMeterList; SiteDashboard] ->
  follows SiteLoginPost s 1 (login_attempt E cfg attempt).
Proof.
  intros Hs.
  assert (Hother : all_but s SiteLoginPost = true
                   /\ all_but s SiteLoginPage = true
                   /\ all_but s SiteCaptcha = true
                   /\ all_but s SiteSolverUpload = true
                   /\ all_but s SiteSolverPoll = true
                   /\ all_but s s = false)
    by (destruct Hs as [<-|[<-|[<-|[]]]]; repeat split).
  destruct Hother as (Hpost & Hpage & Hcap & Hup & Hpoll & Hself).
  unfold login_attempt.
  pose proof (fun A B m k =>
                @follows_skip A B (all_but s) SiteLoginPost s 1 m k) as pass.
  apply pass; [only_more | exact Hself | intros html].
  apply pass; [only_more | exact Hself | intros _].
  apply pass;
    [only_more | exact Hself | intros [[action_url fields] captcha_url]].
  apply pass; [only_more | exact Hself | intros token].
  apply pass; [only_more | exact Hself | intros captcha_img].
  apply pass; [only_more | exact Hself | intros [captcha_code|]];
    [|apply emits_ret; cbn; lia].
  unfold submit_and_verify.
  eapply follows_from with (allowed := all_but s);
    [apply sends_submit | only_more | exact Hself | intros resp].
  apply counts_after_post, Hs.
Qed.

Lemma follows_captcha (cfg : Config) (attempt : Z) (s : site) :
  In s [SiteLoginPost; SiteSolverUpload] ->
  follows SiteCaptcha s 1 (login_attempt E cfg attempt).
Proof.
  intros Hs.
  assert (Hother : all_but s SiteLoginPage = true
                   /\ all_but s SiteCaptcha = true
                   /\ all_but s s = false)
    by (destruct Hs as [<-|[<-|[]]]; repeat split).
  destruct Hother as (Hpage & Hcap & Hself).
  unfold login_attempt.
  pose proof (fun A B m k =>
                @follows_skip A B (all_but s) SiteCaptcha s 1 m k) as pass.
  apply pass; [only_more | exact Hself | intros html].
  apply pass; [only_more | exact Hself | intros _].
  apply pass;
    [only_more | exact Hself | intros [[action_url fields] captcha_url]].
  apply pass; [only_more | exact Hself | intros token].
  eapply follows_from with (allowed := all_but s);
    [apply sends_fetch_captcha | only_more | exact Hself | intros img].
  destruct Hs as [<-|[<-|[]]].
  - counts_skip SiteLoginPost.
    destruct a; [|apply emits_ret; cbn; lia].
    unfold submit_and_verify. counts_here SiteLoginPost. apply counts_submit.
  - counts_here SiteSolverUpload. apply counts_upload.
Qed.

Lemma follows_page (cfg : Config) (attempt : Z) :
  follows SiteLoginPage SiteCaptcha 1 (login_attempt E cfg attempt).
Proof.
  unfold login_attempt.
  eapply follows_from with (allowed := all_but SiteCaptcha);
    [apply sends_get_login_page | only_more | reflexivity | intros html].
  counts_skip SiteCaptcha. counts_skip SiteCaptcha.
  destruct a0 as [[action_url fields] captcha_url].
  counts_skip SiteCaptcha.
  counts_here SiteCaptcha. apply counts_fetch_captcha.
Qed.

Lemma follows_upload (cfg : Config) (attempt : Z) :
  follows SiteSolverUpload SiteSolverPoll 24 (login_attempt E cfg attempt).
Proof.
  unfold login_attempt.
  follows_pass SiteSolverPoll. follows_pass SiteSolverPoll.
  follows_pass SiteSolverPoll.
  destruct a1 as [[action_url fields] captcha_url].
  follows_pass SiteSolverPoll. follows_pass SiteSolverPoll.
  eapply follows_then_only with (allowed := all_but SiteSolverPoll);
    [ | reflexivity | intros; only_more].
  unfold solve_step. destruct (USE_2CAPTCHA cfg);
    [|eapply follows_only with (allowed := all_but SiteSolverPoll);
      [only_more | reflexivity]].
  eapply follows_then_only with (allowed := all_but SiteSolverPoll);
    [ | reflexivity | intros; only_more].
  apply follows_try. unfold solve_captcha_2captcha.
  destruct (negb (PyStr.truthy (CAPTCHA_2CAPTCHA_API_KEY cfg)));
    [apply emits_raise; cbn; lia|].
  eapply follows_from with (allowed := all_but SiteSolverPoll);
    [apply sends_send | only_more | reflexivity | intros resp].
  apply counts_polls.
Qed.

(** The relations inside [select_meter_no]. *)
Lemma follows_meter (cfg : Config) (attempt : Z) (s1 s2 : site) :
  In (s1, s2) [(SiteMeterList, SiteMeterSwitchPost);
               (SiteMeterSwitchPost, SiteMeterSwitchGet)] ->
  follows s1 s2 1 (login_attempt E cfg attempt).
Proof.
  intros Hs.
  assert (Hself : all_but s2 s2 = false)
    by (destruct Hs as [[= <- <-]|[[= <- <-]|[]]]; reflexivity).
  assert (Hmeter : forall meter_no,
             follows s1 s2 1 (select_meter_no E cfg meter_no)).
  { intros meter_no. unfold select_meter_no.
    destruct (negb (PyStr.truthy meter_no)); [apply emits_ret; cbn; lia|].
    destruct Hs as [[= <- <-]|[[= <- <-]|[]]].
    - eapply follows_from with (allowed := all_but SiteMeterSwitchPost);
        [apply sends_send | only_more | reflexivity | intros resp].
      destruct (status_code resp >=? 400); [apply emits_raise; cbn; lia|].
      counts_skip SiteMeterSwitchPost. counts_skip SiteMeterSwitchPost.
      counts_skip SiteMeterSwitchPost.
      destruct (negb _); [apply emits_raise; cbn; lia|].
      counts_here SiteMeterSwitchPost. apply counts_send.
    - follows_pass SiteMeterSwitchGet.
      destruct (status_code a >=? 400); [apply emits_raise; cbn; lia|].
      follows_pass SiteMeterSwitchGet. follows_pass SiteMeterSwitchGet.
      follows_pass SiteMeterSwitchGet.
      destruct (negb _); [apply emits_raise; cbn; lia|].
      eapply follows_from with (allowed := all_but SiteMeterSwitchGet);
        [apply sends_send | only_more | reflexivity | intros resp].
      counts_here SiteMeterSwitchGet. apply counts_send. }
  unfold login_attempt.
  pose proof (fun A B m k =>
                @follows_skip A B (all_but s2) s1 s2 1 m k) as pass.
  assert (Hother : all_but s2 SiteLoginPage = true
                   /\ all_but s2 SiteCaptcha = true
                   /\ all_but s2 SiteSolverUpload = true
                   /\ all_but s2 SiteSolverPoll = true
                   /\ all_but s2 SiteLoginPost = true
                   /\ all_but s2 SiteRedirect = true
                   /\ all_but s2 SiteDashboard = true
                   /\ all_but s2 SiteMeterDebug = true)
    by (destruct Hs as [[= <- <-]|[[= <- <-]|[]]]; repeat split).
  destruct Hother as (H1 & H2 & H3 & H4 & H5 & H6 & H7 & H8).
  apply pass; [only_more | exact Hself | intros html].
  apply pass; [only_more | exact Hself | intros _].
  apply pass;
    [only_more | exact Hself | intros [[action_url fields] captcha_url]].
  apply pass; [only_more | exact Hself | intros token].
  apply pass; [only_more | exact Hself | intros captcha_img].
  apply pass; [only_more | exact Hself | intros [captcha_code|]];
    [|apply emits_ret; cbn; lia].
  unfold submit_and_verify.
  apply pass; [only_more | exact Hself | intros resp].
  apply pass; [only_more | exact Hself | intros login_ok].
  unfold finish_attempt.
  eapply follows_then_only with (allowed := all_but s2);
    [ | exact Hself | intros; only_more].
  unfold meter_step. destruct (_ && _); [|apply emits_ret; cbn; lia].
  eapply follows_then_only with (allowed := all_but s2);
    [ | exact Hself | intros; only_more].
  apply follows_try, Hmeter.
Qed.

Lemma follows_dashboard (cfg : Config) (attempt : Z) :
  follows SiteDashboard SiteMeterDebug 4 (login_attempt E cfg attempt).
Proof.
  unfold login_attempt.
  follows_pass SiteMeterDebug. follows_pass SiteMeterDebug.
  follows_pass SiteMeterDebug.
  destruct a1 as [[action_url fields] captcha_url].
  follows_pass SiteMeterDebug. follows_pass SiteMeterDebug.
  follows_pass SiteMeterDebug.
  destruct a3 as [captcha_code|]; [|apply emits_ret; cbn; lia].
  unfold submit_and_verify.
  follows_pass SiteMeterDebug. follows_pass SiteMeterDebug.
  unfold finish_attempt. follows_pass SiteMeterDebug.
  destruct a5; [apply emits_ret; cbn; lia|].
  unfold verify_dashboard.
  eapply follows_from with (allowed := all_but SiteMeterDebug);
    [apply sends_send | only_more | reflexivity | intros dash].
  counts_skip SiteMeterDebug.
  counts_here SiteMeterDebug.
  destruct (METER_DEBUG cfg); [apply counts_dump_meter_debug|].
  apply emits_ret. cbn. lia.
Qed.

Lemma in_order_app (evs1 evs2 : list (event Image)) :
  in_order evs1 -> in_order evs2 -> in_order (evs1 ++ evs2).
Proof.
  unfold in_order. cbv zeta. rewrite !count_site_app. lia.
Qed.

Lemma in_order_attempt (cfg : Config) (attempt : Z) :
  emits (login_attempt E cfg attempt) (fun _ evs => in_order evs).
Proof.
  intros st.
  destruct (follows_page cfg attempt st) as (evs & Htr & Ha).
  assert (Hget : forall s1 s2 n,
             follows s1 s2 n (login_attempt E cfg attempt) ->
             (count_site s2 evs <= n * count_site s1 evs)%nat).
  { intros s1 s2 n H. destruct (H st) as (evs' & Htr' & H').
    rewrite Htr in Htr'. apply app_inv_head in Htr'. subst evs'. exact H'. }
  exists evs. split; [exact Htr|].
  pose proof (Hget _ _ _ (@follows_captcha cfg attempt SiteLoginPost
                            (or_introl eq_refl))) as Hb.
  pose proof (Hget _ _ _ (@follows_captcha cfg attempt SiteSolverUpload
                            (or_intror (or_introl eq_refl)))) as Hc.
  pose proof (Hget _ _ _ (follows_upload cfg attempt)) as Hd.
  pose proof (Hget _ _ _ (@follows_post cfg attempt SiteRedirect
                            (or_introl eq_refl))) as He.
  pose proof (Hget _ _ _ (@follows_post cfg attempt SiteMeterList
                            (or_intror (or_introl eq_refl)))) as Hf.
  pose proof (Hget _ _ _ (@follows_post cfg attempt SiteDashboard
                            (or_intror (or_intror (or_introl eq_refl)))))
    as Hg.
  pose proof (Hget _ _ _ (@follows_meter cfg attempt SiteMeterList
                            SiteMeterSwitchPost (or_introl eq_refl))) as Hh.
  pose proof (Hget _ _ _ (@follows_meter cfg attempt SiteMeterSwitchPost
                            SiteMeterSwitchGet
                            (or_intror (or_introl eq_refl)))) as Hi.
  pose proof (Hget _ _ _ (follows_dashboard cfg attempt)) as Hj.
  unfold in_order. cbv zeta. cbv beta in Ha. lia.
Qed.

(** X9.  The requests of a run come in the order in which they depend
    on each other.  Counted over the whole run: no more captcha images
    are fetched than login pages were requested; no more credential
    POSTs and no more uploads to the solving service are sent than
    captcha images were fetched; at most 24 polls per upload; no more
    redirect GETs, meter-list requests and dashboard requests than
    credential POSTs; no more meter-switch POSTs than meter-list
    requests and no more meter-switch GETs than meter-switch POSTs; at
    most four debug pages per dashboard request. *)
Theorem requests_in_order (cfg : Config) (st : state Image W) :
  let out := login_and_get_dashboard E cfg st in
  exists evs, trace (snd out) = trace st ++ evs /\ in_order evs.
Proof.
  cbv zeta. unfold login_and_get_dashboard.
  assert (Hnil : in_order (@nil (event Image)))
    by (unfold in_order; cbn; lia).
  destruct (negb (PyStr.truthy (USERNAME cfg))
            || negb (PyStr.truthy (PASSWORD cfg))).
  - exists []. cbn. rewrite app_nil_r. auto.
  - generalize (range 1 (MAX_LOGIN_ATTEMPTS cfg + 1)). intros attempts.
    revert st.
    change (emits (login_loop E cfg attempts) (fun _ evs => in_order evs)).
    induction attempts as [|attempt rest IH]; cbn [login_loop].
    + apply emits_raise. exact Hnil.
    + eapply emits_bind; [apply in_order_attempt | |].
      * intros [html|] evs1 H1.
        -- apply emits_ret. rewrite app_nil_r. exact H1.
        -- eapply emits_weaken; [exact IH|].
           intros r evs2 H2. apply in_order_app; assumption.
      * intros e evs1 H1. exact H1.
Qed.

End OrderFacts.

(** ** The published message *)

Lemma free_of_app (c : ascii) (s t : string) :
  free_of c (s ++ t) = free_of c s && free_of c t.
Proof. apply forall_string_app. Qed.

Lemma split_at_free (sep : ascii) (p : string) :
  free_of sep p = true -> split_at sep p = [p].
Proof.
  induction p as [|c p IH]; [reflexivity|].
  cbn. intros H. apply andb_true_iff in H. destruct H as [Hc Hp].
  apply negb_true_iff in Hc. rewrite Hc, (IH Hp). reflexivity.
Qed.

Lemma split_at_app (sep : ascii) (p s : string) :
  free_of sep p = true ->
  split_at sep (p ++ String sep s) = p :: split_at sep s.
Proof.
  induction p as [|c p IH]; cbn.
  - intros _. rewrite Ascii.eqb_refl. reflexivity.
  - intros H. apply andb_true_iff in H. destruct H as [Hc Hp].
    apply negb_true_iff in Hc. rewrite Hc, (IH Hp). reflexivity.
Qed.

Lemma split_at_join (parts : list string) :
  parts <> [] ->
  Forall (fun p => free_of "@" p = true) parts ->
  split_at "@" (str_join "@" parts) = parts.
Proof.
  induction parts as [|p rest IH]; [congruence|].
  intros _ Hfree. inversion Hfree as [|p' rest' Hp Hrest]; subst.
  destruct rest as [|q rest].
  - cbn [str_join]. apply split_at_free, Hp.
  - change (str_join "@" (p :: q :: rest))
      with (p ++ String "@" (str_join "@" (q :: rest)))%string.
    rewrite split_at_app by exact Hp.
    rewrite IH; [reflexivity | discriminate | exact Hrest].
Qed.

Lemma partition_at_app (sep : ascii) (name value : string) :
  free_of sep name = true ->
  partition_at sep (name ++ String sep value) = (name, value).
Proof.
  induction name as [|c name IH]; cbn.
  - intros _. rewrite Ascii.eqb_refl. reflexivity.
  - intros H. apply andb_true_iff in H. destruct H as [Hc Hn].
    apply negb_true_iff in Hc. rewrite Hc, (IH Hn). reflexivity.
Qed.

(** X10.  The message that [format_mqtt_message] builds can be read
    back: when no name contains [":"] or ["@"] and no value contains
    ["@"], splitting the message at every ["@"] and each part at its
    first [":"] gives the pairs again, in order (a value may contain
    [":"], as a time of day does).  On such pairs the function is
    therefore injective. *)
Theorem mqtt_message_round_trip (pairs : list (string * string)) :
  Forall (fun nv => free_of ":" (fst nv) = true
                    /\ free_of "@" (fst nv) = true
                    /\ free_of "@" (snd nv) = true) pairs ->
  read_message (format_mqtt_message pairs) = pairs.
Proof.
  intros Hpairs. unfold read_message, format_mqtt_message.
  destruct pairs as [|[name value] rest]; [reflexivity|].
  set (item := fun '(name, value) => (name ++ ":" ++ value)%string).
  assert (Htruthy : PyStr.truthy (str_join "@" (map item ((name, value) :: rest)))
                    = true).
  { cbn [map]. destruct (map item rest); cbn [str_join item];
      destruct name; reflexivity. }
  rewrite Htruthy, split_at_join.
  - rewrite map_map. rewrite <- (map_id ((name, value) :: rest)) at 2.
    apply map_ext_in. intros [n v] Hin.
    rewrite Forall_forall in Hpairs. destruct (Hpairs _ Hin) as (Hn & _ & _).
    cbn [item fst] in *. apply partition_at_app, Hn.
  - discriminate.
  - apply Forall_map. eapply Forall_impl; [|exact Hpairs].
    intros [n v] (_ & Hn & Hv). cbn [item fst snd] in *.
    change (n ++ ":" ++ v)%string with (n ++ String ":" v)%string.
    rewrite free_of_app, Hn. cbn. exact Hv.
Qed.

Lemma mqtt_message_round_trip_witness :
  read_message "peak:12:30@peak_kw:480"
  = [("peak", "12:30"); ("peak_kw", "480")]%string.
Proof.
  apply (@mqtt_message_round_trip
           [("peak", "12:30"); ("peak_kw", "480")]%string).
  repeat constructor.
Defined.

(** ** The fields of the dashboard *)

Section DashboardFields.
Context {Image W : Type} (E : Env Image W) (P : Page).

(** X11.  [parse_dashboard] publishes, in a fixed order, those of its
    seven candidate fields (see [dashboard_candidates]) whose text is
    not empty, and nothing else: a field whose node is missing or blank
    is left out of both results, the names and values of the pairs are
    never empty, and the dictionary holds the same values under the
    seven fixed keys.  The time and power of a card whose title is
    missing are still published, under the default label. *)
Theorem dashboard_fields (html : string) (now : Z) :
  let kept :=
    List.filter (fun c => PyStr.truthy (snd c))
      (dashboard_candidates P html now) in
  parse_dashboard E P html now
  = (map (fun c => (fst (fst c), JStr (snd c))) kept,
     map (fun c => (snd (fst c), snd c)) kept)
  /\ Forall (fun nv => fst nv <> ""%string /\ snd nv <> ""%string)
       (snd (parse_dashboard E P html now))
  /\ (List.length (snd (parse_dashboard E P html now)) <= 7)%nat.
Proof.
  cbv zeta. unfold parse_dashboard, dashboard_candidates.
  destruct (read_text P html ".cardDH .DH_Title") as [|a1 t1];
    destruct (read_text P html ".cardMH .DH_Title") as [|a2 t2];
    destruct (read_text P html ".cardDH .DH_Time") as [|a3 t3];
    destruct (read_text P html ".cardDH .DH_kW") as [|a4 t4];
    destruct (read_text P html ".cardMH .DH_Time") as [|a5 t5];
    destruct (read_text P html ".cardMH .DH_kW") as [|a6 t6];
    destruct (strftime P "%Y-%m-%d %H:%M:%S" now) as [|a7 t7];
    cbn -[DAILY_LABEL MONTHLY_LABEL];
    (split; [reflexivity|]);
    (split; [repeat constructor; cbn; discriminate | lia]).
Qed.

End DashboardFields.

(** ** Publishing *)

Section PublishFacts.
Context {Image W : Type} (E : Env Image W) (P : Page) (B : Broker W).

Lemma mq_call_run (c : mqtt_call) (w : W) (calls : list mqtt_call) :
  mq_call B c (w, calls)
  = (match fst (mqtt_do B c w) with None => Ok tt | Some e => Raise e end,
     (snd (mqtt_do B c w), calls ++ [c])).
Proof. unfold mq_call. cbn [fst snd]. destruct (mqtt_do B c w); reflexivity. Qed.

(** The calls of [publish_mqtt] are the first calls of [publication],
    all of them when it returns. *)
Lemma publish_mqtt_calls (mcfg : MqttConfig) (message : string) (w : W) :
  let out := publish_mqtt B mcfg message (w, []) in
  exists rest,
    publication mcfg message = snd (snd out) ++ rest
    /\ match fst out with Ok _ => rest = [] | Raise _ => True end.
Proof.
  cbv zeta. unfold publish_mqtt, publication, mq_bind.
  rewrite mq_call_run.
  destruct (fst (mqtt_do B MqttClient w)); cbn [fst snd app];
    [eexists; split; [reflexivity | exact I]|].
  destruct (PyStr.truthy (MQTT_USERNAME mcfg)).
  - rewrite mq_call_run.
    destruct (fst (mqtt_do B (MqttUsernamePwSet _ _) _)); cbn [fst snd app];
      [eexists; split; [reflexivity | exact I]|].
    rewrite mq_call_run.
    destruct (fst (mqtt_do B (MqttConnect _ _ _) _)); cbn [fst snd app];
      [eexists; split; [reflexivity | exact I]|].
    rewrite mq_call_run.
    destruct (fst (mqtt_do B (MqttPublish _ _ _) _)); cbn [fst snd app];
      [eexists; split; [reflexivity | exact I]|].
    rewrite mq_call_run.
    destruct (fst (mqtt_do B MqttDisconnect _)); cbn [fst snd app];
      exists []; split; auto.
  - cbn [mq_ret]. rewrite mq_call_run.
    destruct (fst (mqtt_do B (MqttConnect _ _ _) _)); cbn [fst snd app];
      [eexists; split; [reflexivity | exact I]|].
    rewrite mq_call_run.
    destruct (fst (mqtt_do B (MqttPublish _ _ _) _)); cbn [fst snd app];
      [eexists; split; [reflexivity | exact I]|].
    rewrite mq_call_run.
    destruct (fst (mqtt_do B MqttDisconnect _)); cbn [fst snd app];
      exists []; split; auto.
Qed.

(** X12.  [main] touches the broker only after the login has returned a
    dashboard that carries the marker [card_1]: when the login raises,
    [main] raises the same exception and makes no MQTT call.  Otherwise
    its MQTT calls are the first calls of one publication (client,
    credentials if a user name is configured, connect with keep-alive
    60, publish with the retain flag on the configured topic,
    disconnect), all of them when [main] returns, and the message
    published is [format_mqtt_message] of the pairs that
    [parse_dashboard] reads from that dashboard.  The effects of the
    login are kept as they are. *)
Theorem main_publishes (cfg : Config) (mcfg : MqttConfig)
  (st : state Image W) :
  let login := login_and_get_dashboard E cfg st in
  let out := main E P B cfg mcfg st in
  let r := fst (fst out) in
  let calls := snd out in
  trace (snd (fst out)) = trace (snd login)
  /\ match fst login with
     | Raise e => r = Raise e /\ calls = [] /\ snd (fst out) = snd login
     | Ok html =>
         PyStr.contains "card_1" html = true
         /\ exists rest,
             publication mcfg
               (format_mqtt_message
                  (snd (parse_dashboard E P html (clock (snd login)))))
             = calls ++ rest
             /\ match r with Ok _ => rest = [] | Raise _ => True end
     end.
Proof.
  cbv zeta. unfold main.
  pose proof (returns_login E cfg st) as Hmark. cbv beta in Hmark.
  destruct (login_and_get_dashboard E cfg st) as [[html|e] st1];
    cbn [fst snd] in *; [|auto].
  destruct (parse_dashboard E P html (clock st1)) as [payload pairs].
  cbn [snd].
  destruct (publish_mqtt_calls mcfg (format_mqtt_message pairs) (world st1))
    as (rest & Hcalls & Hrest).
  destruct (publish_mqtt B mcfg (format_mqtt_message pairs) (world st1, []))
    as [r [w' calls]].
  cbn [fst snd trace] in *. split; [reflexivity|].
  split; [exact Hmark|]. exists rest. auto.
Qed.

(** X13.  [publish_mqtt] stops at the first call of the MQTT library
    that raises and raises that exception: nothing is published when
    creating the client, setting the credentials or connecting fails,
    and the connection is not closed when publishing fails.  The
    credentials are set exactly when [MQTT_USERNAME] is not empty,
    whatever the password; the message is published once, retained, on
    [MQTT_TOPIC]. *)
Theorem publish_mqtt_protocol (mcfg : MqttConfig) (message : string) (w : W) :
  let out := publish_mqtt B mcfg message (w, []) in
  let calls := snd (snd out) in
  match fst out with
  | Ok _ => calls = publication mcfg message
  | Raise e =>
      exists before c w0 rest,
        calls = before ++ [c]
        /\ publication mcfg message = calls ++ rest
        /\ fst (mqtt_do B c w0) = Some e
  end.
Proof.
  cbv zeta. unfold publish_mqtt, publication, mq_bind.
  rewrite mq_call_run.
  destruct (fst (mqtt_do B MqttClient w)) eqn:H0; cbn [fst snd app].
  { exists [], MqttClient, w. eexists. repeat split; eauto. }
  destruct (PyStr.truthy (MQTT_USERNAME mcfg)).
  - rewrite mq_call_run.
    destruct (fst (mqtt_do B (MqttUsernamePwSet _ _) _)) eqn:H1;
      cbn [fst snd app].
    { exists [MqttClient]. do 2 eexists. eexists. repeat split; eauto. }
    rewrite mq_call_run.
    destruct (fst (mqtt_do B (MqttConnect _ _ _) _)) eqn:H2;
      cbn [fst snd app].
    { exists [MqttClient; MqttUsernamePwSet (MQTT_USERNAME mcfg)
                            (MQTT_PASSWORD mcfg)].
      do 2 eexists. eexists. repeat split; eauto. }
    rewrite mq_call_run.
    destruct (fst (mqtt_do B (MqttPublish _ _ _) _)) eqn:H3;
      cbn [fst snd app].
    { exists [MqttClient; MqttUsernamePwSet (MQTT_USERNAME mcfg)
                            (MQTT_PASSWORD mcfg);
              MqttConnect (MQTT_HOST mcfg) (MQTT_PORT mcfg) 60].
      do 2 eexists. eexists. repeat split; eauto. }
    rewrite mq_call_run.
    destruct (fst (mqtt_do B MqttDisconnect _)) eqn:H4; cbn [fst snd app];
      [|reflexivity].
    exists [MqttClient; MqttUsernamePwSet (MQTT_USERNAME mcfg)
                          (MQTT_PASSWORD mcfg);
            MqttConnect (MQTT_HOST mcfg) (MQTT_PORT mcfg) 60;
            MqttPublish (MQTT_TOPIC mcfg) message true].
    do 2 eexists. exists []. repeat split; eauto.
  - cbn [mq_ret]. rewrite mq_call_run.
    destruct (fst (mqtt_do B (MqttConnect _ _ _) _)) eqn:H2;
      cbn [fst snd app].
    { exists [MqttClient]. do 2 eexists. eexists. repeat split; eauto. }
    rewrite mq_call_run.
    destruct (fst (mqtt_do B (MqttPublish _ _ _) _)) eqn:H3;
      cbn [fst snd app].
    { exists [MqttClient; MqttConnect (MQTT_HOST mcfg) (MQTT_PORT mcfg) 60].
      do 2 eexists. eexists. repeat split; eauto. }
    rewrite mq_call_run.
    destruct (fst (mqtt_do B MqttDisconnect _)) eqn:H4; cbn [fst snd app];
      [|reflexivity].
    exists [MqttClient; MqttConnect (MQTT_HOST mcfg) (MQTT_PORT mcfg) 60;
            MqttPublish (MQTT_TOPIC mcfg) message true].
    do 2 eexists. exists []. repeat split; eauto.
Qed.

End PublishFacts.

(** ** The meter list: errors *)

Section MeterErrors.
Context {Image W : Type} (E : Env Image W).

(** X14.  What [select_meter_no] does when the meter list cannot be
    used.  With an empty meter number it does nothing.  Otherwise it
    sends the meter-list request, and then: a transport failure is
    raised as it is; a status of 400 or more raises [LoginError] with
    the status; a body that is neither JSON nor JSON after the date
    fix raises [LoginError "Meter list response is not JSON"], the text
    being saved first under [METER_DEBUG]; a payload that is not an
    object raises [AttributeError]; a payload whose [data] is missing
    or not a list is read as an empty list, so the meter is reported
    as not found.  In none of these cases is a meter-switch request
    sent. *)
Theorem meter_list_failures (cfg : Config) (meter_no : string)
  (st : state Image W) :
  let out := select_meter_no E cfg meter_no st in
  if negb (PyStr.truthy meter_no) then out = (Ok tt, st)
  else
    exists o,
      let listed := EvHttp SiteMeterList (meter_list_request cfg) o in
      match o with
      | HttpFailure info =>
          trace (snd out) = trace st ++ [listed]
          /\ fst out = Raise (RequestException info)
      | HttpResponse resp =>
          if status_code resp >=? 400 then
            trace (snd out) = trace st ++ [listed]
            /\ fst out
               = Raise (LoginError ("Meter list request failed "
                                    ++ PyStr.of_Z (status_code resp)))
          else
            match meter_payload E resp with
            | None =>
                trace (snd out)
                = trace st ++ listed :: meter_list_saved cfg resp
                /\ fst out = Raise (LoginError "Meter list response is not JSON")
            | Some (JDict d) =>
                match Py.get_default d "data" JNull with
                | JList items =>
                    match collect_meters E items [] with
                    | Raise e =>
                        trace (snd out)
                        = trace st ++ listed :: meter_list_saved cfg resp
                        /\ fst out = Raise e
                    | Ok _ => True
                    end
                | _ =>
                    trace (snd out)
                    = trace st ++ listed :: meter_list_saved cfg resp
                    /\ fst out
                       = Raise (LoginError ("MeterNo " ++ meter_no
                                            ++ " not found in account list"))
                end
            | Some _ =>
                trace (snd out)
                = trace st ++ listed :: meter_list_saved cfg resp
                /\ fst out = Raise (PyException "AttributeError")
            end
      end.
Proof.
  cbv zeta. unfold select_meter_no.
  destruct (negb (PyStr.truthy meter_no)); [reflexivity|].
  rewrite bind_run.
  change (request_post (METER_LIST_URL cfg) [] (Some (JDict []))
            (meter_headers cfg) 20) with (meter_list_request cfg).
  destruct (send_run E SiteMeterList (meter_list_request cfg) st)
    as (o & dt & Htr & _ & Hres).
  exists o. rewrite Hres.
  set (st1 := snd (send E SiteMeterList (meter_list_request cfg) st)) in *.
  destruct o as [resp|info]; [|cbn [fst snd]; auto].
  destruct (status_code resp >=? 400); [cbn [raise fst snd]; auto|].
  rewrite bind_run. unfold meter_payload, meter_list_saved.
  destruct (json_body resp) as [payload|].
  - cbn [ret fst snd]. rewrite bind_run. cbn [lift fst snd].
    destruct payload as [|b|z|q|nf|s|l|d]; cbn [py_get fst snd];
      try (split; [exact Htr | reflexivity]).
    rewrite bind_run. cbn [lift fst snd].
    destruct (Py.get_default d "data" JNull) as [| | | | | |items|];
      cbn [collect_meters fst snd existsb negb raise];
      try (split; [exact Htr | reflexivity]).
    destruct (collect_meters E items []);
      [exact I | split; [exact Htr | reflexivity]].
  - rewrite bind_run.
    assert (Hsaved :
      trace (snd (when_ (METER_DEBUG cfg)
                    (write_file "meter_list_response.html" (text resp)) st1))
      = trace st
          ++ EvHttp SiteMeterList (meter_list_request cfg) (HttpResponse resp)
             :: (if METER_DEBUG cfg
                 then [EvWrite "meter_list_response.html" (text resp)]
                 else [])
      /\ fst (when_ (METER_DEBUG cfg)
                (write_file "meter_list_response.html" (text resp)) st1)
         = Ok tt).
    { destruct (METER_DEBUG cfg); cbn; rewrite Htr;
        [rewrite <- app_assoc|]; auto. }
    destruct Hsaved as [Hsaved ->].
    set (st2 := snd (when_ (METER_DEBUG cfg)
                       (write_file "meter_list_response.html" (text resp))
                       st1)) in *.
    destruct (json_loads_date_fixed E (text resp)) as [payload|];
      [|cbn [raise fst snd]; auto].
    cbn [ret fst snd]. rewrite bind_run. cbn [lift fst snd].
    destruct payload as [|b|z|q|nf|s|l|d]; cbn [py_get fst snd];
      try (split; [exact Hsaved | reflexivity]).
    rewrite bind_run. cbn [lift fst snd].
    destruct (Py.get_default d "data" JNull) as [| | | | | |items|];
      cbn [collect_meters fst snd existsb negb raise];
      try (split; [exact Hsaved | reflexivity]).
    destruct (collect_meters E items []);
      [exact I | split; [exact Hsaved | reflexivity]].
Qed.

End MeterErrors.

(** ** The meter debug pages *)

Section DebugFacts.
Context {Image W : Type} (E : Env Image W).

Lemma dump_page_spec (filename url : string) (st : state Image W) :
  let out := dump_page E filename url st in
  exists o,
    trace (snd out) = trace st ++ dump_events [(filename, url)] [o]
    /\ fst out = match o with
                 | HttpResponse _ => Ok tt
                 | HttpFailure info => Raise (RequestException info)
                 end.
Proof.
  cbv zeta. unfold dump_page. rewrite bind_run.
  destruct (send_run E SiteMeterDebug (request_get url [] [] 20) st)
    as (o & dt & Htr & _ & Hres).
  exists o. rewrite Hres. cbn [dump_events]. rewrite app_nil_r.
  destruct o as [resp|info]; [|cbn [fst snd]; auto].
  destruct (status_code resp =? 200); cbn; rewrite Htr;
    [rewrite <- app_assoc|]; auto.
Qed.

Lemma dump_pages_spec (pages : list (string * string)) (st : state Image W) :
  let out := dump_pages E pages st in
  exists outs,
    trace (snd out) = trace st ++ dump_events pages outs
    /\ match fst out with
       | Ok _ =>
           List.length outs = List.length pages
           /\ forallb is_response outs = true
       | Raise e =>
           exists before info,
             outs = before ++ [HttpFailure info]
             /\ (List.length outs <= List.length pages)%nat
             /\ forallb is_response before = true
             /\ e = RequestException info
       end.
Proof.
  cbv zeta. revert st.
  induction pages as [|[filename url] rest IH]; intros st; cbn [dump_pages].
  - exists []. cbn. rewrite app_nil_r. auto.
  - rewrite bind_run.
    destruct (dump_page_spec filename url st) as (o & Htr & Hres).
    rewrite Hres. destruct o as [resp|info].
    + destruct (IH (snd (dump_page E filename url st)))
        as (outs & Htr' & Hout).
      exists (HttpResponse resp :: outs).
      split.
      * rewrite Htr', Htr. cbn [dump_events]. rewrite app_nil_r.
        rewrite <- app_assoc. reflexivity.
      * destruct (fst (dump_pages E rest (snd (dump_page E filename url st))))
          as [u|e].
        -- destruct Hout as [Hlen Hall]. cbn. auto.
        -- destruct Hout as (before & info & -> & Hlen & Hall & ->).
           exists (HttpResponse resp :: before), info.
           cbn [List.length forallb is_response andb app] in *.
           repeat split; auto. lia.
    + exists [HttpFailure info]. cbn [fst snd].
      split; [rewrite Htr; destruct rest as [|[? ?] ?]; reflexivity|].
      exists [], info. cbn. repeat split; auto. lia.
Qed.

(** X15.  [dump_meter_debug] asks for its four pages (see
    [debug_targets]) in a fixed order, one GET each, and saves the text
    of a page under its fixed file name exactly when the status is 200;
    a page with any other status is skipped without an error.  A
    transport failure ends the function with that exception, after
    which no further page is asked for. *)
Theorem dump_meter_debug_pages (cfg : Config) (st : state Image W) :
  let out := dump_meter_debug E cfg st in
  exists outs,
    trace (snd out) = trace st ++ dump_events (debug_targets E cfg) outs
    /\ match fst out with
       | Ok _ => List.length outs = 4%nat /\ forallb is_response outs = true
       | Raise e =>
           exists before info,
             outs = before ++ [HttpFailure info]
             /\ (List.length outs <= 4)%nat
             /\ forallb is_response before = true
             /\ e = RequestException info
       end.
Proof.
  cbv zeta. unfold dump_meter_debug, debug_targets. rewrite bind_run.
  destruct (dump_pages_spec [("meter_list.html"%string, UID_METER_URL cfg)] st)
    as (outs1 & Htr1 & Hout1).
  destruct (fst (dump_pages E [("meter_list.html"%string, UID_METER_URL cfg)]
                   st)) as [u|e].
  - destruct Hout1 as [Hlen1 Hall1].
    destruct outs1 as [|o1 [|? ?]]; try discriminate.
    cbn [map fst snd].
    match goal with
    | |- context [dump_pages E ?pages ?st1] =>
        destruct (dump_pages_spec pages st1) as (outs2 & Htr2 & Hout2)
    end.
    exists (o1 :: outs2). split.
    + rewrite Htr2, Htr1. cbn [dump_events]. rewrite app_nil_r.
      rewrite <- app_assoc. reflexivity.
    + match goal with
      | |- context [fst (dump_pages E ?pages ?st1)] =>
          destruct (fst (dump_pages E pages st1)) as [u2|e2]
      end.
      * destruct Hout2 as [Hlen2 Hall2].
        cbn [List.length forallb] in *.
        apply andb_true_iff in Hall1. destruct Hall1 as [-> _].
        split; [lia | exact Hall2].
      * destruct Hout2 as (before & info & -> & Hlen & Hall & ->).
        exists (o1 :: before), info.
        cbn [List.length forallb app] in *.
        apply andb_true_iff in Hall1. destruct Hall1 as [-> _].
        repeat split; auto. lia.
  - destruct Hout1 as (before & info & -> & Hlen & Hall & ->).
    exists (before ++ [HttpFailure info]). cbn [fst snd]. split.
    + rewrite Htr1.
      destruct before as [|b before]; [reflexivity|].
      rewrite length_app in Hlen. cbn in Hlen. lia.
    + exists before, info. rewrite length_app in *. cbn in *.
      repeat split; auto; lia.
Qed.

End DebugFacts.

(** ** The time the solving service is given *)

Section BudgetFacts.
Context {Image W : Type} (E : Env Image W).

Ltac break_match :=
  repeat match goal with
         | |- context [match ?x with _ => _ end] =>
             lazymatch x with
             | context [match _ with _ => _ end] => fail
             | _ => destruct x
             end
         end.

Lemma read_upload_not_timeout (resp : response) :
  read_upload E resp <> Raise (LoginError "2Captcha timeout").
Proof.
  unfold read_upload, raise_for_status, response_json, py_get, py_index.
  break_match; cbn; discriminate.
Qed.

Lemma read_poll_not_timeout (poll : response) :
  read_poll E poll <> Raise (LoginError "2Captcha timeout").
Proof.
  unfold read_poll, raise_for_status, response_json, py_get, py_get_default,
    clean_value.
  break_match; cbn; discriminate.
Qed.

(** X16.  Whatever the timeout it is given, [solve_captcha_2captcha]
    does nothing but one upload followed by polls, each poll after a
    sleep of five seconds, and it polls fewer than [timeout / 5 + 1]
    times: not at all when the timeout is zero or negative.  It raises
    the timeout error only when at least [timeout] seconds have passed
    since the call. *)
Theorem solver_time_budget (cfg : Config) (img : Image) (timeout : Z)
  (st : state Image W) :
  let out := solve_captcha_2captcha E cfg img timeout st in
  exists evs outs captcha_id,
    trace (snd out) = trace st ++ evs
    /\ (evs = []
        \/ exists up,
            evs = EvHttp SiteSolverUpload (upload_request E cfg img) up
                  :: poll_events (poll_request cfg captcha_id) outs)
    /\ 5 * Z.of_nat (List.length outs) < Z.max 0 timeout + 5
    /\ (fst out = Raise (LoginError "2Captcha timeout") ->
        timeout <= clock (snd out) - clock st).
Proof.
  cbv zeta. unfold solve_captcha_2captcha.
  destruct (PyStr.truthy (CAPTCHA_2CAPTCHA_API_KEY cfg)); cbn [negb].
  2:{ exists [], [], JNull. cbn. rewrite app_nil_r.
      repeat split; try lia; try discriminate. left. reflexivity. }
  rewrite bind_run.
  destruct (send_run E SiteSolverUpload (upload_request E cfg img) st)
    as (up & dt & Htr & Hclk & Hres).
  rewrite Hres.
  set (st1 := snd (send E SiteSolverUpload (upload_request E cfg img) st)) in *.
  destruct up as [resp|info].
  2:{ exists [EvHttp SiteSolverUpload (upload_request E cfg img)
                (HttpFailure info)], [], JNull.
      cbn [fst snd poll_events List.length].
      split; [exact Htr|]. split; [right; eauto|]. split; [lia|].
      discriminate. }
  rewrite bind_run. cbn [lift fst snd].
  destruct (read_upload E resp) as [captcha_id|e] eqn:Hup.
  2:{ exists [EvHttp SiteSolverUpload (upload_request E cfg img)
                (HttpResponse resp)], [], JNull.
      cbn [fst snd poll_events List.length].
      split; [exact Htr|]. split; [right; eauto|]. split; [lia|].
      intros [= ->]. destruct (read_upload_not_timeout _ Hup). }
  rewrite bind_run. cbn [time_time fst snd]. rewrite bind_run.
  destruct (@poll_loop_spec _ _ E cfg captcha_id (clock st1) timeout
              (poll_fuel timeout) st1)
    as (outs & r & Htr' & Hcount & Hfst & Hends);
    [ pose proof (poll_fuel_covers timeout); lia | unfold poll_fuel; lia | ].
  replace (clock st1 - clock st1) with 0 in Hcount by lia.
  rewrite Z.sub_0_r in Hcount.
  exists (EvHttp SiteSolverUpload (upload_request E cfg img) (HttpResponse resp)
          :: poll_events (poll_request cfg captcha_id) outs),
    outs, captcha_id.
  assert (Htrace :
    trace (snd (poll_loop E (poll_fuel timeout) cfg captcha_id (clock st1)
                  timeout st1))
    = trace st
        ++ EvHttp SiteSolverUpload (upload_request E cfg img)
             (HttpResponse resp)
           :: poll_events (poll_request cfg captcha_id) outs).
  { rewrite Htr', Htr, <- app_assoc. reflexivity. }
  rewrite Hfst.
  destruct r as [code|e]; cbn [ret raise fst snd].
  - split; [exact Htrace|]. split; [right; eauto|]. split; [lia|].
    discriminate.
  - split; [exact Htrace|]. split; [right; eauto|]. split; [lia|].
    intros [= ->]. cbn [polling_ends] in Hends.
    destruct Hends as [(before & final & -> & _ & Hraise)|(_ & _ & Hlate)].
    + exfalso. destruct final as [poll|info]; cbn in Hraise;
        [|discriminate].
      destruct (read_poll_not_timeout _ Hraise).
    + assert (clock st <= clock st1) by (rewrite Hclk; lia). lia.
Qed.

End BudgetFacts.

Lemma solver_time_budget_witness :
  let out :=
    solve_captcha_2captcha (Stub.stub_env never_ready)
      (Stub.stub_config true false 6 "") ["raw"%string] 10 Stub.start in
  fst out = Raise (LoginError "2Captcha timeout")
  /\ 10 <= clock (snd out) - clock Stub.start.
Proof.
  cbv zeta.
  destruct (solver_time_budget (Stub.stub_env never_ready)
              (Stub.stub_config true false 6 "") ["raw"%string] 10 Stub.start)
    as (evs & outs & captcha_id & _ & _ & _ & H).
  split; [reflexivity|]. apply H. reflexivity.
Defined.

(** ** Configuration values that are never read *)

Section UnusedFacts.
Context {Image W : Type} (E : Env Image W).
Variables cfg cfg' : Config.
Hypothesis Hpage : LOGIN_PAGE_URL cfg' = LOGIN_PAGE_URL cfg.
Hypothesis Hdash : DASHBOARD_URL cfg' = DASHBOARD_URL cfg.
Hypothesis Huid : UID_METER_URL cfg' = UID_METER_URL cfg.
Hypothesis Hlist : METER_LIST_URL cfg' = METER_LIST_URL cfg.
Hypothesis Huse : USE_2CAPTCHA cfg' = USE_2CAPTCHA cfg.
Hypothesis Hkey : CAPTCHA_2CAPTCHA_API_KEY cfg' = CAPTCHA_2CAPTCHA_API_KEY cfg.
Hypothesis Huser : USERNAME cfg' = USERNAME cfg.
Hypothesis Hpass : PASSWORD cfg' = PASSWORD cfg.
Hypothesis Hmeter : METER_NO cfg' = METER_NO cfg.
Hypothesis Hmax : MAX_LOGIN_ATTEMPTS cfg' = MAX_LOGIN_ATTEMPTS cfg.
Hypothesis Hmanual : CAPTCHA_MANUAL cfg' = CAPTCHA_MANUAL cfg.
Hypothesis Hhtml : SAVE_LOGIN_HTML cfg' = SAVE_LOGIN_HTML cfg.
Hypothesis Hresp : SAVE_LOGIN_RESPONSE cfg' = SAVE_LOGIN_RESPONSE cfg.
Hypothesis Hdd : DASHBOARD_DEBUG cfg' = DASHBOARD_DEBUG cfg.
Hypothesis Hmd : METER_DEBUG cfg' = METER_DEBUG cfg.

Local Abbreviation Eff := (M Image W).

Lemma bind_ext {A B : Type} (m m' : Eff A) (k k' : A -> Eff B) :
  (forall st, m st = m' st) -> (forall a st, k a st = k' a st) ->
  forall st, bind m k st = bind m' k' st.
Proof.
  intros Hm Hk st. unfold bind. rewrite Hm.
  destruct (m' st) as [[a|e] st']; [apply Hk | reflexivity].
Qed.

Lemma try_ext {A : Type} (m m' : Eff A) :
  (forall st, m st = m' st) -> forall st, try_ m st = try_ m' st.
Proof. intros Hm st. unfold try_. rewrite Hm. reflexivity. Qed.

Ltac fields :=
  rewrite ?Hpage, ?Hdash, ?Huid, ?Hlist, ?Huse, ?Hkey, ?Huser, ?Hpass,
    ?Hmeter, ?Hmax, ?Hmanual, ?Hhtml, ?Hresp, ?Hdd, ?Hmd.

Ltac same :=
  repeat match goal with
         | |- forall _, _ => intro
         | |- ?a = ?a => reflexivity
         | |- bind _ _ _ = bind _ _ _ => apply bind_ext
         | |- try_ _ _ = try_ _ _ => apply try_ext
         | |- (match ?x with _ => _ end) _ = _ => destruct x
         end.

Lemma same_poll_loop (captcha_id : json) (start timeout : Z) (fuel : nat)
  (st : state Image W) :
  poll_loop E fuel cfg' captcha_id start timeout st
  = poll_loop E fuel cfg captcha_id start timeout st.
Proof.
  revert st. induction fuel as [|fuel IH]; intros st; [reflexivity|].
  cbn [poll_loop]. unfold poll_request. fields. same. apply IH.
Qed.

Lemma same_solve_step (img : Image) (st : state Image W) :
  solve_step E cfg' img st = solve_step E cfg img st.
Proof.
  unfold solve_step, solve_captcha_2captcha, upload_request. fields.
  same. apply same_poll_loop.
Qed.

Lemma same_select_meter_no (meter_no : string) (st : state Image W) :
  select_meter_no E cfg' meter_no st = select_meter_no E cfg meter_no st.
Proof. unfold select_meter_no, meter_headers. fields. reflexivity. Qed.

Lemma same_finish_attempt (attempt : Z) (login_ok : bool)
  (st : state Image W) :
  finish_attempt E cfg' attempt login_ok st
  = finish_attempt E cfg attempt login_ok st.
Proof.
  unfold finish_attempt, meter_step, verify_dashboard, dump_meter_debug.
  fields. same. apply same_select_meter_no.
Qed.

Lemma same_login_attempt (attempt : Z) (st : state Image W) :
  login_attempt E cfg' attempt st = login_attempt E cfg attempt st.
Proof.
  unfold login_attempt, get_login_page, parse_login_form, fetch_captcha,
    submit_and_verify, submit, login_payload, interpret_response.
  fields. same.
  - apply same_solve_step.
  - apply same_finish_attempt.
Qed.

End UnusedFacts.

(** ** The effects a run can perform *)

Section VocabularyFacts.
Context {Image W : Type} (E : Env Image W).
Variable Q : event Image -> Prop.

Local Abbreviation Eff := (M Image W).

Lemma every_ret {A : Type} (a : A) : every Q (ret a : Eff A).
Proof. apply emits_ret. constructor. Qed.

Lemma every_raise {A : Type} (e : exn) : every Q (raise e : Eff A).
Proof. apply emits_raise. constructor. Qed.

Lemma every_lift {A : Type} (r : result A) : every Q (lift r : Eff A).
Proof. apply emits_lift. constructor. Qed.

Lemma every_time : every Q (time_time : Eff Z).
Proof. intros st. exists []. cbn. rewrite app_nil_r. split; auto. Qed.

Lemma every_try {A : Type} (m : Eff A) : every Q m -> every Q (try_ m).
Proof.
  intros Hm. eapply emits_weaken; [apply emits_try, Hm|].
  intros r evs (r0 & _ & H). exact H.
Qed.

Lemma every_when (b : bool) (m : Eff unit) :
  every Q m -> every Q (when_ b m).
Proof. intros Hm. destruct b; [exact Hm | apply every_ret]. Qed.

Lemma every_send (s : site) (rq : request) :
  (forall out, Q (EvHttp s rq out)) -> every Q (send E s rq).
Proof.
  intros Hs. eapply emits_weaken; [apply emits_send|].
  intros r evs (out & -> & _). repeat constructor. apply Hs.
Qed.

Lemma every_tesseract (variant : Image) (config : string) :
  (forall out, Q (EvOcr variant config out)) ->
  every Q (tesseract E variant config).
Proof.
  intros Hs. eapply emits_weaken; [apply emits_tesseract|].
  intros r evs (out & -> & _). repeat constructor. apply Hs.
Qed.

Lemma every_sleep (seconds : Z) :
  Q (EvSleep seconds) -> every Q (time_sleep seconds : Eff unit).
Proof.
  intros Hs. eapply emits_weaken; [apply emits_sleep|].
  intros r evs (-> & _). repeat constructor. exact Hs.
Qed.

Lemma every_write (filename contents : string) :
  Q (EvWrite filename contents) ->
  every Q (write_file filename contents : Eff unit).
Proof.
  intros Hs. eapply emits_weaken; [apply emits_write|].
  intros r evs (-> & _). repeat constructor. exact Hs.
Qed.

Lemma every_input (prompt : string) :
  (forall line, Q (EvInput prompt line)) -> every Q (input E prompt).
Proof.
  intros Hs. eapply emits_weaken; [apply emits_input|].
  intros r evs (line & -> & _). repeat constructor. apply Hs.
Qed.

End VocabularyFacts.

Ltac every_step :=
  match goal with
  | |- every _ (bind _ _) => apply every_bind; [|intros]
  | |- every _ (try_ _) => apply every_try
  | |- every _ (ret _) => apply every_ret
  | |- every _ (raise _) => apply every_raise
  | |- every _ (lift _) => apply every_lift
  | |- every _ time_time => apply every_time
  | |- every _ (when_ _ _) => apply every_when
  | |- every _ (send _ _ _) => apply every_send; intros
  | |- every _ (tesseract _ _ _) => apply every_tesseract; intros
  | |- every _ (time_sleep _) => apply every_sleep
  | |- every _ (write_file _ _) => apply every_write
  | |- every _ (input _ _) => apply every_input; intros
  | |- every _ (match ?x with _ => _ end) => destruct x
  | |- every _ (let '(_, _) := ?x in _) => destruct x
  end.

(** The side conditions: the effect at hand is in the vocabulary. *)
Ltac known :=
  lazymatch goal with
  | |- every _ _ => fail
  | |- _ =>
      cbn [known_in site_method site_timeout site_url request_get request_post
             req_method req_timeout req_url attempt_files debug_files In];
      first [ reflexivity
            | tauto
            | repeat split; reflexivity ]
  end.

Ltac every_all := repeat (every_step; try known).

Section KnownFacts.
Context {Image W : Type} (E : Env Image W) (cfg : Config) (attempt : Z).

Lemma known_ocr_captcha (img : Image) :
  every (known_in cfg attempt) (ocr_captcha E img).
Proof.
  assert (Hconfigs : forall variant cs,
             incl cs configs ->
             every (known_in cfg attempt) (ocr_configs E variant cs)).
  { intros variant cs. induction cs as [|config rest IH]; intros Hincl;
      cbn [ocr_configs]; [apply every_ret|].
    apply every_bind.
    - apply every_tesseract. intros out. apply Hincl. left. reflexivity.
    - intros raw. destruct (accepted (_clean_text raw)); [apply every_ret|].
      apply IH. intros c Hc. apply Hincl. right. exact Hc. }
  unfold ocr_captcha. generalize (_variants (pil E) img).
  induction l as [|variant rest IH]; cbn [ocr_variants]; [apply every_ret|].
  apply every_bind; [apply Hconfigs, incl_refl|].
  intros [code|]; [apply every_ret | exact IH].
Qed.

Lemma known_solve_step (img : Image) :
  every (known_in cfg attempt) (solve_step E cfg img).
Proof.
  assert (Hloop : forall captcha_id start timeout fuel,
             every (known_in cfg attempt)
               (poll_loop E fuel cfg captcha_id start timeout)).
  { intros captcha_id start timeout fuel.
    induction fuel as [|fuel IH]; cbn [poll_loop]; every_all. exact IH. }
  unfold solve_step. destruct (USE_2CAPTCHA cfg).
  - apply every_bind.
    + apply every_try. unfold solve_captcha_2captcha. every_all.
      apply Hloop.
    + intros [code|e]; every_all. apply known_ocr_captcha.
  - apply every_bind; [apply known_ocr_captcha|]. intros code. every_all.
Qed.

Lemma known_dump_meter_debug :
  every (known_in cfg attempt) (dump_meter_debug E cfg).
Proof.
  assert (Hpages : forall pages,
             Forall (fun fu => In (fst fu) debug_files) pages ->
             every (known_in cfg attempt) (dump_pages E pages)).
  { induction pages as [|[filename url] rest IH]; intros Hfiles;
      cbn [dump_pages]; [apply every_ret|].
    inversion Hfiles as [|? ? Hfile Hrest]; subst. cbn [fst] in Hfile.
    apply every_bind; [|intros; apply IH, Hrest].
    unfold dump_page. apply every_bind; [apply every_send; intros; known|].
    intros resp. apply every_when, every_write. right. exact Hfile. }
  unfold dump_meter_debug. apply every_bind; [|intros _]; apply Hpages;
    repeat constructor; cbn; tauto.
Qed.

Lemma known_login_attempt :
  every (known_in cfg attempt) (login_attempt E cfg attempt).
Proof.
  unfold login_attempt.
  apply every_bind.
  { unfold get_login_page. cbn [get_login_page_loop]. every_all. }
  intros html. apply every_bind; [every_all|]. intros _.
  apply every_bind; [every_all|]. intros [[action_url fields] captcha_url].
  apply every_bind; [every_all|]. intros token.
  apply every_bind; [unfold fetch_captcha; every_all|]. intros captcha_img.
  apply every_bind; [apply known_solve_step|].
  intros [captcha_code|]; [|apply every_ret].
  unfold submit_and_verify.
  apply every_bind; [unfold submit; every_all|]. intros resp.
  apply every_bind; [unfold interpret_response; every_all|]. intros login_ok.
  unfold finish_attempt. apply every_bind.
  - unfold meter_step. destruct (login_ok && PyStr.truthy (METER_NO cfg));
      [|apply every_ret].
    apply every_bind; [apply every_try; unfold select_meter_no; every_all|].
    intros r. every_all.
  - intros [|]; [apply every_ret|].
    unfold verify_dashboard. every_all. apply known_dump_meter_debug.
Qed.

End KnownFacts.

Lemma range_bounds (lo hi a : Z) : In a (range lo hi) -> lo <= a < hi.
Proof.
  unfold range. rewrite in_map_iff. intros (i & <- & Hi).
  apply in_seq in Hi. lia.
Qed.

(** X18.  Every effect of a run comes from a fixed vocabulary.  Each
    request has the method of its call site and an explicit timeout, 30
    seconds to the solving service and 20 seconds to the portal; the
    solving service is reached at its two fixed URLs, the dashboard and
    the meter endpoints at their configured URLs.  The recognizer is
    run with one of the four profiles only.  A sleep lasts one or five
    seconds.  The only prompt is "Enter captcha (4 chars): ".  A file
    written is one of the five meter debug files or one of
    [login_page_N.html], [login_response_N.html] and [dashboard_N.html],
    where [N] is an attempt number between 1 and the maximum. *)
Theorem effects_known {Image W : Type} (E : Env Image W) (cfg : Config)
  (st : state Image W) :
  let out := login_and_get_dashboard E cfg st in
  exists evs,
    trace (snd out) = trace st ++ evs /\ Forall (known_effect cfg) evs.
Proof.
  cbv zeta. unfold login_and_get_dashboard.
  destruct (negb (PyStr.truthy (USERNAME cfg))
            || negb (PyStr.truthy (PASSWORD cfg))).
  - exists []. cbn. rewrite app_nil_r. auto.
  - assert (Hloop : forall attempts,
               (forall a, In a attempts -> 1 <= a <= MAX_LOGIN_ATTEMPTS cfg) ->
               every (known_effect cfg) (login_loop E cfg attempts)).
    { induction attempts as [|attempt rest IH]; intros Hin; cbn [login_loop];
        [apply every_raise|].
      apply every_bind.
      - eapply emits_weaken; [apply known_login_attempt|].
        intros r evs Hevs. eapply Forall_impl; [|exact Hevs].
        intros ev Hev. exists attempt. split; [|exact Hev].
        apply Hin. left. reflexivity.
      - intros [html|]; [apply every_ret|].
        apply IH. intros a Ha. apply Hin. right. exact Ha. }
    apply Hloop. intros a Ha. apply range_bounds in Ha. lia.
Qed.

(** ** Numbers written and read back *)

Lemma uint_digits (d : Decimal.uint) :
  forall_string is_digit (NilEmpty.string_of_uint d) = true.
Proof. induction d; cbn; auto. Qed.

(** [str] of an integer: an optional sign, then at least one digit. *)
Lemma of_Z_shape (z : Z) :
  exists sign digits,
    PyStr.of_Z z = (sign ++ digits)%string
    /\ (sign = ""%string \/ sign = "-"%string)
    /\ digits <> ""%string
    /\ forall_string is_digit digits = true
    /\ digits = PyStr.of_Z (Z.abs z).
Proof.
  unfold PyStr.of_Z. destruct z as [|p|p]; cbn [Z.to_int Z.abs].
  - exists ""%string, "0"%string. repeat split; auto. discriminate.
  - exists ""%string, (NilZero.string_of_uint (Pos.to_uint p)).
    pose proof (DecimalPos.Unsigned.to_uint_nonnil p) as Hnil.
    cbn [NilZero.string_of_int].
    destruct (Pos.to_uint p) eqn:Hp; try congruence;
      (repeat split; auto; [discriminate | apply uint_digits]).
  - exists "-"%string, (NilZero.string_of_uint (Pos.to_uint p)).
    pose proof (DecimalPos.Unsigned.to_uint_nonnil p) as Hnil.
    cbn [NilZero.string_of_int].
    destruct (Pos.to_uint p) eqn:Hp; try congruence;
      (repeat split; auto; [discriminate | apply uint_digits]).
Qed.

Lemma digit_not_sign (c : ascii) :
  is_digit c = true -> Ascii.eqb c "-" = false /\ Ascii.eqb c "." = false.
Proof.
  intros H. split; apply Ascii.eqb_neq; intros ->; discriminate H.
Qed.

Lemma take_while_digits (digits rest : string) :
  forall_string is_digit digits = true ->
  take_while is_digit rest = ""%string ->
  take_while is_digit (digits ++ rest) = digits
  /\ drop_while is_digit (digits ++ rest) = drop_while is_digit rest.
Proof.
  intros Hd Hrest. induction digits as [|c digits IH]; cbn.
  - auto.
  - cbn in Hd. apply andb_true_iff in Hd. destruct Hd as [Hc Hd].
    rewrite Hc. destruct (IH Hd) as [-> ->]. auto.
Qed.

(** A token written by [str], followed by the end of the text or by a
    comma, is matched whole. *)
Lemma match_number_token (z : Z) (rest : string) :
  rest = ""%string \/ (exists more, rest = String "," more) ->
  match_number (PyStr.of_Z z ++ rest) = Some (PyStr.of_Z z).
Proof.
  intros Hrest.
  destruct (of_Z_shape z) as (sign & digits & -> & Hsign & Hne & Hd & _).
  assert (Htake : take_while is_digit rest = ""%string)
    by (destruct Hrest as [->|[more ->]]; reflexivity).
  assert (Hdrop : drop_while is_digit rest = rest)
    by (destruct Hrest as [->|[more ->]]; reflexivity).
  destruct (take_while_digits digits rest Hd Htake) as [Ht Hdr].
  unfold match_number. destruct Hsign as [->| ->].
  - cbn [append]. destruct digits as [|c digits]; [congruence|].
    cbn [append]. cbn in Hd. apply andb_true_iff in Hd.
    destruct Hd as [Hc _]. destruct (digit_not_sign c Hc) as [-> _].
    change (String c (digits ++ rest)) with (String c digits ++ rest)%string.
    rewrite Ht, Hdr, Hdrop.
    destruct Hrest as [->|[more ->]]; reflexivity.
  - cbn [append]. rewrite Ascii.eqb_refl, Ht, Hdr, Hdrop.
    destruct digits as [|c digits]; [congruence|].
    destruct Hrest as [->|[more ->]]; reflexivity.
Qed.

Lemma string_app_nil_r (s : string) : (s ++ "")%string = s.
Proof. induction s as [|c s IH]; cbn; congruence. Qed.

Lemma findall_numbers_skip (t s : string) :
  findall_numbers (String.length t) (t ++ s) = findall_numbers 0 s.
Proof. induction t as [|c t IH]; [reflexivity | exact IH]. Qed.

Lemma of_Z_nonempty (z : Z) : exists c t, PyStr.of_Z z = String c t.
Proof.
  destruct (of_Z_shape z) as (sign & digits & -> & [->| ->] & Hne & _);
    cbn; eauto.
  destruct digits; [congruence | eauto].
Qed.

Lemma findall_numbers_join (zs : list Z) :
  findall_numbers 0 (str_join "," (map PyStr.of_Z zs)) = map PyStr.of_Z zs.
Proof.
  induction zs as [|z rest IH]; [reflexivity|].
  destruct (of_Z_nonempty z) as (c & t & Hz).
  destruct rest as [|z' rest].
  - cbn [map str_join].
    pose proof (@match_number_token z ""%string (or_introl eq_refl)) as Hm.
    rewrite string_app_nil_r in Hm. rewrite Hz in *.
    cbn [findall_numbers]. rewrite Hm. f_equal.
    replace (String.length (String c t) - 1)%nat with (String.length t)
      by (cbn [String.length]; lia).
    pose proof (findall_numbers_skip t "") as Hs.
    rewrite string_app_nil_r in Hs. exact Hs.
  - change (str_join "," (map PyStr.of_Z (z :: z' :: rest)))
      with (PyStr.of_Z z
            ++ String "," (str_join "," (map PyStr.of_Z (z' :: rest))))%string.
    pose proof (@match_number_token z
                  (String "," (str_join "," (map PyStr.of_Z (z' :: rest))))
                  (or_intror (ex_intro _ _ eq_refl))) as Hm.
    cbn [map] in *. rewrite Hz in *. cbn [append findall_numbers] in *.
    rewrite Hm. f_equal.
    replace (String.length (String c t) - 1)%nat with (String.length t)
      by (cbn [String.length]; lia).
    rewrite findall_numbers_skip. cbn [findall_numbers].
    change (match_number (String "," ?s)) with (@None string).
    exact IH.
Qed.

Section NumberFacts.
Context {Image W : Type} (E : Env Image W).
Variable py_float : string -> result json.
Variable max_str_digits : option nat.

Lemma int_literal_of_Z (z : Z) :
  int_literal (PyStr.of_Z z) = Some (PyStr.of_Z (Z.abs z)).
Proof.
  destruct (of_Z_shape z) as (sign & digits & Hz & Hsign & Hne & Hd & Habs).
  rewrite Hz, <- Habs. unfold int_literal. destruct Hsign as [->| ->].
  - cbn [append]. destruct digits as [|c digits]; [congruence|].
    pose proof Hd as Hd'. cbn in Hd'. apply andb_true_iff in Hd'.
    destruct Hd' as [Hc _]. destruct (digit_not_sign c Hc) as [-> _].
    rewrite Hd. reflexivity.
  - cbn [append]. rewrite Ascii.eqb_refl, Hd.
    destruct digits; [congruence | reflexivity].
Qed.

(** X19.  Integers written by [_format_value] are read back by
    [_parse_js_array]: for a list of integers that [int] can convert
    (none longer than the interpreter's limit on digits, where there is
    one), parsing the comma-separated text that [_format_value] makes
    of the list gives the list again, every element an integer, never
    a float. *)
Theorem parse_format_round_trip (zs : list Z) :
  (forall limit,
      max_str_digits = Some limit ->
      Forall (fun z => (String.length (PyStr.of_Z (Z.abs z)) <= limit)%nat)
        zs) ->
  _parse_js_array py_float max_str_digits
    (_format_value E (JList (map JInt zs)))
  = Ok (map JInt zs).
Proof.
  intros Hlimit. unfold _parse_js_array, _format_value.
  rewrite map_map. cbn [py_str].
  change (map (fun x : Z => PyStr.of_Z x) zs) with (map PyStr.of_Z zs).
  rewrite findall_numbers_join.
  assert (Hall : Forall (fun z =>
                   match max_str_digits with
                   | Some limit =>
                       (limit <? String.length (PyStr.of_Z (Z.abs z)))%nat
                   | None => false
                   end = false) zs).
  { destruct max_str_digits as [limit|].
    - eapply Forall_impl; [|exact (Hlimit limit eq_refl)].
      intros z Hz. apply Nat.ltb_ge. exact Hz.
    - apply Forall_forall. reflexivity. }
  clear Hlimit. induction Hall as [|z rest Hz _ IH]; [reflexivity|].
  cbn [map map_result]. unfold _parse_number at 1.
  rewrite int_literal_of_Z. unfold py_int. rewrite Hz.
  unfold PyStr.of_Z at 1. rewrite NilZero.isi.
  - rewrite DecimalZ.of_to, IH. reflexivity.
  - destruct z; cbn; try discriminate.
    intros [= H]. exact (DecimalPos.Unsigned.to_uint_nonnil _ H).
  - destruct z; cbn; try discriminate.
    intros [= H]. exact (DecimalPos.Unsigned.to_uint_nonnil _ H).
Qed.

End NumberFacts.

Lemma parse_format_round_trip_witness :
  _parse_js_array (fun _ => Raise (ValueError "float")) (Some 4300%nat)
    "12,-7,0"
  = Ok [JInt 12; JInt (-7); JInt 0].
Proof.
  apply (@parse_format_round_trip _ _ (Stub.stub_env Stub.happy)
           (fun _ => Raise (ValueError "float")) (Some 4300%nat) [12; -7; 0]).
  intros limit [= <-]. repeat constructor; cbn; lia.
Defined.

(** ** Logging in to a portal that cooperates *)

Section HappyPath.
Context {Image W : Type} (E : Env Image W) (cfg : Config).
Variables (action_url : string) (fields : list (string * string)).
Variables (captcha_url token : string).
Hypothesis Hcoop : cooperative E cfg action_url fields captcha_url token.
Hypothesis Hremote : USE_2CAPTCHA cfg = true.
Hypothesis Hnometer : METER_NO cfg = ""%string.
Hypothesis Hnodebug : METER_DEBUG cfg = false.

Local Abbreviation Eff := (M Image W).

Lemma tally_app (evs1 evs2 : list (event Image))
  (a1 b1 c1 d1 a2 b2 c2 d2 : nat) :
  tally evs1 a1 b1 c1 d1 -> tally evs2 a2 b2 c2 d2 ->
  tally (evs1 ++ evs2) (a1 + a2) (b1 + b2) (c1 + c2) (d1 + d2).
Proof.
  unfold tally. rewrite !count_site_app. intros (-> & -> & -> & ->)
    (-> & -> & -> & ->). auto.
Qed.

Lemma tally_only (allowed : site -> bool) (evs : list (event Image)) :
  sites_ok allowed evs ->
  allowed SiteLoginPage = false -> allowed SiteCaptcha = false ->
  allowed SiteLoginPost = false -> allowed SiteDashboard = false ->
  tally evs 0 0 0 0.
Proof.
  intros Hok H1 H2 H3 H4. unfold tally.
  rewrite (sites_ok_count _ Hok H1), (sites_ok_count _ Hok H2),
    (sites_ok_count _ Hok H3), (sites_ok_count _ Hok H4). auto.
Qed.

(** Sequencing two steps that both succeed. *)
Lemma tally_bind {A B : Type} (m : Eff A) (k : A -> Eff B)
  (R : A -> Prop) (Q : result B -> Prop) (a1 b1 c1 d1 a2 b2 c2 d2 : nat) :
  emits m (fun r evs => (exists a, r = Ok a /\ R a) /\ tally evs a1 b1 c1 d1) ->
  (forall a, R a ->
             emits (k a) (fun r evs => Q r /\ tally evs a2 b2 c2 d2)) ->
  emits (bind m k)
    (fun r evs =>
       Q r /\ tally evs (a1 + a2) (b1 + b2) (c1 + c2) (d1 + d2)).
Proof.
  intros Hm Hk. eapply emits_bind; [exact Hm | |].
  - intros a evs1 [(a' & [= <-] & Ha) H1].
    eapply emits_weaken; [apply (Hk a Ha)|].
    intros r evs2 [Hq H2]. split; [exact Hq | apply tally_app; assumption].
  - intros e evs1 [(a' & Hneq & _) _]. discriminate.
Qed.

(** A step without requests of the four kinds that always succeeds. *)
Lemma tally_quiet {A : Type} (allowed : site -> bool) (m : Eff A)
  (R : A -> Prop) :
  only allowed m -> returns m (fun r => exists a, r = Ok a /\ R a) ->
  allowed SiteLoginPage = false -> allowed SiteCaptcha = false ->
  allowed SiteLoginPost = false -> allowed SiteDashboard = false ->
  emits m (fun r evs => (exists a, r = Ok a /\ R a) /\ tally evs 0 0 0 0).
Proof.
  intros Hm Hr H1 H2 H3 H4.
  eapply emits_weaken; [exact (only_returns Hm Hr)|].
  intros r evs [Hok HR]. split; [exact HR|].
  eapply tally_only; eassumption.
Qed.

Lemma happy_page :
  emits (get_login_page E cfg)
    (fun r evs =>
       (exists html,
           r = Ok html
           /\ (parse_login_form E cfg html
               = Ok (action_url, fields, captcha_url)
               /\ extract_token E html = Ok token))
       /\ tally evs 1 0 0 0).
Proof.
  intros st.
  destruct (coop_page Hcoop (world st))
    as (resp & dt & w' & Hsend & Hst & Hmark & Hform & Htoken).
  unfold get_login_page. cbn [get_login_page_loop].
  rewrite bind_run, try_run. cbn [fst snd].
  rewrite bind_run.
  change (request_get (LOGIN_PAGE_URL cfg) [] [] 20)
    with (login_page_request cfg).
  rewrite (@send_eq _ _ E SiteLoginPage _ st _ _ _ Hsend). cbn [fst snd].
  rewrite bind_run. cbn [lift fst snd]. rewrite Hst. cbn [ret fst snd].
  rewrite Hmark. cbn [ret fst snd trace].
  exists [EvHttp SiteLoginPage (login_page_request cfg) (HttpResponse resp)].
  split; [reflexivity|]. split; [eauto|]. repeat split.
Qed.

Lemma happy_captcha :
  emits (fetch_captcha E cfg captcha_url)
    (fun r evs => (exists img, r = Ok img /\ True) /\ tally evs 0 1 0 0).
Proof.
  intros st.
  destruct (coop_captcha Hcoop (world st))
    as (resp & dt & w' & img & Hsend & Hst & Himg).
  unfold fetch_captcha. rewrite bind_run.
  change (request_get captcha_url [] [("Referer", LOGIN_PAGE_URL cfg)] 20)
    with (captcha_request cfg captcha_url).
  rewrite (@send_eq _ _ E SiteCaptcha _ st _ _ _ Hsend). cbn [fst snd].
  rewrite bind_run. cbn [lift fst snd]. rewrite Hst, Himg.
  cbn [ret fst snd trace].
  exists [EvHttp SiteCaptcha (captcha_request cfg captcha_url)
            (HttpResponse resp)].
  split; [reflexivity|]. split; [eauto|]. repeat split.
Qed.

Lemma happy_ocr (img : Image) :
  returns (ocr_captcha E img) (fun r => exists code, r = Ok code).
Proof.
  assert (Hconfigs : forall variant cs,
             returns (ocr_configs E variant cs) (fun r => exists o, r = Ok o)).
  { intros variant cs. induction cs as [|config rest IH]; cbn [ocr_configs].
    - intros st. cbn. eauto.
    - apply returns_bind with (R1 := fun r => exists raw, r = Ok raw).
      + intros st. unfold tesseract.
        destruct (coop_recognizer Hcoop variant config (world st))
          as (raw & w' & ->). cbn. eauto.
      + intros raw _. destruct (accepted (_clean_text raw)); [|exact IH].
        intros st. cbn. eauto.
      + intros e (raw & Hneq). discriminate. }
  unfold ocr_captcha. generalize (_variants (pil E) img).
  induction l as [|variant rest IH]; cbn [ocr_variants].
  - intros st. cbn. eauto.
  - eapply returns_bind; [apply Hconfigs | |].
    + intros [code|] _; [intros st; cbn; eauto | exact IH].
    + intros e (o & Hneq). discriminate.
Qed.

Lemma happy_solve (img : Image) :
  emits (solve_step E cfg img)
    (fun r evs =>
       (exists a, r = Ok a /\ exists code, a = Some code)
       /\ tally evs 0 0 0 0).
Proof.
  assert (Hret : returns (solve_step E cfg img)
                   (fun r => exists code, r = Ok (Some code))).
  { unfold solve_step. rewrite Hremote.
    eapply returns_bind with (R1 := fun r => exists r0, r = Ok r0).
    - intros st. rewrite try_run. cbn. eauto.
    - intros [code|e] _.
      + intros st. cbn. eauto.
      + eapply returns_bind; [apply happy_ocr | |].
        * intros code _ st. cbn. eauto.
        * intros e' (code & Hneq). discriminate.
    - intros e (r0 & Hneq). discriminate. }
  eapply emits_weaken;
    [exact (only_returns (only_solve_step E solver_sites cfg img
                            eq_refl eq_refl) Hret)|].
  intros r evs [Hok (code & ->)]. split; [eauto|].
  eapply tally_only; [exact Hok | reflexivity..].
Qed.

Lemma happy_submit (attempt : Z) (captcha_code : string) :
  emits (submit E cfg attempt action_url fields token captcha_code)
    (fun r evs =>
       (exists resp, r = Ok resp /\ accepts resp) /\ tally evs 0 0 1 0).
Proof.
  intros st.
  destruct (coop_post Hcoop captcha_code (world st))
    as (resp & dt & w' & Hsend & Hacc).
  unfold submit. rewrite bind_run.
  change (request_post action_url
            (login_payload cfg fields token captcha_code) None
            [("Referer", LOGIN_PAGE_URL cfg);
             ("RequestVerificationToken", token)] 20)
    with (credential_request cfg action_url fields token captcha_code).
  rewrite (@send_eq _ _ E SiteLoginPost _ st _ _ _ Hsend). cbn [fst snd].
  rewrite bind_run.
  destruct (SAVE_LOGIN_RESPONSE cfg); cbn [when_ write_file log ret fst snd trace].
  - exists [EvHttp SiteLoginPost
              (credential_request cfg action_url fields token captcha_code)
              (HttpResponse resp);
            EvWrite ("login_response_" ++ PyStr.of_Z attempt ++ ".html")
              (text resp)].
    split; [rewrite <- app_assoc; reflexivity|].
    split; [eauto | repeat split].
  - exists [EvHttp SiteLoginPost
              (credential_request cfg action_url fields token captcha_code)
              (HttpResponse resp)].
    split; [reflexivity|]. split; [eauto | repeat split].
Qed.

Lemma happy_verdict (resp : response) (st : state Image W) :
  accepts resp -> interpret_response E cfg resp st = (Ok true, st).
Proof.
  intros (Hjson & d & block & Hbody & Hdata & Hstatus & Hurl).
  unfold interpret_response. unfold is_json_response in Hjson.
  rewrite Hjson, Hbody. rewrite bind_run. cbn [lift py_get fst snd].
  rewrite Hdata, Hstatus, Hurl. reflexivity.
Qed.

Lemma happy_finish (attempt : Z) :
  emits (finish_attempt E cfg attempt true)
    (fun r evs =>
       (exists html, r = Ok (Some html)
                     /\ PyStr.contains "card_1" html = true)
       /\ tally evs 0 0 0 1).
Proof.
  intros st.
  destruct (coop_dashboard Hcoop (world st))
    as (resp & dt & w' & Hsend & Hmark).
  unfold finish_attempt, meter_step. rewrite Hnometer.
  cbn [PyStr.truthy andb]. rewrite bind_run. cbn [ret fst snd].
  unfold verify_dashboard. rewrite bind_run.
  change (request_get (DASHBOARD_URL cfg) [] [] 20)
    with (dashboard_request cfg).
  rewrite (@send_eq _ _ E SiteDashboard _ st _ _ _ Hsend). cbn [fst snd].
  rewrite Hnodebug. rewrite bind_run.
  destruct (DASHBOARD_DEBUG cfg);
    cbn [when_ write_file log ret fst snd trace];
    rewrite bind_run; cbn [when_ ret fst snd]; rewrite Hmark;
    cbn [ret fst snd trace].
  - exists [EvHttp SiteDashboard (dashboard_request cfg) (HttpResponse resp);
            EvWrite ("dashboard_" ++ PyStr.of_Z attempt ++ ".html")
              (text resp)].
    split; [rewrite <- app_assoc; reflexivity|].
    split; [eauto | repeat split].
  - exists [EvHttp SiteDashboard (dashboard_request cfg) (HttpResponse resp)].
    split; [reflexivity|]. split; [eauto | repeat split].
Qed.

Lemma emits_lift_ok {A B : Type} (x : A) (k : A -> Eff B)
  (P : result B -> list (event Image) -> Prop) :
  emits (k x) P -> emits (bind (lift (Ok x)) k) P.
Proof. intros H st. exact (H st). Qed.

Lemma emits_pure_bind {A B : Type} (m : Eff A) (a : A) (k : A -> Eff B)
  (P : result B -> list (event Image) -> Prop) :
  (forall st, m st = (Ok a, st)) -> emits (k a) P -> emits (bind m k) P.
Proof. intros Hm H st. unfold bind. rewrite Hm. exact (H st). Qed.

Lemma happy_attempt (attempt : Z) :
  emits (login_attempt E cfg attempt)
    (fun r evs =>
       (exists html, r = Ok (Some html)
                     /\ PyStr.contains "card_1" html = true)
       /\ tally evs 1 1 1 1).
Proof.
  unfold login_attempt. eapply emits_weaken.
  { eapply tally_bind; [apply happy_page|]. intros html [Hform Htok].
    eapply tally_bind with (R := fun _ => True).
    { apply tally_quiet with (allowed := no_site); try reflexivity.
      - only_all.
      - intros st. destruct (SAVE_LOGIN_HTML cfg); cbn; eauto. }
    intros _ _. rewrite Hform. apply emits_lift_ok.
    rewrite Htok. apply emits_lift_ok.
    eapply tally_bind; [apply happy_captcha|]. intros img _.
    eapply tally_bind; [apply happy_solve|]. intros a (code & ->).
    unfold submit_and_verify.
    eapply tally_bind; [apply happy_submit|]. intros resp Hacc.
    apply emits_pure_bind with (a := true);
      [intros st; apply happy_verdict, Hacc|].
    apply happy_finish. }
  intros r evs [HQ Ht]. split; [exact HQ | exact Ht].
Qed.

(** X20.  With the solving service enabled, no meter configured and
    the meter debug pages off, a portal that cooperates is logged into
    on the first attempt: when the login page always arrives with its
    form and token, the captcha image always arrives, the recognizer
    never fails, the credentials are accepted whatever the code and the
    dashboard carries the marker, [login_and_get_dashboard] returns a
    dashboard with the marker after exactly one page load, one captcha
    fetch, one credential POST and one dashboard fetch. *)
Theorem cooperative_portal_logs_in (st : state Image W) :
  PyStr.truthy (USERNAME cfg) = true ->
  PyStr.truthy (PASSWORD cfg) = true ->
  0 < MAX_LOGIN_ATTEMPTS cfg ->
  let out := login_and_get_dashboard E cfg st in
  exists html evs,
    fst out = Ok html
    /\ PyStr.contains "card_1" html = true
    /\ trace (snd out) = trace st ++ evs
    /\ tally evs 1 1 1 1.
Proof.
  intros Hu Hp Hmax. cbv zeta. unfold login_and_get_dashboard.
  rewrite Hu, Hp. cbn [negb orb].
  rewrite range_cons by lia. cbn [login_loop]. rewrite bind_run.
  destruct (happy_attempt 1 st) as (evs & Htr & (html & Hres & Hmark) & Ht).
  rewrite Hres. cbn [ret fst snd]. exists html, evs.
  split; [reflexivity|]. split; [exact Hmark|]. split; [exact Htr | exact Ht].
Qed.

End HappyPath.

Lemma cooperative_portal_logs_in_witness :
  exists html,
    fst (login_and_get_dashboard (Stub.stub_env Stub.happy)
           (Stub.stub_config true false 6 "") Stub.start) = Ok html
    /\ PyStr.contains "card_1" html = true.
Proof.
  assert (Hcoop : cooperative (Stub.stub_env Stub.happy)
                    (Stub.stub_config true false 6 "")
                    Stub.url_post [("__RequestVerificationToken", "tok")]%string
                    Stub.url_captcha "tok").
  { constructor.
    - intros w. do 3 eexists. repeat split; reflexivity.
    - intros w. do 4 eexists. repeat split; reflexivity.
    - intros variant config w. do 2 eexists. reflexivity.
    - intros code w. do 3 eexists. split; [reflexivity|].
      split; [reflexivity|]. do 2 eexists. repeat split; reflexivity.
    - intros w. do 3 eexists. split; reflexivity. }
  destruct (cooperative_portal_logs_in Hcoop eq_refl eq_refl eq_refl
              Stub.start eq_refl eq_refl eq_refl)
    as (html & evs & Hres & Hmark & _).
  exists html. auto.
Defined.

(** ** Every request uses the page of its attempt *)

Section FreshFacts.
Context {Image W : Type} (E : Env Image W) (cfg : Config).

Local Abbreviation Eff := (M Image W).

Lemma posts_fresh_app (page : option string) (evs1 evs2 : list (event Image)) :
  posts_fresh E cfg page evs1 ->
  posts_fresh E cfg (page_after page evs1) evs2 ->
  posts_fresh E cfg page (evs1 ++ evs2).
Proof.
  revert page. induction evs1 as [|ev evs1 IH]; intros page H1 H2;
    [exact H2|].
  destruct ev as [s rq out| | | |]; cbn in *; try (apply IH; assumption).
  destruct s; cbn in *; try (apply IH; assumption);
    destruct H1 as [Hpage H1]; (split; [exact Hpage | apply IH; assumption]).
Qed.

Lemma page_after_app (page : option string) (evs1 evs2 : list (event Image)) :
  page_after page (evs1 ++ evs2) = page_after (page_after page evs1) evs2.
Proof.
  revert page. induction evs1 as [|ev evs1 IH]; intros page; [reflexivity|].
  destruct ev as [s rq out| | | |]; cbn; try apply IH.
  destruct s; cbn; apply IH.
Qed.

Lemma fresh_quiet (evs : list (event Image)) (page : option string) :
  sites_ok other_sites evs ->
  posts_fresh E cfg page evs /\ page_after page evs = page.
Proof.
  intros Hok. induction Hok as [|ev evs Hev _ IH]; [split; reflexivity|].
  destruct ev as [s rq out| | | |]; cbn in *; try exact IH.
  destruct s; cbn in *; try discriminate; exact IH.
Qed.

(** A step that neither loads a page nor uses one. *)
Lemma fresh_pass {A B : Type} (page : option string) (m : Eff A)
  (k : A -> Eff B) (R : result A -> Prop) :
  only other_sites m -> returns m R ->
  (forall a, R (Ok a) ->
             emits (k a) (fun _ evs => posts_fresh E cfg page evs)) ->
  emits (bind m k) (fun _ evs => posts_fresh E cfg page evs).
Proof.
  intros Hm Hr Hk.
  eapply emits_bind; [exact (only_returns Hm Hr) | |].
  - intros a evs1 [Hok Ha]. eapply emits_weaken; [apply (Hk a Ha)|].
    intros r evs2 H2. destruct (fresh_quiet page Hok) as [H1 Hafter].
    apply posts_fresh_app; [exact H1 | rewrite Hafter; exact H2].
  - intros e evs1 [Hok _]. apply (fresh_quiet page Hok).
Qed.

Lemma returns_any {A : Type} (m : Eff A) : returns m (fun _ => True).
Proof. intros st. exact I. Qed.

Lemma fresh_end {A : Type} (page : option string) (m : Eff A) :
  only other_sites m -> emits m (fun _ evs => posts_fresh E cfg page evs).
Proof.
  intros Hm. eapply emits_weaken; [exact Hm|].
  intros r evs Hok. apply (fresh_quiet page Hok).
Qed.

(** The loop of [get_login_page]: whatever the page at hand was, its
    requests leave the page it returns at hand. *)
Lemma fresh_page_loop (urls : list string) (last_err : option exn) :
  emits (get_login_page_loop E urls last_err)
    (fun r evs =>
       forall page,
         posts_fresh E cfg page evs
         /\ forall html, r = Ok html -> page_after page evs = Some html).
Proof.
  revert last_err. induction urls as [|url rest IH]; intros last_err.
  - destruct last_err; (apply emits_raise; intros page; split;
      [exact I | discriminate]).
  - rewrite get_login_page_loop_cons. intros st.
    rewrite bind_run, try_run. cbn [fst snd].
    destruct (page_try_run E url st) as (o & Htr & Hres).
    cbv zeta in Htr, Hres. rewrite Hres.
    set (st1 := snd ((resp <- send E SiteLoginPage (request_get url [] [] 20) ;;
                      lift (raise_for_status resp) ;;; ret resp)%py st)) in *.
    assert (Hnext : forall last_err',
      exists evs,
        trace (snd (get_login_page_loop E rest last_err' st1))
        = trace st ++ evs
        /\ forall page,
            posts_fresh E cfg page evs
            /\ forall html,
                fst (get_login_page_loop E rest last_err' st1) = Ok html ->
                page_after page evs = Some html).
    { intros last_err'.
      destruct (IH last_err' st1) as (evs2 & Htr2 & H2).
      exists (EvHttp SiteLoginPage (request_get url [] [] 20) o :: evs2).
      split; [rewrite Htr2, Htr, <- app_assoc; reflexivity|].
      intros page. cbn [posts_fresh page_after]. apply H2. }
    destruct o as [resp|info].
    + cbn [page_error] in Hres |- *.
      destruct ((400 <=? status_code resp) && (status_code resp <? 600))
        eqn:Herr.
      * apply Hnext.
      * destruct (PyStr.contains "__RequestVerificationToken" (text resp))
          eqn:Hmark; [|apply Hnext].
        exists [EvHttp SiteLoginPage (request_get url [] [] 20)
                  (HttpResponse resp)].
        cbn [ret fst snd]. split; [exact Htr|].
        intros page. cbn [posts_fresh page_after page_delivered].
        rewrite Herr, Hmark. split; [exact I|]. intros html [= <-].
        reflexivity.
    + apply Hnext.
Qed.

Lemma fresh_captcha (html action_url : string)
  (fields : list (string * string)) (captcha_url : string) :
  parse_login_form E cfg html = Ok (action_url, fields, captcha_url) ->
  emits (fetch_captcha E cfg captcha_url)
    (fun _ evs =>
       posts_fresh E cfg (Some html) evs
       /\ page_after (Some html) evs = Some html).
Proof.
  intros Hform. unfold fetch_captcha.
  eapply emits_bind; [apply emits_send | |].
  - intros resp evs1 (out & -> & _).
    assert (Hrest : only other_sites
              (bind (lift (raise_for_status resp))
                 (fun _ => match image_open E (content resp) with
                           | Some img => ret img
                           | None => raise (PyException "UnidentifiedImageError")
                           end) : Eff Image))
      by only_all.
    eapply emits_weaken; [exact Hrest|].
    intros r evs2 Hok. destruct (fresh_quiet (Some html) Hok) as [H2 Hafter].
    cbn [app posts_fresh page_after]. split; [|exact Hafter].
    split; [|exact H2].
    exists action_url, fields, captcha_url. split; [exact Hform | reflexivity].
  - intros e evs1 (out & -> & _). cbn [posts_fresh page_after].
    split; [|reflexivity]. split; [|exact I].
    exists action_url, fields, captcha_url. split; [exact Hform | reflexivity].
Qed.

(** The code that the captcha step hands on. *)
Lemma solve_step_code (img : Image) :
  returns (solve_step E cfg img)
    (fun r => match r with
              | Ok (Some code) => code_ok cfg code
              | _ => True
              end).
Proof.
  unfold solve_step, code_ok. destruct (USE_2CAPTCHA cfg).
  - eapply returns_bind with (R1 := fun r =>
      match r with
      | Ok (Ok code) =>
          code = ""%string
          \/ (String.length code = 4%nat /\ forall_string is_alnum code = true)
      | _ => True
      end).
    + intros st. rewrite try_run. cbn [fst].
      exact (returns_solver_shape E cfg img 120 st).
    + intros [code|e] Hc.
      * intros st. exact Hc.
      * eapply returns_bind; [apply (returns_ocr_shape E img) | |].
        -- intros code Hcode st. exact Hcode.
        -- intros e' _. exact I.
    + intros e _. exact I.
  - apply returns_bind_any; [|intros; exact I]. intros code.
    destruct (CAPTCHA_MANUAL cfg); [|intros st; exact I].
    intros st. rewrite bind_run, try_run. unfold input.
    destruct (console_input E "Enter captcha (4 chars): " (world st))
      as [[line|] w']; cbn [fst snd]; [|exact I].
    destruct (PyStr.len (PyStr.strip line) =? 4) eqn:Hlen; [|exact I].
    cbn. split; [reflexivity | apply accepted_length, Hlen].
Qed.

Lemma fresh_attempt (attempt : Z) (page : option string) :
  emits (login_attempt E cfg attempt)
    (fun _ evs => posts_fresh E cfg page evs).
Proof.
  unfold login_attempt.
  eapply emits_bind; [apply fresh_page_loop | |];
    [|intros e evs1 H1; apply (H1 page)].
  intros html evs1 H1. destruct (H1 page) as [Hfresh Hafter].
  specialize (Hafter html eq_refl).
  eapply emits_weaken with
    (P := fun _ evs2 => posts_fresh E cfg (Some html) evs2).
  2:{ intros r evs2 H2. apply posts_fresh_app; [exact Hfresh|].
      rewrite Hafter. exact H2. }
  eapply fresh_pass; [only_all | apply returns_any | intros _ _].
  destruct (parse_login_form E cfg html)
    as [[[action_url fields] captcha_url]|e] eqn:Hform;
    [|apply emits_raise; exact I].
  apply emits_lift_ok.
  destruct (extract_token E html) as [token|e] eqn:Htoken;
    [|apply emits_raise; exact I].
  apply emits_lift_ok.
  eapply emits_bind;
    [exact (@fresh_captcha html action_url fields captcha_url Hform) | |];
    [|intros e evs2 [H2 _]; exact H2].
  intros img evs2 [H2 Hafter2].
  eapply emits_weaken with
    (P := fun _ evs3 => posts_fresh E cfg (Some html) evs3).
  2:{ intros r evs3 H3. apply posts_fresh_app; [exact H2|].
      rewrite Hafter2. exact H3. }
  eapply fresh_pass; [only_all | apply solve_step_code|].
  intros [code|] Hcode; [|apply emits_ret; exact I].
  assert (Hpost : forall rq,
             rq = credential_request cfg action_url fields token code ->
             post_of_page E cfg html rq).
  { intros rq ->. exists action_url, fields, captcha_url, token, code.
    repeat split; assumption. }
  unfold submit_and_verify, submit.
  eapply emits_bind with
    (P := fun _ evs =>
            posts_fresh E cfg (Some html) evs
            /\ page_after (Some html) evs = None);
    [eapply emits_bind; [apply emits_send | |] | |].
  - intros resp evs3 (out & -> & _).
    eapply emits_weaken with
      (P := fun r evs4 => sites_ok other_sites evs4).
    { match goal with |- emits ?m _ => change (only other_sites m) end.
      only_all. }
    intros r evs4 Hok. cbn [app posts_fresh page_after].
    destruct (fresh_quiet None Hok) as [H4 Hafter4].
    split; [|exact Hafter4]. split; [|exact H4].
    apply Hpost. reflexivity.
  - intros e evs3 (out & -> & _). cbn [posts_fresh page_after].
    split; [|reflexivity]. split; [|exact I].
    apply Hpost. reflexivity.
  - intros resp evs3 [H3 Hafter3].
    eapply emits_weaken with
      (P := fun _ evs4 => posts_fresh E cfg None evs4).
    + apply fresh_end. only_all.
    + intros r evs4 H4. apply posts_fresh_app; [exact H3|].
      rewrite Hafter3. exact H4.
  - intros e evs3 [H3 _]. exact H3.
Qed.

(** X21.  Every captcha fetch and every credential POST of a run
    belongs to the login page loaded last: the captcha is fetched from
    the URL that this page names; the credentials are posted to the
    action of this page's form, with the fields of that form and the
    token of this page, and with a code that is empty or has four
    alphanumeric characters when the solving service is on, and was
    typed and has four characters otherwise.  No page is used for more
    than one credential POST, and nothing is posted before a page has
    been delivered. *)
Theorem requests_use_fresh_page (st : state Image W) :
  let out := login_and_get_dashboard E cfg st in
  exists evs,
    trace (snd out) = trace st ++ evs /\ posts_fresh E cfg None evs.
Proof.
  cbv zeta. unfold login_and_get_dashboard.
  destruct (negb (PyStr.truthy (USERNAME cfg))
            || negb (PyStr.truthy (PASSWORD cfg))).
  - exists []. cbn. rewrite app_nil_r. auto.
  - generalize (range 1 (MAX_LOGIN_ATTEMPTS cfg + 1)). intros attempts.
    generalize (@None string). intros page. revert st.
    change (emits (login_loop E cfg attempts)
              (fun _ evs => posts_fresh E cfg page evs)).
    revert page. induction attempts as [|attempt rest IH]; intros page;
      cbn [login_loop].
    + apply emits_raise. exact I.
    + eapply emits_bind with
        (P := fun _ evs => posts_fresh E cfg page evs);
        [apply fresh_attempt | |].
      * intros [html|] evs1 H1.
        -- apply emits_ret. rewrite app_nil_r. exact H1.
        -- eapply emits_weaken; [apply (IH (page_after page evs1))|].
           intros r evs2 H2. apply posts_fresh_app; assumption.
      * intros e evs1 H1. exact H1.
Qed.

End FreshFacts.

(** ** Where the credentials and the captcha request go *)

Section RouteFacts.
Context {Image W : Type} (E : Env Image W) (cfg : Config).

Local Abbreviation Eff := (M Image W).

Lemma parse_login_form_urls (html action_url : string)
  (fields : list (string * string)) (captcha_url : string) :
  parse_login_form E cfg html = Ok (action_url, fields, captcha_url) ->
  (exists action,
      form_target E html = Some action
      /\ action_url = urljoin E (LOGIN_PAGE_URL cfg) action)
  /\ captcha_url = urljoin E (LOGIN_PAGE_URL cfg) (captcha_src E html).
Proof.
  unfold parse_login_form, form_target, captcha_src.
  destruct (find_login_form E html) as [form|]; [|discriminate].
  destruct (negb (PyStr.truthy _)); [discriminate|].
  intros [= <- _ <-]. split; [eauto | reflexivity].
Qed.

Lemma posts_fresh_routed (evs : list (event Image)) :
  forall page, posts_fresh E cfg page evs -> routed E cfg page evs.
Proof.
  induction evs as [|ev evs IH]; intros page Hfresh; [exact I|].
  destruct ev as [s rq out| | | |]; cbn in *; try (apply IH; assumption).
  destruct s; cbn in *; try (apply IH; assumption).
  - destruct Hfresh as [Hpage Hrest]. split; [|apply IH, Hrest].
    destruct page as [html|]; [|destruct Hpage].
    destruct Hpage as (action_url & fields & captcha_url & Hform & ->).
    exists html. split; [reflexivity|].
    exact (proj2 (parse_login_form_urls _ Hform)).
  - destruct Hfresh as [Hpage Hrest]. split; [|apply IH, Hrest].
    destruct page as [html|]; [|destruct Hpage].
    destruct Hpage
      as (action_url & fields & captcha_url & token & code & Hform & _ & ->
          & _).
    destruct (proj1 (parse_login_form_urls _ Hform)) as (action & Ht & ->).
    exists html, action. auto.
Qed.

Lemma fresh_loop (attempts : list Z) :
  forall page,
    emits (login_loop E cfg attempts)
      (fun _ evs => posts_fresh E cfg page evs).
Proof.
  induction attempts as [|attempt rest IH]; intros page; cbn [login_loop].
  - apply emits_raise. exact I.
  - eapply emits_bind with (P := fun _ evs => posts_fresh E cfg page evs);
      [apply fresh_attempt | |].
    + intros [html|] evs1 H1.
      * apply emits_ret. rewrite app_nil_r. exact H1.
      * eapply emits_weaken; [apply (IH (page_after page evs1))|].
        intros r evs2 H2. apply posts_fresh_app; assumption.
    + intros e evs1 H1. exact H1.
Qed.

(** X17.  The URLs configured as [TAIPOWER_LOGIN_POST_URL] and
    [TAIPOWER_CAPTCHA_URL] are never read: whatever their values, a run
    performs the same effects and ends in the same way.  The
    credentials go to the [action] of the form found on the login page
    loaded last, and the captcha is fetched from the [src] of that
    page's captcha image or, without one, from the default path, both
    resolved against the login page URL. *)
Theorem unused_urls (login_post_url captcha_url : string)
  (st : state Image W) :
  let out :=
    login_and_get_dashboard E (with_urls cfg login_post_url captcha_url) st in
  out = login_and_get_dashboard E cfg st
  /\ exists evs,
      trace (snd out) = trace st ++ evs /\ routed E cfg None evs.
Proof.
  cbv zeta.
  assert (Hsame :
    login_and_get_dashboard E (with_urls cfg login_post_url captcha_url) st
    = login_and_get_dashboard E cfg st).
  { unfold login_and_get_dashboard.
    change (USERNAME (with_urls cfg login_post_url captcha_url))
      with (USERNAME cfg).
    change (PASSWORD (with_urls cfg login_post_url captcha_url))
      with (PASSWORD cfg).
    change (MAX_LOGIN_ATTEMPTS (with_urls cfg login_post_url captcha_url))
      with (MAX_LOGIN_ATTEMPTS cfg).
    destruct (negb (PyStr.truthy (USERNAME cfg))
              || negb (PyStr.truthy (PASSWORD cfg))); [reflexivity|].
    generalize (range 1 (MAX_LOGIN_ATTEMPTS cfg + 1)). intros attempts.
    generalize st. induction attempts as [|attempt rest IH]; intros st0;
      [reflexivity|].
    cbn [login_loop]. apply bind_ext.
    - intros st'. apply same_login_attempt; reflexivity.
    - intros [html|] st'; [reflexivity | apply IH]. }
  split; [exact Hsame|]. rewrite Hsame.
  unfold login_and_get_dashboard.
  destruct (negb (PyStr.truthy (USERNAME cfg))
            || negb (PyStr.truthy (PASSWORD cfg))).
  - exists []. cbn. rewrite app_nil_r. auto.
  - destruct (fresh_loop (range 1 (MAX_LOGIN_ATTEMPTS cfg + 1)) None st)
      as (evs & Htr & Hfresh).
    exists evs. split; [exact Htr | apply posts_fresh_routed, Hfresh].
Qed.

End RouteFacts.
